(** * Storage marketplace: inventory allocation and booking lifecycle

    A shallow embedding of the service layer of the storage marketplace
    (listings/services.py, prelistings/services.py, bookings/services.py)
    together with the model classes those services read and write
    (listings/models.py, prelistings/models.py, bookings/models.py).

    Conventions of the embedding:
    - a database table is the list of its rows, in the order the database
      returns them when no ordering is requested;
    - a foreign key is the primary key of the row it points to;
    - a model instance held by Python code is a row value that is passed
      in and handed back next to the database, so that both the in-memory
      object and the stored row can be observed after a call;
    - an exception is the [Raise] outcome of a call, returned together with
      the object and the database as they are when it is raised;
    - Python [int] is [Z], [datetime.date] is its ordinal in [Z], a
      [Decimal] and a [float] are their values in [Q], with the rounding
      of their divisions written out, and [str] is [string]. *)

From Stdlib Require Import ZArith List String Ascii Bool Lia QArith.
From Stdlib Require Import DecimalString Permutation Sorted.
From Stdlib Require Import DecimalNat FinFun.
Import ListNotations.

Open Scope Z_scope.

(** ** listings/constants.py *)

Definition SHELF_LENGTH : Z := 50.
Definition SHELF_WIDTH : Z := 46.
Definition SHELF_HEIGHT : Z := 42.

(** ** Exceptions (listings/exceptions.py, prelistings/exceptions.py)

    The last two are Python's own: [a / b] on integers raises
    [ZeroDivisionError] for a zero divisor and [OverflowError] when the
    quotient is too large for a float. *)

Inductive exn : Type :=
| InvalidSpaceStateError (status : string)
| SpaceStateTransitionError (status new_status : string)
| InstallationRequestError (message : string)
| InvalidInstallationRequestStateError (status : string)
| InstallationRequestStateTransitionError (status new_status : string)
| IncompleteInstallationRequestError (message : string)
| ZeroDivisionError
| OverflowError.

Inductive result (A : Type) : Type :=
| Ok (a : A)
| Raise (e : exn).

Arguments Ok {A} a.
Arguments Raise {A} e.

(** ** Query helpers

    The pieces of the Django ORM the services use: membership in a list
    of codes, [order_by] on an integer key, [first], and the fresh primary
    key an INSERT assigns. *)

Definition code_in (s : string) (codes : list string) : bool :=
  existsb (String.eqb s) codes.

Definition id_in (i : Z) (ids : list Z) : bool :=
  existsb (Z.eqb i) ids.

Section OrderBy.
Context {A : Type} (key : A -> Z).

Fixpoint insert_by (x : A) (l : list A) : list A :=
  match l with
  | [] => [x]
  | y :: l' => if key x <=? key y then x :: l else y :: insert_by x l'
  end.

Definition key_le (x y : A) : Prop := key x <= key y.

(** ORDER BY key ASC; rows with equal keys keep their table order. *)
Fixpoint order_by (l : list A) : list A :=
  match l with
  | [] => []
  | x :: l' => insert_by x (order_by l')
  end.
End OrderBy.

Definition first {A : Type} (l : list A) : option A := hd_error l.

(** The key of a newly inserted row: one more than the largest key in use. *)
Definition next_id (ids : list Z) : Z := 1 + fold_right Z.max 0 ids.

(** ** listings/models.py *)

Module Location.
Record t : Type := mk {
  id : Z;
  area : string;
  address : string;
  price_per_day : Q
}.
End Location.

Module Space.
Module Status.
Definition PENDING : string := "PENDING".
Definition APPROVED : string := "APPROVED".
Definition REJECTED : string := "REJECTED".
Definition ON_HOLD : string := "ON_HOLD".
Definition values : list string := [PENDING; APPROVED; REJECTED; ON_HOLD].
End Status.

Record t : Type := mk {
  id : Z;
  renter : Z;
  location : Z;
  environment_conditions : string;
  height : Z;
  status : string;
  price_per_day : Q;
  description : string
}.

Definition set_status (v : string) (s : t) : t :=
  mk (id s) (renter s) (location s) (environment_conditions s) (height s)
     v (price_per_day s) (description s).

Definition set_id (v : Z) (s : t) : t :=
  mk v (renter s) (location s) (environment_conditions s) (height s)
     (status s) (price_per_day s) (description s).
End Space.

Module Rack.
Record t : Type := mk {
  id : Z;
  space : Z;
  length : Z
}.
End Rack.

Module Shelf.
Record t : Type := mk {
  id : Z;
  rack : Z;
  shelf_label : string;
  is_available : bool
}.

Definition set_is_available (v : bool) (s : t) : t :=
  mk (id s) (rack s) (shelf_label s) v.
End Shelf.

(** ** prelistings/models.py *)

Module InstallationRequest.
Module Status.
Definition PENDING : string := "PENDING".
Definition APPROVED : string := "APPROVED".
Definition REJECTED : string := "REJECTED".
Definition COMPLETED : string := "COMPLETED".
Definition values : list string := [PENDING; APPROVED; REJECTED; COMPLETED].
End Status.

Record t : Type := mk {
  id : Z;
  renter : Z;
  location : Z;
  environment_conditions : string;
  status : string;
  price_per_day : Q;
  description : string;
  num_rack : Z;
  num_shelves_per_rack : Z
}.

Definition set_status (v : string) (r : t) : t :=
  mk (id r) (renter r) (location r) (environment_conditions r) v
     (price_per_day r) (description r) (num_rack r) (num_shelves_per_rack r).
End InstallationRequest.

(** ** bookings/models.py

    [num_shelves_occupied] is written in one place only, from the
    [<int:num_shelves>] segment of the booking URL, which matches
    unsigned digits; it is a natural number. *)

Module Booking.
Module Status.
Definition BOOKED : string := "BOOKED".
Definition ACTIVE : string := "ACTIVE".
Definition PAST : string := "PAST".
Definition CANCELLED : string := "CANCELLED".
Definition values : list string := [BOOKED; ACTIVE; PAST; CANCELLED].
End Status.

Record t : Type := mk {
  id : Z;
  lessee : Z;
  rack : Z;
  num_shelves_occupied : nat;
  start_date : Z;
  end_date : Z;
  total_price : Q;
  status : string;
  occupying_space : bool
}.

Definition set_status (v : string) (b : t) : t :=
  mk (id b) (lessee b) (rack b) (num_shelves_occupied b) (start_date b)
     (end_date b) (total_price b) v (occupying_space b).

Definition set_occupying_space (v : bool) (b : t) : t :=
  mk (id b) (lessee b) (rack b) (num_shelves_occupied b) (start_date b)
     (end_date b) (total_price b) (status b) v.
End Booking.

(** ** The database *)

Record Store : Type := mkStore {
  locations : list Location.t;
  spaces : list Space.t;
  racks : list Rack.t;
  shelves : list Shelf.t;
  installation_requests : list InstallationRequest.t;
  bookings : list Booking.t
}.

Definition set_spaces (v : list Space.t) (db : Store) : Store :=
  mkStore (locations db) v (racks db) (shelves db)
          (installation_requests db) (bookings db).

Definition set_racks (v : list Rack.t) (db : Store) : Store :=
  mkStore (locations db) (spaces db) v (shelves db)
          (installation_requests db) (bookings db).

Definition set_shelves (v : list Shelf.t) (db : Store) : Store :=
  mkStore (locations db) (spaces db) (racks db) v
          (installation_requests db) (bookings db).

Definition set_installation_requests (v : list InstallationRequest.t)
    (db : Store) : Store :=
  mkStore (locations db) (spaces db) (racks db) (shelves db) v (bookings db).

Definition set_bookings (v : list Booking.t) (db : Store) : Store :=
  mkStore (locations db) (spaces db) (racks db) (shelves db)
          (installation_requests db) v.

(** [Model.save()] on a row that has a primary key: UPDATE the rows with
    that key, INSERT the row when there is none. *)
Section Save.
Context {A : Type} (pk : A -> Z).

Definition save_row (x : A) (table : list A) : list A :=
  if existsb (fun y => pk y =? pk x) table
  then map (fun y => if pk y =? pk x then x else y) table
  else table ++ [x].

(** [Model.delete()]: DELETE the rows with the key. *)
Definition delete_row (k : Z) (table : list A) : list A :=
  filter (fun y => negb (pk y =? k)) table.

Definition get_row (k : Z) (table : list A) : option A :=
  find (fun y => pk y =? k) table.
End Save.

(** ** Strings: [str(i).zfill(3)] and the [icontains] lookup *)

(** [str(i)] for an index of [range]: its decimal digits. *)
Definition str (i : nat) : string := NilZero.string_of_uint (Nat.to_uint i).

Fixpoint zeros (n : nat) : string :=
  match n with
  | O => EmptyString
  | S n' => String "0" (zeros n')
  end.

(** [s.zfill(width)] for a string without a sign. *)
Definition zfill (width : nat) (s : string) : string :=
  (zeros (width - String.length s) ++ s)%string.

Definition lower_ascii (c : ascii) : ascii :=
  let n := nat_of_ascii c in
  if ((65 <=? n) && (n <=? 90))%nat then ascii_of_nat (n + 32) else c.

Fixpoint lower (s : string) : string :=
  match s with
  | EmptyString => EmptyString
  | String c s' => String (lower_ascii c) (lower s')
  end.

Fixpoint contains (needle hay : string) : bool :=
  String.prefix needle hay ||
  match hay with
  | EmptyString => false
  | String _ hay' => contains needle hay'
  end.

(** [field__icontains = needle]: substring match, letters compared without
    case. *)
Definition icontains (field needle : string) : bool :=
  contains (lower needle) (lower field).

(** [range(n)]: empty when [n] is not positive. *)
Definition range (n : Z) : list nat := seq 0 (Z.to_nat n).

(** [Count('shelf', filter = Q(shelf__is_available = True))] on a rack. *)
Definition available_shelves_of (db : Store) (r : Rack.t) : Z :=
  Z.of_nat
    (List.length
       (filter (fun s => (Shelf.rack s =? Rack.id r) && Shelf.is_available s)
               (shelves db))).

(** [rack.shelf_set]: the shelves whose foreign key is the rack. *)
Definition shelf_set (rack : Z) (db : Store) : list Shelf.t :=
  filter (fun s => Shelf.rack s =? rack) (shelves db).

(** ** Numbers: [int / int], [math.ceil] and [Decimal / int]

    Python's [/] on two integers gives the float nearest to the quotient
    (53 significant bits, ties to even, OverflowError beyond the largest
    float); [Decimal / int] under the default context gives the quotient
    rounded to 28 significant digits (ties to even, exponents from
    -1000026, Overflow beyond 10^1000000). A float and a Decimal are
    modelled by their values, which are rationals. Both roundings are
    instances of [round_quotient]. *)

Section Rounding.
Context (base : Z).

(** The number of digits of a positive integer in the base. *)
Fixpoint digits_fuel (fuel : nat) (n : Z) : Z :=
  match fuel with
  | O => 0
  | S fuel => if n <? base then 1 else 1 + digits_fuel fuel (n / base)
  end.

Definition digits (n : Z) : Z := digits_fuel (S (Z.to_nat (Z.log2 n))) n.

(** For positive [n] and [d], the exponent of the leading digit of
    [n / d]. *)
Definition floor_log (n d : Z) : Z :=
  let g := digits n - digits d in
  if (if 0 <=? g then d * base ^ g <=? n else d <=? n * base ^ (- g))
  then g else g - 1.

(** [n / d] rounded to the nearest integer, ties to the even one. *)
Definition round_half_even (n d : Z) : Z :=
  let q := n / d in
  let r := n mod d in
  if 2 * r <? d then q
  else if d <? 2 * r then q + 1
  else if Z.even q then q else q + 1.

(** [n / d] rounded to [prec] significant digits: the coefficient and the
    exponent of the result; the exponent is not taken below [emin]. *)
Definition round_quotient (prec emin n d : Z) : Z * Z :=
  let e := Z.max (floor_log n d - (prec - 1)) emin in
  (if 0 <=? e then round_half_even n (d * base ^ e)
   else round_half_even (n * base ^ (- e)) d,
   e).

(** The value [c * base ^ e]. *)
Definition scaled (c e : Z) : Q :=
  if 0 <=? e then inject_Z (c * base ^ e)
  else c # Z.to_pos (base ^ (- e)).
End Rounding.

(** [a / b] on integers. *)
Definition true_divide (a b : Z) : result Q :=
  if b =? 0 then Raise ZeroDivisionError
  else if a =? 0 then Ok 0%Q
  else
    let '(c, e) := round_quotient 2 53 (-1074) (Z.abs a) (Z.abs b) in
    if digits 2 c + e >? 1024 then Raise OverflowError
    else Ok (scaled 2 (Z.sgn a * Z.sgn b * c) e).

(** [math.ceil] of a float. *)
Definition ceil (x : Q) : Z := - ((- Qnum x) / Z.pos (Qden x)).

(** [x / k] for a Decimal [x] and an integer [k]; every signal the
    default context traps (DivisionByZero, InvalidOperation, Overflow) is
    the [None] outcome. *)
Definition decimal_divide (x : Q) (k : Z) : option Q :=
  if k =? 0 then None
  else if Qnum x =? 0 then Some 0%Q
  else
    let '(c, e) :=
      round_quotient 10 28 (-1000026) (Z.abs (Qnum x))
                     (Z.pos (Qden x) * Z.abs k) in
    if digits 10 c + e >? 1000000 then None
    else Some (scaled 10 (Z.sgn (Qnum x) * Z.sgn k * c) e).

(** ** listings/services.py *)

Module SpaceStateService.
Definition is_valid_status (status : string) : bool :=
  code_in status Space.Status.values.

Definition is_valid_transition (old_status new_status : string) : bool :=
  if String.eqb new_status Space.Status.PENDING then false
  else if code_in old_status [Space.Status.APPROVED; Space.Status.ON_HOLD]
          && String.eqb new_status Space.Status.REJECTED then false
  else if String.eqb new_status old_status then false
  else true.

Definition transition (space : Space.t) (new_status : string) (db : Store)
    : result bool * Space.t * Store :=
  if negb (is_valid_status new_status) then
    (Raise (InvalidSpaceStateError new_status), space, db)
  else if negb (is_valid_transition (Space.status space) new_status) then
    (Raise (SpaceStateTransitionError (Space.status space) new_status),
     space, db)
  else
    let space := Space.set_status new_status space in
    (Ok true, space, set_spaces (save_row Space.id space (spaces db)) db).
End SpaceStateService.

(** A row of the search result: a Space with its two annotations. *)
Record AnnotatedSpace : Type := mkAnnotated {
  annotated : Space.t;
  available_shelves : option Z;
  num_shelves : Z
}.

Module SpaceService.
Definition get_spaces (renter : option Z) (status : option string)
    (db : Store) : list Space.t :=
  let spaces := spaces db in
  let spaces :=
    match renter with
    | Some u => filter (fun s => Space.renter s =? u) spaces
    | None => spaces
    end in
  match status with
  | Some c =>
      if SpaceStateService.is_valid_status c
      then filter (fun s => String.eqb (Space.status s) c) spaces
      else spaces
  | None => spaces
  end.

Definition get_racks (space : Space.t) (db : Store) : list Rack.t :=
  filter (fun r => Rack.space r =? Space.id space) (racks db).

Definition insert_rack (space length : Z) (db : Store) : Rack.t * Store :=
  let rack := Rack.mk (next_id (map Rack.id (racks db))) space length in
  (rack, set_racks (racks db ++ [rack]) db).

Definition insert_shelf (rack : Z) (label : string) (db : Store) : Store :=
  let shelf :=
    Shelf.mk (next_id (map Shelf.id (shelves db))) rack label true in
  set_shelves (shelves db ++ [shelf]) db.

Definition create_shelves (space : Space.t) (num_rack num_shelf_per_rack : Z)
    (db : Store) : Store :=
  fold_left
    (fun db _ =>
       let '(rack, db) :=
         insert_rack (Space.id space) (num_shelf_per_rack * SHELF_LENGTH) db in
       fold_left
         (fun db i => insert_shelf (Rack.id rack) (zfill 3 (str i)) db)
         (range num_shelf_per_rack) db)
    (range num_rack) db.

(** [ceil(search_length / SHELF_LENGTH)] *)
Definition min_shelves_required (search_length : Z) : result Z :=
  match true_divide search_length SHELF_LENGTH with
  | Ok quotient => Ok (ceil quotient)
  | Raise e => Raise e
  end.

Definition area_matches (search_location : string) (db : Store)
    (s : Space.t) : bool :=
  match get_row Location.id (Space.location s) (locations db) with
  | Some loc => icontains (Location.area loc) search_location
  | None => false
  end.

(** The sub-query of the annotation: the largest available-shelf count
    among the racks of the space. *)
Definition max_available_shelves (db : Store) (s : Space.t) : option Z :=
  first (order_by (fun c => - c)
                  (map (available_shelves_of db) (get_racks s db))).

(** The query sets are lazy: nothing is read before the loop over the
    Spaces, which stands after the division, so an OverflowError of the
    division is what the call raises. *)
Definition get_available_spaces (search_location : option string)
    (search_length search_width search_height : Z) (db : Store)
    : result (list AnnotatedSpace) :=
  let available_spaces := get_spaces None (Some Space.Status.APPROVED) db in
  let '(search_length, search_width) :=
    (Z.max search_length search_width, Z.min search_length search_width) in
  if search_width >? SHELF_WIDTH then Ok []
  else if search_height >? SHELF_HEIGHT then Ok []
  else
    let available_spaces :=
      match search_location with
      | Some loc =>
          if String.eqb loc "" then available_spaces
          else filter (area_matches loc db) available_spaces
      | None => available_spaces
      end in
    let available_spaces :=
      filter (fun s => existsb (fun r => search_length <=? Rack.length r)
                               (get_racks s db))
             available_spaces in
    match min_shelves_required search_length with
    | Raise e => Raise e
    | Ok min_shelves_required =>
        let space_ids :=
          map Space.id
              (filter (fun s =>
                         existsb (fun r => min_shelves_required
                                             <=? available_shelves_of db r)
                                 (get_racks s db))
                      available_spaces) in
        let available_spaces :=
          filter (fun s => id_in (Space.id s) space_ids) available_spaces in
        Ok (map (fun s => mkAnnotated s (max_available_shelves db s)
                                      min_shelves_required)
                available_spaces)
    end.
End SpaceService.

(** ** prelistings/services.py *)

Module InstallationRequestService.
Definition get_total_shelves (r : InstallationRequest.t) : Z :=
  InstallationRequest.num_rack r * InstallationRequest.num_shelves_per_rack r.

Definition insert_space (space : Space.t) (db : Store) : Space.t * Store :=
  let space := Space.set_id (next_id (map Space.id (spaces db))) space in
  (space, set_spaces (spaces db ++ [space]) db).

Definition convert_to_space (r : InstallationRequest.t) (db : Store)
    : result Space.t * Store :=
  if String.eqb (InstallationRequest.status r)
                InstallationRequest.Status.COMPLETED then
    let '(space, db) :=
      insert_space
        (Space.mk 0
                  (InstallationRequest.renter r)
                  (InstallationRequest.location r)
                  (InstallationRequest.environment_conditions r)
                  (SHELF_HEIGHT * InstallationRequest.num_rack r)
                  Space.Status.APPROVED
                  (InstallationRequest.price_per_day r)
                  (InstallationRequest.description r)) db in
    let db :=
      SpaceService.create_shelves space
        (InstallationRequest.num_rack r)
        (InstallationRequest.num_shelves_per_rack r) db in
    let db :=
      set_installation_requests
        (delete_row InstallationRequest.id (InstallationRequest.id r)
                    (installation_requests db)) db in
    (Ok space, db)
  else
    (Raise (InstallationRequestError (InstallationRequest.status r)), db).
End InstallationRequestService.

Definition incomplete_message : string :=
  "Number of racks and shelves per rack must be non-zero values".

Module InstallationRequestStateService.
Definition is_valid_status (status : string) : bool :=
  code_in status InstallationRequest.Status.values.

Definition is_valid_transition (old_status new_status : string) : bool :=
  if String.eqb old_status InstallationRequest.Status.PENDING
     && code_in new_status [InstallationRequest.Status.APPROVED;
                            InstallationRequest.Status.REJECTED] then true
  else if String.eqb old_status InstallationRequest.Status.APPROVED
          && String.eqb new_status InstallationRequest.Status.COMPLETED
  then true
  else true.

Definition transition (r : InstallationRequest.t) (new_status : string)
    (db : Store) : result bool * InstallationRequest.t * Store :=
  if negb (is_valid_status new_status) then
    (Raise (InvalidInstallationRequestStateError new_status), r, db)
  else if negb (is_valid_transition (InstallationRequest.status r) new_status)
  then
    (Raise (InstallationRequestStateTransitionError
              (InstallationRequest.status r) new_status), r, db)
  else if String.eqb new_status InstallationRequest.Status.COMPLETED
          && (InstallationRequest.num_rack r
              * InstallationRequest.num_shelves_per_rack r =? 0)
  then
    (Raise (IncompleteInstallationRequestError incomplete_message), r, db)
  else
    let r := InstallationRequest.set_status new_status r in
    (Ok true, r,
     set_installation_requests
       (save_row InstallationRequest.id r (installation_requests db)) db).
End InstallationRequestStateService.

(** ** bookings/services.py *)

Module DateMgr.
Definition get_total_days (start_date end_date : Z) : Z :=
  (end_date - start_date) + 1.
End DateMgr.

Module BookingService.
Definition get_total_days (booking : Booking.t) : Z :=
  DateMgr.get_total_days (Booking.start_date booking)
                         (Booking.end_date booking).

(** [Decimal / int]; [None] is the outcome when the division raises. *)
Definition get_price_per_day (booking : Booking.t) : option Q :=
  decimal_divide (Booking.total_price booking)
                 (Z.of_nat (Booking.num_shelves_occupied booking)
                  * get_total_days booking).

(** The WHERE clause of the query set [get_shelves] returns: a shelf of
    the booking's rack whose key is among the first
    [num_shelves_occupied] keys of the rack's shelves in the wanted
    availability state. *)
Definition get_shelves_where (booking : Booking.t) (db : Store)
    : Shelf.t -> bool :=
  let shelf_set := shelf_set (Booking.rack booking) db in
  let shelves :=
    if Booking.occupying_space booking
    then filter (fun s => Bool.eqb (Shelf.is_available s) false) shelf_set
    else filter (fun s => Bool.eqb (Shelf.is_available s) true) shelf_set in
  let shelves :=
    firstn (Booking.num_shelves_occupied booking)
           (order_by Shelf.id shelves) in
  let shelf_ids := map Shelf.id shelves in
  fun s => (Shelf.rack s =? Booking.rack booking)
           && id_in (Shelf.id s) shelf_ids.

Definition get_shelves (booking : Booking.t) (db : Store) : list Shelf.t :=
  filter (get_shelves_where booking db) (shelves db).

(** [get_shelves(booking).update(is_available = v)] *)
Definition update_shelves (booking : Booking.t) (v : bool) (db : Store)
    : Store :=
  set_shelves
    (map (fun s => if get_shelves_where booking db s
                   then Shelf.set_is_available v s else s)
         (shelves db))
    db.
End BookingService.

Module BookingStateService.
Definition is_valid_status (status : string) : bool :=
  code_in status Booking.Status.values.

Definition release_space (booking : Booking.t) (db : Store)
    : Booking.t * Store :=
  let db := BookingService.update_shelves booking true db in
  (Booking.set_occupying_space false booking, db).

Definition occupy_space (booking : Booking.t) (db : Store)
    : Booking.t * Store :=
  let db := BookingService.update_shelves booking false db in
  (Booking.set_occupying_space true booking, db).

Definition save (booking : Booking.t) (db : Store) : Store :=
  set_bookings (save_row Booking.id booking (bookings db)) db.

Definition update_space (booking : Booking.t) (db : Store)
    : Booking.t * Store :=
  let '(booking, db) :=
    if negb (String.eqb (Booking.status booking) Booking.Status.ACTIVE)
       && Booking.occupying_space booking
    then release_space booking db
    else if String.eqb (Booking.status booking) Booking.Status.ACTIVE
            && negb (Booking.occupying_space booking)
    then occupy_space booking db
    else (booking, db) in
  (booking, save booking db).

(** [today] is the value of [localdate()]; [new_status] is [None] when
    the argument is left out. *)
Definition update_status (today : Z) (booking : Booking.t)
    (new_status : option string) (db : Store) : Booking.t * Store :=
  let booking :=
    match new_status with
    | Some (String c s as code) =>
        if is_valid_status code then Booking.set_status code booking
        else booking
    | Some EmptyString | None =>
        if negb (String.eqb (Booking.status booking)
                            Booking.Status.CANCELLED) then
          if Booking.end_date booking <? today then
            Booking.set_status Booking.Status.PAST booking
          else if Booking.start_date booking <=? today then
            Booking.set_status Booking.Status.ACTIVE booking
          else
            Booking.set_status Booking.Status.BOOKED booking
        else booking
    end in
  update_space booking db.

(** The loop runs over the rows the query returned when it started. *)
Definition update_status_all (today : Z) (db : Store) : Store :=
  fold_left (fun db booking => snd (update_status today booking None db))
            (bookings db) db.
End BookingStateService.

Module BookingFormService.
Definition get_rack (space : Space.t) (min_shelves : Z) (db : Store)
    : option Rack.t :=
  first
    (order_by (available_shelves_of db)
       (filter (fun r => min_shelves <=? available_shelves_of db r)
               (SpaceService.get_racks space db))).
End BookingFormService.

(** ** The remaining model methods and services

    The methods of the model classes and the service functions that the
    part above leaves out. A property that dereferences [first()] of an
    empty query set raises in Python; here it is the [None] outcome.
    [first()] on a query set without ordering takes the row with the
    least primary key. *)

(** listings/constants.py: code, name and daily rate of every area. *)
Definition LOCATION_DEFS : list (string * string * Q) :=
  [("AMK", "Ang Mo Kio", 699 # 100);
   ("BDK", "Bedok", 699 # 100);
   ("BSH", "Bishan", 699 # 100);
   ("BLY", "Boon Lay", 699 # 100);
   ("BBK", "Bukit Batok", 699 # 100);
   ("BMR", "Bukit Merah", 699 # 100);
   ("BPN", "Bukit Panjang", 699 # 100);
   ("BTM", "Bukit Timah", 699 # 100);
   ("CWC", "Central Water Catchment", 699 # 100);
   ("CGI", "Changi", 699 # 100);
   ("CGB", "Changi Bay", 699 # 100);
   ("CLE", "Clementi", 699 # 100);
   ("DTC", "Downtown Core", 699 # 100);
   ("GEY", "Geylang", 699 # 100);
   ("HOU", "Hougang", 699 # 100);
   ("JES", "Jurong East", 699 # 100);
   ("JWS", "Jurong West", 699 # 100);
   ("KLL", "Kallang", 699 # 100);
   ("LCK", "Lim Chu Kang", 699 # 100);
   ("MAN", "Mandai", 699 # 100);
   ("MAE", "Marina East", 699 # 100);
   ("MAS", "Marina South", 699 # 100);
   ("MPA", "Marine Parade", 699 # 100);
   ("MUS", "Museum", 699 # 100);
   ("NEW", "Newton", 699 # 100);
   ("NEI", "North-Eastern Islands", 699 # 100);
   ("NOV", "Novena", 699 # 100);
   ("ORC", "Orchard", 699 # 100);
   ("OUT", "Outram", 699 # 100);
   ("PBL", "Paya Lebar", 699 # 100);
   ("PIO", "Pioneer", 699 # 100);
   ("PGL", "Punggol", 699 # 100);
   ("PRS", "Pasir Ris", 699 # 100);
   ("QTN", "Queenstown", 699 # 100);
   ("RVL", "River Valley", 699 # 100);
   ("RCH", "Rochor", 699 # 100);
   ("SEL", "Seletar", 699 # 100);
   ("SBW", "Sembawang", 699 # 100);
   ("SKG", "Sengkang", 699 # 100);
   ("SRG", "Serangoon", 699 # 100);
   ("SMP", "Simpang", 699 # 100);
   ("SGR", "Singapore River", 699 # 100);
   ("SIS", "Southern Islands", 699 # 100);
   ("SKT", "Sungei Kadut", 699 # 100);
   ("STV", "Straits View", 699 # 100);
   ("TMP", "Tampines", 699 # 100);
   ("TGL", "Tanglin", 699 # 100);
   ("TGH", "Tengah", 699 # 100);
   ("TPY", "Toa Payoh", 699 # 100);
   ("TUA", "Tuas", 699 # 100);
   ("WIS", "Western Islands", 699 # 100);
   ("WWC", "Western Water Catchment", 699 # 100);
   ("WDL", "Woodlands", 699 # 100);
   ("YSH", "Yishun", 699 # 100)]%string.

(** [Location.load_price] *)
Definition load_price (self : Location.t) : Location.t :=
  let val :=
    filter (fun data => String.eqb (fst (fst data)) (Location.area self))
           LOCATION_DEFS in
  Location.mk (Location.id self) (Location.area self) (Location.address self)
              (match val with
               | [data] => snd data
               | _ => 0%Q
               end).

(** [Space.get_price] *)
Definition get_price (location : Location.t) : Q :=
  Location.price_per_day location.

Module ShelfProperties.
Definition length (self : Shelf.t) : Z := SHELF_LENGTH.
Definition width (self : Shelf.t) : Z := SHELF_WIDTH.
Definition height (self : Shelf.t) : Z := SHELF_HEIGHT.
End ShelfProperties.

Module RackProperties.
Definition width (self : Rack.t) (db : Store) : option Z :=
  option_map ShelfProperties.width
             (first (order_by Shelf.id (shelf_set (Rack.id self) db))).

Definition height (self : Rack.t) (db : Store) : option Z :=
  option_map ShelfProperties.height
             (first (order_by Shelf.id (shelf_set (Rack.id self) db))).
End RackProperties.

Module SpaceProperties.
Definition first_rack (self : Space.t) (db : Store) : option Rack.t :=
  first (order_by Rack.id (SpaceService.get_racks self db)).

Definition length (self : Space.t) (db : Store) : option Z :=
  option_map Rack.length (first_rack self db).

Definition width (self : Space.t) (db : Store) : option Z :=
  match first_rack self db with
  | Some rack => RackProperties.width rack db
  | None => None
  end.

Definition total_shelves (self : Space.t) (db : Store) : option Z :=
  match length self db, first_rack self db with
  | Some length, Some rack =>
      match first (order_by Shelf.id (shelf_set (Rack.id rack) db)) with
      | Some shelf =>
          Some (length * Space.height self
                / (ShelfProperties.length shelf * ShelfProperties.height shelf))
      | None => None
      end
  | _, _ => None
  end.
End SpaceProperties.

(** [Count('shelf', filter = Q(shelf__is_available = True), distinct = True)]
    on a rack: the number of distinct keys among its available shelves. *)
Definition distinct_available_shelves_of (db : Store) (r : Rack.t) : Z :=
  Z.of_nat
    (List.length
       (nodup Z.eq_dec
          (map Shelf.id
               (filter (fun s => (Shelf.rack s =? Rack.id r)
                                 && Shelf.is_available s)
                       (shelves db))))).

Module SpaceLayoutService.
(** [[True] * n + [False] * m]; a list times a negative number is empty. *)
Definition layout_row (available total : Z) : list bool :=
  repeat true (Z.to_nat available)
  ++ repeat false (Z.to_nat (total - available)).

Definition get_shelf_layout (space : Space.t) (db : Store)
    : option (list (list bool)) :=
  match SpaceProperties.first_rack space db with
  | None => None
  | Some rack =>
      match first (order_by Shelf.id (shelf_set (Rack.id rack) db)) with
      | None => None
      | Some shelf =>
          let total_shelves_per_rack :=
            Rack.length rack / ShelfProperties.length shelf in
          let available_shelves_per_rack :=
            map (distinct_available_shelves_of db)
                (order_by Rack.id (SpaceService.get_racks space db)) in
          Some (map (fun available =>
                       layout_row available total_shelves_per_rack)
                    available_shelves_per_rack)
      end
  end.
End SpaceLayoutService.

(** [InstallationRequestService.get_installation_requests] *)
Definition get_installation_requests (renter : option Z) (db : Store)
    : list InstallationRequest.t :=
  match renter with
  | Some u =>
      filter (fun r => InstallationRequest.renter r =? u)
             (installation_requests db)
  | None => installation_requests db
  end.

(** [BookingService.get_bookings]; [rack__space = space] follows the
    booking's rack to its Space. *)
Definition get_bookings (space : option Space.t) (status : option string)
    (db : Store) : list Booking.t :=
  let bookings := bookings db in
  let bookings :=
    match space with
    | Some space =>
        filter (fun b =>
                  match get_row Rack.id (Booking.rack b) (racks db) with
                  | Some r => Rack.space r =? Space.id space
                  | None => false
                  end)
               bookings
    | None => bookings
    end in
  match status with
  | Some (String _ _ as status) =>
      filter (fun b => String.eqb (Booking.status b) status) bookings
  | Some EmptyString | None => bookings
  end.

(** [BookingService.cancel_booking]; it stands after
    [BookingStateService], which it calls. [user] is the key of the
    requesting user, [today] the date [update_status] would read, and the
    answer comes with the booking and the database as the call leaves
    them. *)
Definition cancel_booking (today : Z) (booking : Booking.t) (user : Z)
    (db : Store) : bool * Booking.t * Store :=
  if Booking.lessee booking =? user then
    let '(booking, db) :=
      BookingStateService.update_status
        today booking (Some Booking.Status.CANCELLED) db in
    (true, booking, db)
  else
    (false, booking, db).

(** users/views.py, [view_dashboard], the branch of a lessee: the
    bookings of the user are refreshed one by one, then listed in two
    query sets, each by end date, latest first. [of_user] is the lazy
    query [Booking.objects.filter(lessee = request.user)], run once for
    the loop and again, on the database the loop leaves, for each list.
    The rendering of the page is left out. *)
Definition lessee_dashboard (today : Z) (user : Z) (db : Store)
    : list Booking.t * list Booking.t * Store :=
  let of_user (db : Store) :=
    filter (fun b => Booking.lessee b =? user) (bookings db) in
  let db :=
    fold_left
      (fun db booking =>
         snd (BookingStateService.update_status today booking None db))
      (of_user db) db in
  let active_bookings_queryset :=
    order_by (fun b => - Booking.end_date b)
      (filter (fun b => String.eqb (Booking.status b) "BOOKED"
                        || String.eqb (Booking.status b) "ACTIVE")
              (of_user db)) in
  let past_bookings_queryset :=
    order_by (fun b => - Booking.end_date b)
      (filter (fun b => String.eqb (Booking.status b) "PAST"
                        || String.eqb (Booking.status b) "CANCELLED")
              (of_user db)) in
  (active_bookings_queryset, past_bookings_queryset, db).

(** ** Vocabulary of the statements *)

(** The status the date rule gives a booking on the day [today]. *)
Definition automatic_status (today : Z) (b : Booking.t) : string :=
  if String.eqb (Booking.status b) Booking.Status.CANCELLED
  then Booking.status b
  else if Booking.end_date b <? today then Booking.Status.PAST
  else if Booking.start_date b <=? today then Booking.Status.ACTIVE
  else Booking.Status.BOOKED.

(** The occupancy invariant of a booking: the flag is set exactly when the
    status is Active. *)
Definition synced (b : Booking.t) : Prop :=
  Booking.occupying_space b
  = String.eqb (Booking.status b) Booking.Status.ACTIVE.

(** From [db] to [db'] the shelves [get_shelves] selects for the booking
    have had [is_available] set to [v], and no other shelf has changed. *)
Definition marked (b : Booking.t) (v : bool) (db db' : Store) : Prop :=
  shelves db'
  = map (fun s => if BookingService.get_shelves_where b db s
                  then Shelf.set_is_available v s else s)
        (shelves db)
  /\ (forall s, In s (BookingService.get_shelves b db) ->
                In (Shelf.set_is_available v s) (shelves db'))
  /\ (forall s, In s (shelves db) ->
                ~ In s (BookingService.get_shelves b db) ->
                In s (shelves db')).

(** The same read from the rows: every shelf [get_shelves] selects for
    the booking in [db] is stored in [db'] with [is_available] equal to
    [v]; a stored shelf of [db'] that the selection covers reads [v], and
    one it does not cover is a row of [db]; no row is added or dropped. *)
Definition availability_is (b : Booking.t) (v : bool) (db db' : Store)
    : Prop :=
  (forall s, In s (BookingService.get_shelves b db) ->
             exists s', In s' (shelves db')
                        /\ Shelf.id s' = Shelf.id s
                        /\ Shelf.rack s' = Shelf.rack s
                        /\ Shelf.shelf_label s' = Shelf.shelf_label s
                        /\ Shelf.is_available s' = v)
  /\ (forall s', In s' (shelves db') ->
                 if BookingService.get_shelves_where b db s'
                 then Shelf.is_available s' = v
                 else In s' (shelves db))
  /\ List.length (shelves db') = List.length (shelves db).

(** A booking the refresh has nothing to do for: its status is the one the
    date rule gives and its flag agrees with it. *)
Definition settled (today : Z) (b : Booking.t) : Prop :=
  synced b /\ automatic_status today b = Booking.status b.

(** Every stored row with key [k] is one and the same settled booking. *)
Definition settled_key (today : Z) (db : Store) (k : Z) : Prop :=
  exists b', settled today b'
             /\ forall r, In r (bookings db) -> Booking.id r = k -> r = b'.

(** One turn of the loop of [update_status_all]: the booking as the
    refresh hands it back, and the database it leaves. *)
Definition refreshed (today : Z) (b : Booking.t) (db : Store) : Booking.t :=
  fst (BookingStateService.update_status today b None db).

Definition refresh_step (today : Z) (db : Store) (b : Booking.t) : Store :=
  snd (BookingStateService.update_status today b None db).

(** The foreign keys of the inventory tables point to stored rows: every
    rack to a Space, every shelf to a rack. *)
Definition foreign_keys_ok (db : Store) : bool :=
  forallb (fun r => id_in (Rack.space r) (map Space.id (spaces db)))
          (racks db)
  && forallb (fun s => id_in (Shelf.rack s) (map Rack.id (racks db)))
             (shelves db).

(** The labels [create_shelves] gives the shelves of one rack. *)
Definition shelf_labels (num_shelf_per_rack : Z) : list string :=
  map (fun i => zfill 3 (str i)) (range num_shelf_per_rack).

(** ** Vocabulary of the further statements *)

(** A series of [transition] calls on one Space, each error caught as the
    view does, the Space and the database carried from call to call. *)
Fixpoint apply_transitions (space : Space.t) (codes : list string)
    (db : Store) : Space.t * Store :=
  match codes with
  | [] => (space, db)
  | code :: codes =>
      let '(_, space, db) := SpaceStateService.transition space code db in
      apply_transitions space codes db
  end.

(** [int(label)] for a label made of digits. *)
Definition int_of_label (label : string) : option nat :=
  option_map Nat.of_uint (NilEmpty.uint_of_string label).

(** The place of a status in the life of a booking that is not cancelled. *)
Definition status_rank (status : string) : Z :=
  if String.eqb status Booking.Status.BOOKED then 0
  else if String.eqb status Booking.Status.ACTIVE then 1
  else 2.

(** The number of shelves of a rack that are not available. *)
Definition unavailable_shelves_of (db : Store) (r : Rack.t) : Z :=
  Z.of_nat
    (List.length
       (filter (fun s => (Shelf.rack s =? Rack.id r)
                         && negb (Shelf.is_available s))
               (shelves db))).

(** Two databases that differ at most in the bookings and in the
    [is_available] bits of the shelves. *)
Definition only_availability_differs (db db' : Store) : Prop :=
  locations db' = locations db
  /\ spaces db' = spaces db
  /\ racks db' = racks db
  /\ installation_requests db' = installation_requests db
  /\ map (Shelf.set_is_available true) (shelves db')
     = map (Shelf.set_is_available true) (shelves db).

(** Primary keys of the shelf table are unique. *)
Definition unique_shelf_ids (db : Store) : Prop :=
  NoDup (map Shelf.id (shelves db)).

(** Inside [get_shelves]: the shelves of the booking's rack in the wanted
    availability state, and the ones of them the ordered slice keeps. *)
Definition wanted_shelves (b : Booking.t) (db : Store) : list Shelf.t :=
  filter (fun s => Bool.eqb (Shelf.is_available s)
                            (negb (Booking.occupying_space b)))
         (shelf_set (Booking.rack b) db).

Definition selected_shelves (b : Booking.t) (db : Store) : list Shelf.t :=
  firstn (Booking.num_shelves_occupied b)
         (order_by Shelf.id (wanted_shelves b db)).

(** The Space [convert_to_space] builds from a request and saves. *)
Definition converted_space (r : InstallationRequest.t) (db : Store)
    : Space.t :=
  Space.mk (next_id (map Space.id (spaces db)))
           (InstallationRequest.renter r)
           (InstallationRequest.location r)
           (InstallationRequest.environment_conditions r)
           (SHELF_HEIGHT * InstallationRequest.num_rack r)
           Space.Status.APPROVED
           (InstallationRequest.price_per_day r)
           (InstallationRequest.description r).

(** The area codes of LOCATION_DEFS. *)
Definition location_codes : list string :=
  map (fun data => fst (fst data)) LOCATION_DEFS.

(** [b'] is [b] up to its status and its occupying_space flag. *)
Definition same_booking_data (b b' : Booking.t) : Prop :=
  b' = Booking.set_occupying_space (Booking.occupying_space b')
         (Booking.set_status (Booking.status b') b).

(** ** Sample data

    A small database used by the worked examples: one approved Space with
    three racks holding 5, 2 and 8 available shelves, and one booking of
    two shelves for three days at 6.99 a day. *)

Definition sample_shelves (first_id rack : Z) (available total : nat)
    : list Shelf.t :=
  map (fun i => Shelf.mk (first_id + Z.of_nat i) rack (zfill 3 (str i))
                         (i <? available)%nat)
      (seq 0 total).

Definition sample_space : Space.t :=
  Space.mk 1 7 1 "AC" 126 Space.Status.APPROVED (699 # 100) "three racks".

Definition priced_booking : Booking.t :=
  Booking.mk 1 9 2 2 738000 738002 (4194 # 100) Booking.Status.BOOKED false.

Definition sample_db : Store :=
  mkStore
    [Location.mk 1 "AMK" "1 Main Road" (699 # 100)]
    [sample_space]
    [Rack.mk 1 1 300; Rack.mk 2 1 300; Rack.mk 3 1 400]
    (sample_shelves 1 1 5 6 ++ sample_shelves 7 2 2 6
     ++ sample_shelves 13 3 8 8)
    []
    [priced_booking].


(** A completed request for two racks of three shelves. *)
Definition completed_request : InstallationRequest.t :=
  InstallationRequest.mk 4 7 1 "AC" InstallationRequest.Status.COMPLETED
                         (699 # 100) "two racks" 2 3.

Definition request_db : Store :=
  mkStore (locations sample_db) (spaces sample_db) (racks sample_db)
          (shelves sample_db) [completed_request] (bookings sample_db).

(** The sample booking once Active and not yet occupying, and once over
    and still occupying. *)
Definition active_booking : Booking.t :=
  Booking.set_status Booking.Status.ACTIVE priced_booking.

Definition ended_booking : Booking.t :=
  Booking.set_occupying_space true
    (Booking.set_status Booking.Status.PAST priced_booking).

(** The sample booking with no shelf, as /book/<space_id>/0/ stores it. *)
Definition zero_shelf_booking : Booking.t :=
  Booking.mk 2 9 2 0 738000 738002 0 Booking.Status.BOOKED false.

(** A booking of three shelves for one day at a total of 20.00. *)
Definition rounded_booking : Booking.t :=
  Booking.mk 3 9 2 3 738000 738000 (2000 # 100) Booking.Status.BOOKED false.

(** A booking whose dates are the wrong way round, which the booking
    form accepts: it starts on day 738010 and ends on day 738005. *)
Definition inverted_booking : Booking.t :=
  Booking.mk 4 9 2 2 738010 738005 (4194 # 100) Booking.Status.BOOKED false.

(** A request that was given negative counts. *)
Definition negative_request : InstallationRequest.t :=
  InstallationRequest.mk 5 7 1 "AC" InstallationRequest.Status.APPROVED
                         (699 # 100) "negative counts" (-1) (-3).

(** * Properties *)

(** ** Rounded quotients *)

Section RoundingFacts.
Context (base : Z) (Hbase : 2 <= base).

Lemma digits_fuel_spec (fuel : nat) :
  forall n, 0 < n < 2 ^ Z.of_nat fuel ->
            base ^ (digits_fuel base fuel n - 1) <= n
            < base ^ digits_fuel base fuel n
            /\ 1 <= digits_fuel base fuel n.
Proof.
  induction fuel as [|fuel IH]; intros n Hn.
  - simpl in Hn. lia.
  - cbn [digits_fuel]. destruct (Z.ltb_spec n base) as [Hlt|Hge].
    + change (1 - 1) with 0. rewrite Z.pow_0_r, Z.pow_1_r. lia.
    + assert (Hq : 0 < n / base < 2 ^ Z.of_nat fuel).
      { split.
        - apply Z.div_str_pos. lia.
        - apply Z.div_lt_upper_bound; [lia|].
          rewrite Nat2Z.inj_succ, Z.pow_succ_r in Hn by lia.
          assert (0 < 2 ^ Z.of_nat fuel) by (apply Z.pow_pos_nonneg; lia).
          nia. }
      destruct (IH _ Hq) as [[Hlo Hhi] Hd].
      set (k := digits_fuel base fuel (n / base)) in *.
      pose proof (Z.div_mod n base ltac:(lia)) as Hdm.
      pose proof (Z.mod_pos_bound n base ltac:(lia)) as Hr.
      replace (1 + k - 1) with (Z.succ (k - 1)) by lia.
      replace (1 + k) with (Z.succ k) by lia.
      rewrite !Z.pow_succ_r by lia.
      split; [|lia]. split; nia.
Qed.

Lemma digits_spec (n : Z) :
  0 < n ->
  base ^ (digits base n - 1) <= n < base ^ digits base n
  /\ 1 <= digits base n.
Proof.
  intros Hn. unfold digits. apply digits_fuel_spec.
  split; [exact Hn|].
  rewrite Nat2Z.inj_succ, Z2Nat.id by apply Z.log2_nonneg.
  apply Z.log2_spec. exact Hn.
Qed.

Lemma floor_log_spec (n d : Z) :
  0 < n -> 0 < d ->
  (0 <= floor_log base n d -> d * base ^ floor_log base n d <= n)
  /\ (floor_log base n d < 0 -> d <= n * base ^ (- floor_log base n d)).
Proof.
  intros Hn Hd. unfold floor_log.
  destruct (digits_spec n Hn) as [[Hnlo Hnhi] Hn1].
  destruct (digits_spec d Hd) as [[Hdlo Hdhi] Hd1].
  set (dn := digits base n) in *. set (dd := digits base d) in *.
  cbv zeta.
  assert (Hbelow : (0 <= dn - dd - 1 -> d * base ^ (dn - dd - 1) <= n)
                   /\ (dn - dd - 1 < 0 ->
                       d <= n * base ^ (- (dn - dd - 1)))).
  { split; intros Ha.
    - apply Z.le_trans with (m := base ^ (dn - 1)); [|exact Hnlo].
      replace (dn - 1) with (dd + (dn - dd - 1)) by lia.
      rewrite Z.pow_add_r by lia.
      apply Z.mul_le_mono_nonneg_r; [|lia].
      apply Z.pow_nonneg. lia.
    - apply Z.le_trans with (m := base ^ dd); [lia|].
      replace dd with ((dn - 1) + (- (dn - dd - 1))) at 1 by lia.
      rewrite Z.pow_add_r by lia.
      apply Z.mul_le_mono_nonneg_r; [|exact Hnlo].
      apply Z.pow_nonneg. lia. }
  destruct (Z.leb_spec 0 (dn - dd)) as [Hg|Hg].
  - destruct (Z.leb_spec (d * base ^ (dn - dd)) n) as [Ht|Ht];
      [|exact Hbelow].
    split; [intros _; exact Ht|lia].
  - destruct (Z.leb_spec d (n * base ^ (- (dn - dd)))) as [Ht|Ht];
      [|exact Hbelow].
    split; [lia|]. intros _. exact Ht.
Qed.

End RoundingFacts.

Lemma round_half_even_spec (n d : Z) :
  0 < d ->
  - d <= 2 * (round_half_even n d * d - n) <= d
  /\ (n mod d = 0 -> round_half_even n d = n / d).
Proof.
  intros Hd. unfold round_half_even.
  pose proof (Z.div_mod n d ltac:(lia)) as Hdm.
  pose proof (Z.mod_pos_bound n d Hd) as Hr.
  set (q := n / d) in *. set (r := n mod d) in *.
  destruct (Z.ltb_spec (2 * r) d) as [H1|H1]; [split; [nia|reflexivity]|].
  destruct (Z.ltb_spec d (2 * r)) as [H2|H2]; [split; [nia|lia]|].
  destruct (Z.even q); (split; [nia|lia]).
Qed.

Lemma digits_fits (base c e k bound : Z) :
  2 <= base -> 0 <= c -> 0 <= k - e -> c < base ^ (k - e) ->
  k < bound -> (digits base c + e >? bound) = false.
Proof.
  intros Hbase Hc Hk Hlt Hbound. rewrite Z.gtb_ltb. apply Z.ltb_ge.
  destruct (Z.eq_dec c 0) as [E|E].
  - subst c. unfold digits. cbn [Z.log2 Z.to_nat digits_fuel].
    destruct (Z.ltb_spec 0 base); lia.
  - destruct (digits_spec base Hbase c ltac:(lia)) as [[Hlo _] _].
    destruct (Z.le_gt_cases (digits base c + e) bound) as [H|H];
      [exact H|exfalso].
    assert (base ^ (k - e) <= base ^ (digits base c - 1))
      by (apply Z.pow_le_mono_r; lia).
    lia.
Qed.

Lemma decimal_divide_exact (x : Q) (k cents : Z) :
  k <> 0 ->
  Z.abs cents < 10 ^ 28 ->
  Qnum x * 100 = cents * k * Z.pos (Qden x) ->
  exists q, decimal_divide x k = Some q /\ (q == cents # 100)%Q.
Proof.
  intros Hk Hcents Hx. unfold decimal_divide.
  destruct (Z.eqb_spec k 0) as [|_]; [contradiction|].
  set (a := Qnum x) in *. set (b := Z.pos (Qden x)) in *.
  assert (Hb : 0 < b) by (unfold b; lia).
  destruct (Z.eqb_spec a 0) as [Ea|Ea].
  { exists 0%Q. split; [reflexivity|].
    assert (cents = 0) by nia. subst cents. reflexivity. }
  unfold round_quotient. change (28 - 1) with 27.
  set (N := Z.abs a). set (D := b * Z.abs k).
  assert (HN : 0 < N) by (unfold N; lia).
  assert (HD : 0 < D) by (unfold D; nia).
  assert (HND : N * 100 = Z.abs cents * D).
  { unfold N, D. rewrite <- (Z.abs_eq b) at 1 by lia.
    rewrite <- (Z.abs_eq 100) by lia. rewrite <- !Z.abs_mul.
    f_equal. rewrite Hx. ring. }
  destruct (floor_log_spec 10 ltac:(lia) N D HN HD) as [Hlog _].
  set (adj := floor_log 10 N D) in *.
  assert (Hadj : adj <= 25).
  { destruct (Z.le_gt_cases adj 25) as [H|H]; [exact H|exfalso].
    specialize (Hlog ltac:(lia)).
    assert (10 ^ 26 <= 10 ^ adj) by (apply Z.pow_le_mono_r; lia).
    change (10 ^ 28) with (100 * 10 ^ 26) in Hcents.
    assert (0 < 10 ^ 26) by (apply Z.pow_pos_nonneg; lia).
    nia. }
  set (e := Z.max (adj - 27) (-1000026)).
  assert (He : -1000026 <= e <= -2) by (unfold e; lia).
  destruct (Z.leb_spec 0 e) as [H|_]; [lia|].
  set (P' := 10 ^ (- e - 2)).
  assert (HP' : 0 < P') by (apply Z.pow_pos_nonneg; lia).
  assert (HP : 10 ^ (- e) = 100 * P').
  { unfold P'. replace (- e) with (2 + (- e - 2)) at 1 by lia.
    now rewrite Z.pow_add_r by lia. }
  rewrite HP.
  assert (Hexact : N * (100 * P') = Z.abs cents * P' * D) by nia.
  rewrite Hexact.
  destruct (round_half_even_spec (Z.abs cents * P' * D) D HD) as [_ Hround].
  rewrite Z.mod_mul, Z.div_mul in Hround by lia.
  rewrite (Hround eq_refl).
  assert (Hc : cents <> 0) by nia.
  rewrite (digits_fits 10 (Z.abs cents * P') e 26 1000000);
    [|lia|nia|lia| |lia].
  2:{ replace (26 - e) with (28 + (- e - 2)) by lia.
      rewrite Z.pow_add_r by lia. fold P'. nia. }
  eexists. split; [reflexivity|].
  unfold scaled. destruct (Z.leb_spec 0 e) as [H|_]; [lia|].
  rewrite HP. unfold Qeq. cbn [Qnum Qden].
  rewrite Z2Pos.id by lia.
  assert (Hs : Z.sgn a * Z.sgn k * Z.abs cents = cents).
  { assert (Hsgn : Z.sgn a = Z.sgn cents * Z.sgn k).
    { apply (f_equal Z.sgn) in Hx. rewrite !Z.sgn_mul in Hx.
      rewrite (Z.sgn_pos b Hb) in Hx. change (Z.sgn 100) with 1 in Hx.
      lia. }
    rewrite Hsgn. clear - Hk.
    destruct k; [contradiction| |]; destruct cents; cbn; lia. }
  rewrite <- Hs at 2. change (Z.pos 100) with 100. ring.
Qed.

Lemma decimal_divide_in_range (x : Q) (k : Z) :
  k <> 0 ->
  Z.abs (Qnum x) < 10 ^ 4 * Z.pos (Qden x) ->
  decimal_divide x k <> None.
Proof.
  intros Hk Hx. unfold decimal_divide.
  destruct (Z.eqb_spec k 0) as [|_]; [contradiction|].
  set (a := Qnum x) in *. set (b := Z.pos (Qden x)) in *.
  assert (Hb : 0 < b) by (unfold b; lia).
  destruct (Z.eqb_spec a 0) as [Ea|Ea]; [discriminate|].
  unfold round_quotient. change (28 - 1) with 27.
  set (N := Z.abs a) in *. set (D := b * Z.abs k).
  assert (HN : 0 < N) by (unfold N; lia).
  assert (HD : b <= D) by (unfold D; nia).
  destruct (floor_log_spec 10 ltac:(lia) N D HN ltac:(lia)) as [Hlog _].
  set (adj := floor_log 10 N D) in *.
  assert (Hadj : adj <= 3).
  { destruct (Z.le_gt_cases adj 3) as [H|H]; [exact H|exfalso].
    specialize (Hlog ltac:(lia)).
    assert (10 ^ 4 <= 10 ^ adj) by (apply Z.pow_le_mono_r; lia).
    change (10 ^ 4) with 10000 in *. nia. }
  set (e := Z.max (adj - 27) (-1000026)).
  assert (He : -1000026 <= e <= -24) by (unfold e; lia).
  destruct (Z.leb_spec 0 e) as [H|_]; [lia|].
  set (P := 10 ^ (- e)).
  assert (HP : 0 < P) by (apply Z.pow_pos_nonneg; lia).
  destruct (round_half_even_spec (N * P) D ltac:(lia)) as [Hround _].
  set (c := round_half_even (N * P) D) in *.
  rewrite (digits_fits 10 c e 5 1000000); [discriminate|lia| |lia| |lia].
  - change (10 ^ 4) with 10000 in *. nia.
  - replace (5 - e) with (5 + - e) by lia.
    rewrite Z.pow_add_r by lia. fold P.
    change (10 ^ 5) with 100000. change (10 ^ 4) with 10000 in *. nia.
Qed.

(** Below 2^52 the float quotient is close enough to the exact one for
    [ceil] to give the exact ceiling. *)
Lemma min_shelves_required_exact (search_length : Z) :
  Z.abs search_length < 2 ^ 52 ->
  SpaceService.min_shelves_required search_length
  = Ok (- ((- search_length) / SHELF_LENGTH)).
Proof.
  intros Hbound.
  unfold SpaceService.min_shelves_required, true_divide, SHELF_LENGTH.
  change (50 =? 0) with false. cbv iota.
  destruct (Z.eqb_spec search_length 0) as [E|E]; [now subst|].
  unfold round_quotient. change (Z.abs 50) with 50. change (53 - 1) with 52.
  set (n := Z.abs search_length) in *.
  assert (Hn : 0 < n) by (unfold n; lia).
  destruct (floor_log_spec 2 ltac:(lia) n 50 Hn ltac:(lia)) as [Hlog _].
  set (a := floor_log 2 n 50) in *.
  assert (Ha : a <= 46).
  { destruct (Z.le_gt_cases a 46) as [H|H]; [exact H|exfalso].
    specialize (Hlog ltac:(lia)).
    assert (2 ^ 47 <= 2 ^ a) by (apply Z.pow_le_mono_r; lia).
    change (2 ^ 52) with 4503599627370496 in Hbound.
    change (2 ^ 47) with 140737488355328 in *. lia. }
  set (e := Z.max (a - 52) (-1074)).
  assert (He : -1074 <= e <= -6) by (unfold e; lia).
  destruct (Z.leb_spec 0 e) as [H|_]; [lia|].
  set (P := 2 ^ (- e)).
  assert (HP : 64 <= P).
  { change 64 with (2 ^ 6). apply Z.pow_le_mono_r; lia. }
  destruct (round_half_even_spec (n * P) 50 ltac:(lia)) as [Hround _].
  set (c := round_half_even (n * P) 50) in *.
  assert (Hc : 0 < c) by nia.
  assert (Hfits : (digits 2 c + e >? 1024) = false).
  { rewrite Z.gtb_ltb. apply Z.ltb_ge.
    destruct (Z.le_gt_cases (digits 2 c + e) 1024) as [H|H];
      [exact H|exfalso].
    destruct (digits_spec 2 ltac:(lia) c Hc) as [[Hlo _] _].
    assert (H1 : 2 ^ (52 - e) <= 2 ^ (digits 2 c - 1))
      by (apply Z.pow_le_mono_r; lia).
    replace (52 - e) with (52 + - e) in H1 by lia.
    rewrite Z.pow_add_r in H1 by lia. fold P in H1.
    change (2 ^ 52) with 4503599627370496 in *. nia. }
  rewrite Hfits. unfold scaled.
  destruct (Z.leb_spec 0 e) as [H|_]; [lia|]. fold P.
  unfold ceil. cbn [Qnum Qden].
  rewrite Z2Pos.id by lia.
  change (Z.sgn 50) with 1.
  set (M := Z.sgn search_length * 1 * c).
  assert (HM : -25 <= 50 * M - search_length * P <= 25).
  { unfold M, n in *. destruct search_length; cbn [Z.sgn Z.abs] in *;
      [lia| |]; nia. }
  f_equal. f_equal. symmetry.
  pose proof (Z.div_mod (- search_length) 50 ltac:(lia)) as Hdm.
  pose proof (Z.mod_pos_bound (- search_length) 50 ltac:(lia)) as Hr.
  set (t := - search_length / 50) in *.
  set (r := (- search_length) mod 50) in *.
  apply Z.div_unique with (r := - M - P * t); [|ring].
  left.
  assert (HlP : search_length * P = - (50 * (t * P) + r * P)) by nia.
  assert (HrP : 0 <= r * P <= 49 * P) by nia.
  lia.
Qed.

(** ** Saving and reading rows *)

Section SaveFacts.
Context {A : Type} (pk : A -> Z).

Lemma get_row_save_row (x : A) (table : list A) :
  get_row pk (pk x) (save_row pk x table) = Some x.
Proof.
  unfold get_row, save_row.
  destruct (existsb (fun y => pk y =? pk x) table) eqn:E.
  - induction table as [|a table IH]; simpl in *; [discriminate|].
    destruct (pk a =? pk x) eqn:Ea; simpl.
    + now rewrite Z.eqb_refl.
    + rewrite Ea. now apply IH.
  - induction table as [|a table IH]; simpl in *.
    + now rewrite Z.eqb_refl.
    + apply orb_false_elim in E as [Ea E]. rewrite Ea. now apply IH.
Qed.

Lemma existsb_pk_In (x : A) (table : list A) :
  In x table -> existsb (fun y => pk y =? pk x) table = true.
Proof.
  intros H. apply existsb_exists. exists x. split; [exact H|apply Z.eqb_refl].
Qed.
End SaveFacts.

Lemma code_in_In (s : string) (codes : list string) :
  code_in s codes = true <-> In s codes.
Proof.
  unfold code_in. rewrite existsb_exists. split.
  - intros [c [Hc E]]. apply String.eqb_eq in E. now subst.
  - intros H. exists s. split; [exact H|apply String.eqb_refl].
Qed.

Lemma code_in_not_In (s : string) (codes : list string) :
  code_in s codes = false <-> ~ In s codes.
Proof.
  rewrite <- code_in_In. destruct (code_in s codes); split; intros H;
    try reflexivity; try discriminate; try (intros H'; discriminate).
  now contradiction H.
Qed.

(** ** Space state machine *)

Lemma space_is_valid_transition_false (old_status new_status : string) :
  SpaceStateService.is_valid_transition old_status new_status = false <->
  (new_status = Space.Status.PENDING
   \/ new_status = old_status
   \/ ((old_status = Space.Status.APPROVED
        \/ old_status = Space.Status.ON_HOLD)
       /\ new_status = Space.Status.REJECTED)).
Proof.
  unfold SpaceStateService.is_valid_transition.
  destruct (String.eqb_spec new_status Space.Status.PENDING) as [Hp|Hp].
  { split; auto. }
  destruct (code_in old_status [Space.Status.APPROVED; Space.Status.ON_HOLD])
    eqn:Hin.
  - apply code_in_In in Hin.
    destruct (String.eqb_spec new_status Space.Status.REJECTED) as [Hr|Hr];
      simpl.
    + split; [intros _|reflexivity]. right. right. split; [|exact Hr].
      destruct Hin as [H|[H|[]]]; auto.
    + destruct (String.eqb_spec new_status old_status) as [Ho|Ho].
      * split; auto.
      * split; [discriminate|]. intros [H|[H|[_ H]]]; contradiction.
  - apply code_in_not_In in Hin. simpl.
    destruct (String.eqb_spec new_status old_status) as [Ho|Ho].
    + split; auto.
    + split; [discriminate|]. intros [H|[H|[[H|H] _]]]; try contradiction;
        exfalso; apply Hin; rewrite H; simpl; auto.
Qed.

(** C2. The transition rule of a Space is false exactly for a target of
    Pending, a target equal to the current status, and a target of Rejected
    from Approved or OnHold; [transition] raises [InvalidSpaceStateError]
    for a code outside the four statuses, raises
    [SpaceStateTransitionError] when the rule is false, and otherwise
    stores the new status and returns [True]: the status of the Space it
    hands back and of the stored row reads the new status. Whenever it
    raises, the Space and the database are as they were. *)
Theorem space_transition_spec :
  (forall old_status new_status,
      SpaceStateService.is_valid_transition old_status new_status = false <->
      (new_status = Space.Status.PENDING
       \/ new_status = old_status
       \/ ((old_status = Space.Status.APPROVED
            \/ old_status = Space.Status.ON_HOLD)
           /\ new_status = Space.Status.REJECTED)))
  /\ (forall space new_status db,
         ~ In new_status Space.Status.values ->
         SpaceStateService.transition space new_status db
         = (Raise (InvalidSpaceStateError new_status), space, db))
  /\ (forall space new_status db,
         In new_status Space.Status.values ->
         SpaceStateService.is_valid_transition (Space.status space) new_status
         = false ->
         SpaceStateService.transition space new_status db
         = (Raise (SpaceStateTransitionError (Space.status space) new_status),
            space, db))
  /\ (forall space new_status db,
         In new_status Space.Status.values ->
         SpaceStateService.is_valid_transition (Space.status space) new_status
         = true ->
         exists db',
           SpaceStateService.transition space new_status db
           = (Ok true, Space.set_status new_status space, db')
           /\ get_row Space.id (Space.id space) (spaces db')
              = Some (Space.set_status new_status space))
  /\ (forall space new_status db,
         In new_status Space.Status.values ->
         SpaceStateService.is_valid_transition (Space.status space) new_status
         = true ->
         let space' :=
           snd (fst (SpaceStateService.transition space new_status db)) in
         let db' := snd (SpaceStateService.transition space new_status db) in
         fst (fst (SpaceStateService.transition space new_status db))
         = Ok true
         /\ Space.status space' = new_status
         /\ Space.id space' = Space.id space
         /\ get_row Space.id (Space.id space) (spaces db') = Some space'
         /\ option_map Space.status
                       (get_row Space.id (Space.id space) (spaces db'))
            = Some new_status)
  /\ (forall space new_status db e space' db',
         SpaceStateService.transition space new_status db
         = (Raise e, space', db') ->
         space' = space /\ db' = db)
  /\ SpaceStateService.is_valid_transition
       Space.Status.APPROVED Space.Status.REJECTED = false
  /\ SpaceStateService.is_valid_transition
       Space.Status.APPROVED Space.Status.APPROVED = false
  /\ SpaceStateService.is_valid_transition
       Space.Status.ON_HOLD Space.Status.REJECTED = false
  /\ SpaceStateService.is_valid_transition
       Space.Status.PENDING Space.Status.APPROVED = true
  /\ SpaceStateService.is_valid_transition
       Space.Status.REJECTED Space.Status.ON_HOLD = true.
Proof.
  split; [exact space_is_valid_transition_false|].
  split.
  { intros space new_status db H. apply code_in_not_In in H.
    unfold SpaceStateService.transition, SpaceStateService.is_valid_status.
    now rewrite H. }
  split.
  { intros space new_status db H Hv. apply code_in_In in H.
    unfold SpaceStateService.transition, SpaceStateService.is_valid_status.
    now rewrite H, Hv. }
  split.
  { intros space new_status db H Hv. apply code_in_In in H.
    unfold SpaceStateService.transition, SpaceStateService.is_valid_status.
    rewrite H, Hv. simpl. eexists. split; [reflexivity|].
    simpl.
    apply (get_row_save_row Space.id (Space.set_status new_status space)). }
  split.
  { intros space new_status db H Hv. apply code_in_In in H.
    unfold SpaceStateService.transition, SpaceStateService.is_valid_status.
    rewrite H, Hv. cbn [negb fst snd spaces set_spaces].
    pose proof (get_row_save_row
                  Space.id (Space.set_status new_status space) (spaces db))
      as Hsaved.
    change (Space.id (Space.set_status new_status space))
      with (Space.id space) in Hsaved.
    rewrite Hsaved. repeat split. }
  split.
  { intros space new_status db e space' db'.
    unfold SpaceStateService.transition.
    destruct (negb (SpaceStateService.is_valid_status new_status));
      [intros H; inversion H; auto|].
    destruct (negb (SpaceStateService.is_valid_transition
                      (Space.status space) new_status));
      intros H; inversion H; auto. }
  repeat split; reflexivity.
Qed.

(** ** Installation Request state machine *)

Lemma request_is_valid_transition_true (old_status new_status : string) :
  InstallationRequestStateService.is_valid_transition old_status new_status
  = true.
Proof.
  unfold InstallationRequestStateService.is_valid_transition.
  destruct (_ && _); [reflexivity|]. destruct (_ && _); reflexivity.
Qed.

Lemma request_transition_cases (r : InstallationRequest.t)
    (new_status : string) (db : Store) :
  (~ In new_status InstallationRequest.Status.values
   /\ InstallationRequestStateService.transition r new_status db
      = (Raise (InvalidInstallationRequestStateError new_status), r, db))
  \/ (In new_status InstallationRequest.Status.values
      /\ new_status = InstallationRequest.Status.COMPLETED
      /\ InstallationRequest.num_rack r
         * InstallationRequest.num_shelves_per_rack r = 0
      /\ InstallationRequestStateService.transition r new_status db
         = (Raise (IncompleteInstallationRequestError incomplete_message),
            r, db))
  \/ (In new_status InstallationRequest.Status.values
      /\ ~ (new_status = InstallationRequest.Status.COMPLETED
            /\ InstallationRequest.num_rack r
               * InstallationRequest.num_shelves_per_rack r = 0)
      /\ InstallationRequestStateService.transition r new_status db
         = (Ok true, InstallationRequest.set_status new_status r,
            set_installation_requests
              (save_row InstallationRequest.id
                        (InstallationRequest.set_status new_status r)
                        (installation_requests db)) db)).
Proof.
  unfold InstallationRequestStateService.transition,
    InstallationRequestStateService.is_valid_status.
  rewrite request_is_valid_transition_true.
  destruct (code_in new_status InstallationRequest.Status.values) eqn:Hin;
    simpl.
  2:{ left. apply code_in_not_In in Hin. auto. }
  apply code_in_In in Hin. right.
  destruct (String.eqb_spec new_status InstallationRequest.Status.COMPLETED)
    as [Hc|Hc]; simpl.
  - destruct (Z.eqb_spec (InstallationRequest.num_rack r
                          * InstallationRequest.num_shelves_per_rack r) 0)
      as [Hz|Hz].
    + left. auto.
    + right. repeat split; auto. intros [_ H]. contradiction.
  - right. repeat split; auto. intros [H _]. contradiction.
Qed.

(** C3. The transition rule of an Installation Request is true for every
    pair; [transition] raises [InvalidInstallationRequestStateError]
    exactly when the target is not one of the four codes, raises
    [IncompleteInstallationRequestError] exactly when the target is
    Completed and num_rack * num_shelves_per_rack is 0, and in every other
    case stores the new status and returns [True]: the status of the
    request it hands back and of the stored row reads the new status.
    Whenever it raises, the request and the database are as they were. *)
Theorem request_transition_spec :
  (forall old_status new_status,
      InstallationRequestStateService.is_valid_transition
        old_status new_status = true)
  /\ (forall r new_status db,
         (exists c, fst (fst (InstallationRequestStateService.transition
                                r new_status db))
                    = Raise (InvalidInstallationRequestStateError c))
         <-> ~ In new_status InstallationRequest.Status.values)
  /\ (forall r new_status db,
         (exists m, fst (fst (InstallationRequestStateService.transition
                                r new_status db))
                    = Raise (IncompleteInstallationRequestError m))
         <-> (new_status = InstallationRequest.Status.COMPLETED
              /\ InstallationRequest.num_rack r
                 * InstallationRequest.num_shelves_per_rack r = 0))
  /\ (forall r new_status db,
         (exists db',
             InstallationRequestStateService.transition r new_status db
             = (Ok true, InstallationRequest.set_status new_status r, db')
             /\ get_row InstallationRequest.id (InstallationRequest.id r)
                        (installation_requests db')
                = Some (InstallationRequest.set_status new_status r))
         <-> (In new_status InstallationRequest.Status.values
              /\ ~ (new_status = InstallationRequest.Status.COMPLETED
                    /\ InstallationRequest.num_rack r
                       * InstallationRequest.num_shelves_per_rack r = 0)))
  /\ (forall r new_status db,
         In new_status InstallationRequest.Status.values ->
         ~ (new_status = InstallationRequest.Status.COMPLETED
            /\ InstallationRequest.num_rack r
               * InstallationRequest.num_shelves_per_rack r = 0) ->
         let r' :=
           snd (fst (InstallationRequestStateService.transition
                       r new_status db)) in
         let db' :=
           snd (InstallationRequestStateService.transition
                  r new_status db) in
         fst (fst (InstallationRequestStateService.transition
                     r new_status db)) = Ok true
         /\ InstallationRequest.status r' = new_status
         /\ InstallationRequest.id r' = InstallationRequest.id r
         /\ get_row InstallationRequest.id (InstallationRequest.id r)
                    (installation_requests db') = Some r'
         /\ option_map InstallationRequest.status
                       (get_row InstallationRequest.id
                                (InstallationRequest.id r)
                                (installation_requests db'))
            = Some new_status)
  /\ (forall r new_status db e r' db',
         InstallationRequestStateService.transition r new_status db
         = (Raise e, r', db') ->
         r' = r /\ db' = db).
Proof.
  split; [exact request_is_valid_transition_true|].
  split.
  { intros r new_status db.
    destruct (request_transition_cases r new_status db)
      as [[Hn E]|[[Hi [Hc [Hz E]]]|[Hi [Hn E]]]]; rewrite E; simpl.
    - split; [auto|]. intros _. now exists new_status.
    - split; [intros [c H]; discriminate|]. intros H. contradiction.
    - split; [intros [c H]; discriminate|]. intros H. contradiction. }
  split.
  { intros r new_status db.
    destruct (request_transition_cases r new_status db)
      as [[Hn E]|[[Hi [Hc [Hz E]]]|[Hi [Hn E]]]]; rewrite E; simpl.
    - split; [intros [m H]; discriminate|]. intros [Hc _]. exfalso.
      apply Hn. rewrite Hc. simpl. auto.
    - split; [auto|]. intros _. now exists incomplete_message.
    - split; [intros [m H]; discriminate|]. intros H. contradiction. }
  split.
  { intros r new_status db.
    destruct (request_transition_cases r new_status db)
      as [[Hn E]|[[Hi [Hc [Hz E]]]|[Hi [Hn E]]]]; rewrite E.
    - split; [intros [db' [H _]]; discriminate|]. intros [H _]. contradiction.
    - split; [intros [db' [H _]]; discriminate|]. intros [_ H].
      exfalso. apply H. auto.
    - split; [auto|]. intros _. eexists. split; [reflexivity|]. simpl.
      apply (get_row_save_row InstallationRequest.id
               (InstallationRequest.set_status new_status r)). }
  split.
  { intros r new_status db Hin Hok.
    destruct (request_transition_cases r new_status db)
      as [[Hn E]|[[Hi [Hc [Hz E]]]|[Hi [Hn E]]]]; rewrite E;
      [contradiction|exfalso; apply Hok; auto|].
    cbn [fst snd installation_requests set_installation_requests].
    pose proof (get_row_save_row
                  InstallationRequest.id
                  (InstallationRequest.set_status new_status r)
                  (installation_requests db)) as Hsaved.
    change (InstallationRequest.id
              (InstallationRequest.set_status new_status r))
      with (InstallationRequest.id r) in Hsaved.
    rewrite Hsaved. repeat split. }
  intros r new_status db e r' db' H.
  destruct (request_transition_cases r new_status db)
    as [[Hn E]|[[Hi [Hc [Hz E]]]|[Hi [Hn E]]]]; rewrite E in H;
    inversion H; auto.
Qed.

(** ** Duration and price *)

Lemma total_price_cents (b : Booking.t) (rate : Q) (cents : Z) :
  (rate == cents # 100)%Q ->
  (Booking.total_price b
   == inject_Z (DateMgr.get_total_days (Booking.start_date b)
                                       (Booking.end_date b))
      * rate * inject_Z (Z.of_nat (Booking.num_shelves_occupied b)))%Q ->
  Qnum (Booking.total_price b) * 100
  = cents * (Z.of_nat (Booking.num_shelves_occupied b)
             * BookingService.get_total_days b)
    * Z.pos (Qden (Booking.total_price b)).
Proof.
  intros Hrate Hprice. rewrite Hrate in Hprice.
  unfold Qeq in Hprice. cbn [Qnum Qden Qmult inject_Z] in Hprice.
  unfold BookingService.get_total_days.
  change (Z.pos (1 * 100 * 1)) with 100 in Hprice. rewrite Hprice. ring.
Qed.

(** C9. For a booking whose range has end_date >= start_date,
    [get_total_days] is (end_date - start_date) + 1, which is at least 1
    and is 1 when the two dates coincide. When the booking holds at least
    one shelf and its total_price is days x daily rate x shelves, the
    rate a Decimal with two decimal places, [get_price_per_day] returns
    the daily rate; when it holds no shelf, the division raises. *)
Theorem total_days_and_price_per_day (b : Booking.t) :
  Booking.start_date b <= Booking.end_date b ->
  BookingService.get_total_days b
  = (Booking.end_date b - Booking.start_date b) + 1
  /\ 1 <= BookingService.get_total_days b
  /\ (Booking.start_date b = Booking.end_date b ->
      BookingService.get_total_days b = 1)
  /\ (Booking.num_shelves_occupied b = 0%nat ->
      BookingService.get_price_per_day b = None)
  /\ (forall (rate : Q) (cents : Z),
         (0 < Booking.num_shelves_occupied b)%nat ->
         (rate == cents # 100)%Q ->
         Z.abs cents < 10 ^ 28 ->
         (Booking.total_price b
          == inject_Z (DateMgr.get_total_days (Booking.start_date b)
                                              (Booking.end_date b))
             * rate
             * inject_Z (Z.of_nat (Booking.num_shelves_occupied b)))%Q ->
         exists q, BookingService.get_price_per_day b = Some q
                   /\ (q == rate)%Q).
Proof.
  intros Hrange.
  assert (Hdays : BookingService.get_total_days b
                  = Booking.end_date b - Booking.start_date b + 1)
    by reflexivity.
  split; [exact Hdays|]. split; [lia|]. split; [lia|]. split.
  - intros Hzero. unfold BookingService.get_price_per_day.
    now rewrite Hzero.
  - intros rate cents Hshelves Hrate Hcents Hprice.
    destruct (decimal_divide_exact
                (Booking.total_price b)
                (Z.of_nat (Booking.num_shelves_occupied b)
                 * BookingService.get_total_days b) cents)
      as [q [Hq Heq]]; [nia|exact Hcents| |].
    + exact (total_price_cents b rate cents Hrate Hprice).
    + exists q. split; [exact Hq|]. now rewrite Hrate.
Qed.

(** Two shelves for three inclusive days at 6.99 cost 41.94, and the price
    per day read back from that booking is 6.99. *)
Lemma total_days_and_price_per_day_example :
  BookingService.get_total_days priced_booking = 3
  /\ (Booking.total_price priced_booking == 3 * (699 # 100) * 2)%Q
  /\ exists q, BookingService.get_price_per_day priced_booking = Some q
               /\ (q == 699 # 100)%Q.
Proof.
  assert (Hprice :
    (Booking.total_price priced_booking
     == inject_Z (DateMgr.get_total_days (Booking.start_date priced_booking)
                                         (Booking.end_date priced_booking))
        * (699 # 100)
        * inject_Z (Z.of_nat (Booking.num_shelves_occupied priced_booking)))%Q)
    by reflexivity.
  destruct (total_days_and_price_per_day priced_booking)
    as [_ [_ [_ [_ Hq]]]]; [simpl; lia|].
  split; [reflexivity|]. split; [reflexivity|].
  apply (Hq (699 # 100) 699); [simpl; lia|reflexivity|reflexivity|].
  exact Hprice.
Defined.

(** A booking made through /book/<space_id>/0/: no shelf, three days at
    6.99, so a total_price of 0; its price per day cannot be computed. *)
Lemma zero_shelves_price_per_day_raises :
  Booking.start_date zero_shelf_booking <= Booking.end_date zero_shelf_booking
  /\ (Booking.total_price zero_shelf_booking
      == inject_Z (BookingService.get_total_days zero_shelf_booking)
         * (699 # 100)
         * inject_Z (Z.of_nat
                       (Booking.num_shelves_occupied zero_shelf_booking)))%Q
  /\ BookingService.get_price_per_day zero_shelf_booking = None.
Proof.
  split; [simpl; lia|]. split; reflexivity.
Qed.

(** ** Occupancy synchronisation *)

Lemma save_get (b : Booking.t) (db : Store) :
  get_row Booking.id (Booking.id b) (bookings (BookingStateService.save b db))
  = Some b.
Proof. apply (get_row_save_row Booking.id b). Qed.

Lemma update_space_cases (b : Booking.t) (db : Store) :
  (Booking.status b <> Booking.Status.ACTIVE
   /\ Booking.occupying_space b = true
   /\ BookingStateService.update_space b db
      = (Booking.set_occupying_space false b,
         BookingStateService.save (Booking.set_occupying_space false b)
           (BookingService.update_shelves b true db)))
  \/ (Booking.status b = Booking.Status.ACTIVE
      /\ Booking.occupying_space b = false
      /\ BookingStateService.update_space b db
         = (Booking.set_occupying_space true b,
            BookingStateService.save (Booking.set_occupying_space true b)
              (BookingService.update_shelves b false db)))
  \/ (Booking.occupying_space b
      = String.eqb (Booking.status b) Booking.Status.ACTIVE
      /\ BookingStateService.update_space b db
         = (b, BookingStateService.save b db)).
Proof.
  unfold BookingStateService.update_space, BookingStateService.release_space,
    BookingStateService.occupy_space.
  destruct (String.eqb_spec (Booking.status b) Booking.Status.ACTIVE) as [E|E];
    destruct (Booking.occupying_space b); simpl; auto.
Qed.

Lemma update_shelves_marked (b : Booking.t) (v : bool) (db : Store) :
  marked b v db (BookingStateService.save
                   (Booking.set_occupying_space (negb v) b)
                   (BookingService.update_shelves b v db)).
Proof.
  unfold marked, BookingService.get_shelves. cbn.
  split; [reflexivity|]. split.
  - intros s Hs. apply filter_In in Hs as [Hs Hw]. apply in_map_iff.
    exists s. now rewrite Hw.
  - intros s Hs Hn. apply in_map_iff. exists s. split; [|exact Hs].
    destruct (BookingService.get_shelves_where b db s) eqn:Hw;
      [|reflexivity].
    exfalso. apply Hn. apply filter_In. auto.
Qed.

Lemma marked_availability (b : Booking.t) (v : bool) (db db' : Store) :
  marked b v db db' -> availability_is b v db db'.
Proof.
  intros [Hrows _]. unfold availability_is. rewrite Hrows.
  split; [|split; [|apply length_map]].
  - intros s Hs. apply filter_In in Hs as [Hs Hw].
    exists (Shelf.set_is_available v s). split.
    + apply in_map_iff. exists s. now rewrite Hw.
    + repeat split.
  - intros s' Hs'. apply in_map_iff in Hs' as [s [<- Hs]].
    destruct (BookingService.get_shelves_where b db s) eqn:Hw.
    + change (BookingService.get_shelves_where
                b db (Shelf.set_is_available v s))
        with (BookingService.get_shelves_where b db s).
      rewrite Hw. reflexivity.
    + rewrite Hw. exact Hs.
Qed.

Lemma update_space_sync (b : Booking.t) (db : Store) :
  synced (fst (BookingStateService.update_space b db))
  /\ Booking.status (fst (BookingStateService.update_space b db))
     = Booking.status b
  /\ get_row Booking.id (Booking.id b)
       (bookings (snd (BookingStateService.update_space b db)))
     = Some (fst (BookingStateService.update_space b db)).
Proof.
  unfold synced.
  destruct (update_space_cases b db) as [[Hs [Ho E]]|[[Hs [Ho E]]|[Ho E]]];
    rewrite E; cbn [fst snd].
  - split; [|split; [reflexivity|]].
    + simpl. symmetry. now apply String.eqb_neq.
    + apply (save_get (Booking.set_occupying_space false b)).
  - split; [|split; [reflexivity|]].
    + simpl. symmetry. now apply String.eqb_eq.
    + apply (save_get (Booking.set_occupying_space true b)).
  - split; [exact Ho|]. split; [reflexivity|]. apply save_get.
Qed.

(** C1. After [update_space], and so after [update_status], the booking
    has occupying_space equal to (status == Active), in memory and in its
    stored row. A booking that is not Active and was occupying has the
    shelves selected by [get_shelves] marked available and its flag
    cleared: the flag reads False and every selected shelf is stored with
    is_available True. An Active booking that was not occupying has them
    marked unavailable and its flag set: the flag reads True and every
    selected shelf is stored with is_available False. In the remaining
    cases the booking and the shelves are left as they were. *)
Theorem update_space_invariant :
  (forall b db,
      let b' := fst (BookingStateService.update_space b db) in
      let db' := snd (BookingStateService.update_space b db) in
      synced b'
      /\ Booking.status b' = Booking.status b
      /\ get_row Booking.id (Booking.id b) (bookings db') = Some b'
      /\ (Booking.status b <> Booking.Status.ACTIVE ->
          Booking.occupying_space b = true ->
          b' = Booking.set_occupying_space false b /\ marked b true db db'
          /\ Booking.occupying_space b' = false
          /\ availability_is b true db db')
      /\ (Booking.status b = Booking.Status.ACTIVE ->
          Booking.occupying_space b = false ->
          b' = Booking.set_occupying_space true b /\ marked b false db db'
          /\ Booking.occupying_space b' = true
          /\ availability_is b false db db')
      /\ (synced b -> b' = b /\ shelves db' = shelves db))
  /\ (forall today b new_status db,
         synced (fst (BookingStateService.update_status
                        today b new_status db))).
Proof.
  split.
  - intros b db b' db'. subst b' db'.
    destruct (update_space_sync b db) as [Hsync [Hstatus Hsaved]].
    split; [exact Hsync|]. split; [exact Hstatus|]. split; [exact Hsaved|].
    unfold synced.
    destruct (update_space_cases b db) as [[Hs [Ho E]]|[[Hs [Ho E]]|[Ho E]]];
      rewrite E; cbn [fst snd]; (split; [|split]); intros H1; try intros H2;
      try contradiction; try congruence.
    + split; [reflexivity|]. split; [apply update_shelves_marked|].
      split; [reflexivity|].
      apply marked_availability, (update_shelves_marked b true).
    + rewrite Ho in H1. symmetry in H1. apply String.eqb_eq in H1.
      contradiction.
    + split; [reflexivity|]. split; [apply update_shelves_marked|].
      split; [reflexivity|].
      apply marked_availability, (update_shelves_marked b false).
    + rewrite Ho in H1. symmetry in H1. apply String.eqb_neq in H1.
      contradiction.
    + rewrite H2 in Ho. symmetry in Ho. apply String.eqb_eq in Ho.
      contradiction.
    + rewrite H2 in Ho. symmetry in Ho. apply String.eqb_neq in Ho.
      contradiction.
    + split; reflexivity.
  - intros today b new_status db.
    unfold BookingStateService.update_status. apply update_space_sync.
Qed.

(** ** Date-driven status *)

Lemma set_status_same (b : Booking.t) :
  Booking.set_status (Booking.status b) b = b.
Proof. now destruct b. Qed.

Lemma update_space_status (b : Booking.t) (db : Store) :
  Booking.status (fst (BookingStateService.update_space b db))
  = Booking.status b.
Proof.
  destruct (update_space_cases b db) as [[_ [_ E]]|[[_ [_ E]]|[_ E]]];
    now rewrite E.
Qed.

(** The status the automatic mode of [update_status] assigns. *)
Lemma update_status_auto_status (today : Z) (b : Booking.t) (db : Store) :
  BookingStateService.update_status today b None db
  = BookingStateService.update_space
      (Booking.set_status
         (Booking.status
            (fst (BookingStateService.update_status today b None db))) b) db
  /\ Booking.status (fst (BookingStateService.update_status today b None db))
     = automatic_status today b.
Proof.
  unfold BookingStateService.update_status, automatic_status.
  destruct (String.eqb (Booking.status b) Booking.Status.CANCELLED);
    cbn [negb].
  - rewrite update_space_status, set_status_same. auto.
  - destruct (Booking.end_date b <? today);
      [|destruct (Booking.start_date b <=? today)];
      rewrite update_space_status; cbn [Booking.status Booking.set_status];
      auto.
Qed.

(** C6. [update_status] without an explicit target sets a booking that is
    not Cancelled to Past when end_date < today, to Active when
    start_date <= today <= end_date, and to Booked when today < start_date
    and today <= end_date; the tests are made in this order, so a booking
    whose dates are the wrong way round is Past, not Booked, on a day
    between them. For a booking with start_date <= end_date the last case
    is today < start_date alone. A Cancelled booking's status is left
    alone. [update_space] is then run on the booking with that status,
    and the stored row is the booking it hands back. *)
Theorem update_status_automatic (today : Z) (b : Booking.t) (db : Store) :
  let b' := fst (BookingStateService.update_status today b None db) in
  let db' := snd (BookingStateService.update_status today b None db) in
  (Booking.status b <> Booking.Status.CANCELLED ->
   (Booking.end_date b < today -> Booking.status b' = Booking.Status.PAST)
   /\ (Booking.start_date b <= today <= Booking.end_date b ->
       Booking.status b' = Booking.Status.ACTIVE)
   /\ (today < Booking.start_date b -> today <= Booking.end_date b ->
       Booking.status b' = Booking.Status.BOOKED)
   /\ (Booking.start_date b <= Booking.end_date b ->
       today < Booking.start_date b ->
       Booking.status b' = Booking.Status.BOOKED))
  /\ (Booking.status b = Booking.Status.CANCELLED ->
      Booking.status b' = Booking.Status.CANCELLED)
  /\ BookingStateService.update_status today b None db
     = BookingStateService.update_space
         (Booking.set_status (Booking.status b') b) db
  /\ synced b'
  /\ get_row Booking.id (Booking.id b) (bookings db') = Some b'.
Proof.
  intros b' db'. subst b' db'.
  destruct (update_status_auto_status today b db) as [Hrun Hst].
  split; [|split; [|split; [|split]]].
  - intros Hc. apply String.eqb_neq in Hc. unfold automatic_status in Hst.
    rewrite Hc in Hst. rewrite Hst. repeat split.
    + intros H. apply Z.ltb_lt in H. now rewrite H.
    + intros [H1 H2].
      destruct (Z.ltb_spec (Booking.end_date b) today); [lia|].
      destruct (Z.leb_spec (Booking.start_date b) today); [reflexivity|lia].
    + intros H1 H2.
      destruct (Z.ltb_spec (Booking.end_date b) today); [lia|].
      destruct (Z.leb_spec (Booking.start_date b) today); [lia|reflexivity].
    + intros H1 H2.
      destruct (Z.ltb_spec (Booking.end_date b) today); [lia|].
      destruct (Z.leb_spec (Booking.start_date b) today); [lia|reflexivity].
  - intros Hc. unfold automatic_status in Hst. rewrite Hst, Hc. reflexivity.
  - exact Hrun.
  - rewrite Hrun at 1.
    apply (update_space_sync (Booking.set_status _ b) db).
  - rewrite Hrun at 1 2.
    apply (update_space_sync (Booking.set_status _ b) db).
Qed.

(** On the second day of the sample booking the refresh makes it Active. *)
Lemma update_status_automatic_example :
  Booking.status
    (fst (BookingStateService.update_status 738001 priced_booking None
            sample_db))
  = Booking.Status.ACTIVE.
Proof.
  destruct (update_status_automatic 738001 priced_booking sample_db)
    as [H _].
  apply H; [discriminate|simpl; lia].
Defined.

(** A booking from the 10th back to the 5th, refreshed on the 7th: the day
    is before its start date, and the refresh makes it Past. *)
Lemma update_status_automatic_inverted_dates :
  Booking.status inverted_booking <> Booking.Status.CANCELLED
  /\ 738007 < Booking.start_date inverted_booking
  /\ Booking.status
       (fst (BookingStateService.update_status 738007 inverted_booking None
               sample_db))
     = Booking.Status.PAST
  /\ Booking.Status.PAST <> Booking.Status.BOOKED.
Proof.
  split; [discriminate|]. split; [simpl; lia|].
  split; [reflexivity|discriminate].
Qed.

(** ** Ordering *)

Section OrderByFacts.
Context {A : Type} (key : A -> Z).

Lemma insert_by_perm (x : A) (l : list A) :
  Permutation (x :: l) (insert_by key x l).
Proof.
  induction l as [|y l IH]; simpl; [apply Permutation_refl|].
  destruct (key x <=? key y); [apply Permutation_refl|].
  eapply perm_trans; [apply perm_swap|]. now apply perm_skip.
Qed.

Lemma order_by_perm (l : list A) : Permutation l (order_by key l).
Proof.
  induction l as [|x l IH]; simpl; [apply perm_nil|].
  eapply perm_trans; [|apply insert_by_perm]. now apply perm_skip.
Qed.

Lemma order_by_In (x : A) (l : list A) : In x (order_by key l) <-> In x l.
Proof.
  split; apply Permutation_in;
    [apply Permutation_sym|]; apply order_by_perm.
Qed.

Lemma insert_by_sorted (x : A) (l : list A) :
  StronglySorted (key_le key) l ->
  StronglySorted (key_le key) (insert_by key x l).
Proof.
  induction l as [|y l IH]; simpl; intros Hs.
  - constructor; [constructor|constructor].
  - inversion Hs as [|? ? Hl Hy]; subst.
    destruct (Z.leb_spec (key x) (key y)) as [Hxy|Hxy].
    + constructor; [exact Hs|]. constructor; [exact Hxy|].
      eapply Forall_impl; [|exact Hy]. unfold key_le. intros a Ha. lia.
    + constructor; [now apply IH|].
      eapply Permutation_Forall; [apply insert_by_perm|].
      constructor; [unfold key_le; lia|exact Hy].
Qed.

Lemma order_by_sorted (l : list A) :
  StronglySorted (key_le key) (order_by key l).
Proof.
  induction l as [|x l IH]; simpl; [constructor|].
  now apply insert_by_sorted.
Qed.

(** The first row of an ordered result is a row of the input with the
    least key. *)
Lemma first_order_by_Some (l : list A) (x : A) :
  first (order_by key l) = Some x ->
  In x l /\ forall y, In y l -> key x <= key y.
Proof.
  intros H. pose proof (order_by_sorted l) as Hs.
  destruct (order_by key l) as [|x' l'] eqn:E; [discriminate|].
  injection H as ->. split.
  - apply order_by_In. rewrite E. now left.
  - intros y Hy. apply order_by_In in Hy. rewrite E in Hy.
    inversion Hs as [|? ? _ Hall]; subst.
    destruct Hy as [->|Hy]; [lia|].
    rewrite Forall_forall in Hall. now apply Hall.
Qed.

Lemma first_order_by_None (l : list A) :
  first (order_by key l) = None <-> l = [].
Proof.
  split.
  - intros H. destruct (order_by key l) eqn:E; [|discriminate].
    pose proof (order_by_perm l) as Hp. rewrite E in Hp.
    now apply Permutation_sym, Permutation_nil in Hp.
  - now intros ->.
Qed.
End OrderByFacts.

(** ** Best-fit rack *)

Lemma get_rack_Some (space : Space.t) (min_shelves : Z) (db : Store)
    (r : Rack.t) :
  BookingFormService.get_rack space min_shelves db = Some r ->
  In r (SpaceService.get_racks space db)
  /\ min_shelves <= available_shelves_of db r
  /\ forall r', In r' (SpaceService.get_racks space db) ->
                min_shelves <= available_shelves_of db r' ->
                available_shelves_of db r <= available_shelves_of db r'.
Proof.
  unfold BookingFormService.get_rack. intros H.
  apply first_order_by_Some in H as [Hin Hmin].
  apply filter_In in Hin as [Hin Hge]. apply Z.leb_le in Hge.
  repeat split; auto.
  intros r' Hr' Hge'. apply Hmin. apply filter_In. split; [exact Hr'|].
  now apply Z.leb_le.
Qed.

Lemma get_rack_None (space : Space.t) (min_shelves : Z) (db : Store) :
  BookingFormService.get_rack space min_shelves db = None <->
  forall r', In r' (SpaceService.get_racks space db) ->
             available_shelves_of db r' < min_shelves.
Proof.
  unfold BookingFormService.get_rack. rewrite first_order_by_None. split.
  - intros H r' Hr'.
    destruct (Z.leb_spec min_shelves (available_shelves_of db r'))
      as [Hge|Hlt]; [|exact Hlt].
    assert (Hf : In r' (filter (fun r => min_shelves
                                           <=? available_shelves_of db r)
                               (SpaceService.get_racks space db))).
    { apply filter_In. split; [exact Hr'|now apply Z.leb_le]. }
    rewrite H in Hf. destruct Hf.
  - intros H.
    destruct (filter _ _) as [|r l] eqn:E; [reflexivity|].
    assert (Hf : In r (r :: l)) by now left.
    rewrite <- E in Hf. apply filter_In in Hf as [Hr Hge].
    apply Z.leb_le in Hge. specialize (H r Hr). lia.
Qed.


(** ** Availability search *)

Lemma get_available_spaces_rejects (search_location : option string)
    (search_length search_width search_height : Z) (db : Store) :
  SHELF_WIDTH < Z.min search_length search_width
  \/ SHELF_HEIGHT < search_height ->
  SpaceService.get_available_spaces search_location search_length
    search_width search_height db = Ok [].
Proof.
  intros H. unfold SpaceService.get_available_spaces. cbv iota beta.
  destruct (Z.gtb_spec (Z.min search_length search_width) SHELF_WIDTH)
    as [Hw|Hw]; [reflexivity|].
  destruct (Z.gtb_spec search_height SHELF_HEIGHT) as [Hh|Hh];
    [reflexivity|].
  lia.
Qed.

Lemma get_available_spaces_swap (search_location : option string)
    (search_length search_width search_height : Z) (db : Store) :
  SpaceService.get_available_spaces search_location search_length
    search_width search_height db
  = SpaceService.get_available_spaces search_location search_width
      search_length search_height db.
Proof.
  unfold SpaceService.get_available_spaces.
  now rewrite (Z.max_comm search_length), (Z.min_comm search_length).
Qed.

(** The search on the path that reaches the division: its result is
    [Ok] of a list exactly when the division returns. *)
Ltac search_returned H :=
  unfold SpaceService.get_available_spaces in H; cbv iota beta in H;
  destruct (_ >? SHELF_WIDTH);
    [inversion H; subst; clear H; intros []|];
  destruct (_ >? SHELF_HEIGHT);
    [inversion H; subst; clear H; intros []|];
  destruct (SpaceService.min_shelves_required _) as [min_shelves|?] eqn:Hmin;
    [|discriminate H];
  inversion H; subst; clear H.


(** C7, as the code has it. After the footprint is normalised so that
    length >= width, [get_available_spaces] returns an empty result
    whenever the normalised width exceeds 46 or the height exceeds 42.
    Item (10, 10, 50) yields an empty result; item (10, 50, 10) is
    searched as (50, 10, 10) and passes the check; footprint (60, 10, 10)
    also passes it (width 10, height 10) and is answered with the Spaces
    that have a rack at least 60 long and a rack with 2 available
    shelves. *)
Theorem get_available_spaces_dimension_check :
  SHELF_WIDTH = 46 /\ SHELF_HEIGHT = 42
  /\ (forall search_location search_length search_width search_height db,
         SHELF_WIDTH < Z.min search_length search_width
         \/ SHELF_HEIGHT < search_height ->
         SpaceService.get_available_spaces search_location search_length
           search_width search_height db = Ok [])
  /\ (forall search_location db,
         SpaceService.get_available_spaces search_location 10 10 50 db
         = Ok [])
  /\ (forall search_location db,
         SpaceService.get_available_spaces search_location 10 50 10 db
         = SpaceService.get_available_spaces search_location 50 10 10 db)
  /\ SpaceService.get_available_spaces None 10 50 10 sample_db
     = Ok [mkAnnotated sample_space (Some 8) 1]
  /\ SpaceService.get_available_spaces None 60 10 10 sample_db
     = Ok [mkAnnotated sample_space (Some 8) 2].
Proof.
  split; [reflexivity|]. split; [reflexivity|].
  split; [exact get_available_spaces_rejects|].
  split.
  { intros search_location db. apply get_available_spaces_rejects.
    right. reflexivity. }
  split.
  { intros search_location db. apply get_available_spaces_swap. }
  split; reflexivity.
Qed.

(** Footprint (60, 10, 10) is not rejected: the sample database answers it
    with its approved Space. *)
Lemma footprint_60_10_10_not_rejected :
  SpaceService.get_available_spaces None 60 10 10 sample_db <> Ok [].
Proof. vm_compute. discriminate. Qed.


(** ** The batch refresh run twice *)

Section SaveRowFacts.
Context {A : Type} (pk : A -> Z).

Lemma In_save_row (x r : A) (table : list A) :
  In r (save_row pk x table) -> r = x \/ (In r table /\ pk r <> pk x).
Proof.
  unfold save_row.
  destruct (existsb (fun y => pk y =? pk x) table) eqn:E.
  - intros H. apply in_map_iff in H as [y [Hy Hin]].
    destruct (Z.eqb_spec (pk y) (pk x)) as [Heq|Hne]; [now left|].
    subst r. right. split; assumption.
  - intros H. apply in_app_or in H as [H|[H|[]]]; [|now left].
    right. split; [exact H|].
    intros Heq. apply Bool.not_true_iff_false in E. apply E.
    apply existsb_exists. exists r. split; [exact H|].
    now apply Z.eqb_eq.
Qed.

Lemma save_row_unchanged (x : A) (table : list A) :
  In x table ->
  (forall y, In y table -> pk y = pk x -> y = x) ->
  save_row pk x table = table.
Proof.
  intros Hin Hsame. unfold save_row.
  rewrite (existsb_pk_In pk x table Hin).
  rewrite <- (map_id table) at 2. apply map_ext_in.
  intros y Hy. destruct (Z.eqb_spec (pk y) (pk x)) as [Heq|Hne];
    [|reflexivity].
  symmetry. now apply Hsame.
Qed.
End SaveRowFacts.

Lemma set_bookings_same (db : Store) : set_bookings (bookings db) db = db.
Proof. now destruct db. Qed.

Lemma update_space_bookings (b : Booking.t) (db : Store) :
  bookings (snd (BookingStateService.update_space b db))
  = save_row Booking.id (fst (BookingStateService.update_space b db))
             (bookings db)
  /\ Booking.id (fst (BookingStateService.update_space b db)) = Booking.id b
  /\ Booking.start_date (fst (BookingStateService.update_space b db))
     = Booking.start_date b
  /\ Booking.end_date (fst (BookingStateService.update_space b db))
     = Booking.end_date b.
Proof.
  destruct (update_space_cases b db) as [[_ [_ E]]|[[_ [_ E]]|[_ E]]];
    rewrite E; cbn; auto.
Qed.

Section Refresh.
Variable today : Z.

Lemma refreshed_fields (b : Booking.t) (db : Store) :
  bookings (refresh_step today db b)
  = save_row Booking.id (refreshed today b db) (bookings db)
  /\ Booking.id (refreshed today b db) = Booking.id b
  /\ Booking.start_date (refreshed today b db) = Booking.start_date b
  /\ Booking.end_date (refreshed today b db) = Booking.end_date b.
Proof.
  unfold refresh_step, refreshed.
  destruct (update_status_auto_status today b db) as [Hrun _].
  set (s := Booking.status
              (fst (BookingStateService.update_status today b None db)))
    in Hrun.
  clearbody s. rewrite Hrun.
  exact (update_space_bookings (Booking.set_status s b) db).
Qed.

Lemma refreshed_settled (b : Booking.t) (db : Store) :
  settled today (refreshed today b db).
Proof.
  destruct (refreshed_fields b db) as [_ [_ [Hs He]]].
  destruct (update_status_auto_status today b db) as [Hrun Hst].
  fold (refreshed today b db) in Hst. split.
  - unfold refreshed. rewrite Hrun. apply update_space_sync.
  - unfold automatic_status at 1. rewrite Hs, He, Hst.
    unfold automatic_status.
    destruct (String.eqb (Booking.status b) Booking.Status.CANCELLED) eqn:Hc;
      [now rewrite Hc|].
    destruct (Booking.end_date b <? today); [reflexivity|].
    destruct (Booking.start_date b <=? today); reflexivity.
Qed.

(** A settled booking is handed back as it is, and only saved. *)
Lemma update_status_settled (b : Booking.t) (db : Store) :
  settled today b ->
  BookingStateService.update_status today b None db
  = (b, BookingStateService.save b db).
Proof.
  intros [Hocc Hauto]. unfold synced in Hocc.
  destruct (update_status_auto_status today b db) as [Hrun Hst].
  rewrite Hrun, Hst, Hauto, set_status_same.
  destruct (update_space_cases b db) as [[Hs [Ho _]]|[[Hs [Ho _]]|[_ E]]].
  - rewrite Ho in Hocc. symmetry in Hocc. apply String.eqb_eq in Hocc.
    contradiction.
  - rewrite Ho in Hocc. symmetry in Hocc. apply String.eqb_neq in Hocc.
    contradiction.
  - exact E.
Qed.

Lemma step_settled_key (b : Booking.t) (db : Store) (k : Z) :
  k = Booking.id b \/ settled_key today db k ->
  settled_key today (refresh_step today db b) k.
Proof.
  destruct (refreshed_fields b db) as [Hrows [Hid _]].
  intros [->|[b' [Hb' Hall]]].
  - exists (refreshed today b db). split; [apply refreshed_settled|].
    intros r Hr Hk. rewrite Hrows in Hr.
    apply In_save_row in Hr as [Hr|[_ Hne]]; [exact Hr|].
    rewrite Hid in Hne. contradiction.
  - destruct (Z.eq_dec k (Booking.id b)) as [->|Hne].
    + exists (refreshed today b db). split; [apply refreshed_settled|].
      intros r Hr Hk. rewrite Hrows in Hr.
      apply In_save_row in Hr as [Hr|[_ Hne]]; [exact Hr|].
      rewrite Hid in Hne. contradiction.
    + exists b'. split; [exact Hb'|].
      intros r Hr Hk. rewrite Hrows in Hr.
      apply In_save_row in Hr as [Hr|[Hr _]]; [|now apply Hall].
      subst r. rewrite Hid in Hk. now subst k.
Qed.

Lemma run_settled_key (l : list Booking.t) (db : Store) (k : Z) :
  In k (map Booking.id l) \/ settled_key today db k ->
  settled_key today (fold_left (refresh_step today) l db) k.
Proof.
  revert db. induction l as [|b l IH]; simpl; intros db H.
  - destruct H as [[]|H]. exact H.
  - apply IH. destruct H as [[H|H]|H].
    + right. apply step_settled_key. left. now symmetry.
    + now left.
    + right. apply step_settled_key. now right.
Qed.

Lemma run_keys (l : list Booking.t) (db : Store) (r : Booking.t) :
  In r (bookings (fold_left (refresh_step today) l db)) ->
  In (Booking.id r) (map Booking.id (bookings db))
  \/ In (Booking.id r) (map Booking.id l).
Proof.
  revert db. induction l as [|b l IH]; simpl; intros db H.
  - left. now apply in_map.
  - apply IH in H as [H|H]; [|now right; right].
    destruct (refreshed_fields b db) as [Hrows [Hid _]].
    apply in_map_iff in H as [y [Hy Hin]]. rewrite Hrows in Hin.
    apply In_save_row in Hin as [->|[Hin _]].
    + right. left. now rewrite <- Hy, Hid.
    + left. rewrite <- Hy. now apply in_map.
Qed.

(** A run over settled rows that are stored as they stand changes
    nothing. *)
Lemma run_settled (l : list Booking.t) (db : Store) :
  (forall b, In b l ->
             In b (bookings db) /\ settled today b
             /\ forall r, In r (bookings db) ->
                          Booking.id r = Booking.id b -> r = b) ->
  fold_left (refresh_step today) l db = db.
Proof.
  induction l as [|b l IH]; simpl; intros H; [reflexivity|].
  destruct (H b (or_introl eq_refl)) as [Hin [Hset Hsame]].
  assert (Hstep : refresh_step today db b = db).
  { unfold refresh_step. rewrite (update_status_settled b db Hset).
    cbn [snd].
    unfold BookingStateService.save.
    rewrite (save_row_unchanged Booking.id b (bookings db) Hin Hsame).
    apply set_bookings_same. }
  rewrite Hstep. apply IH. intros b0 Hb0. apply H. now right.
Qed.

Lemma update_status_all_twice (db : Store) :
  BookingStateService.update_status_all today
    (BookingStateService.update_status_all today db)
  = BookingStateService.update_status_all today db.
Proof.
  unfold BookingStateService.update_status_all at 1.
  fold (refresh_step today).
  set (db1 := BookingStateService.update_status_all today db).
  apply run_settled. intros b Hb.
  assert (Hkey : settled_key today db1 (Booking.id b)).
  { unfold db1, BookingStateService.update_status_all.
    fold (refresh_step today).
    apply run_settled_key. left.
    unfold db1, BookingStateService.update_status_all in Hb.
    fold (refresh_step today) in Hb.
    apply run_keys in Hb as [Hb|Hb]; exact Hb. }
  destruct Hkey as [b' [Hb' Hall]].
  assert (b = b') by now apply Hall. subst b'.
  split; [exact Hb|]. split; [exact Hb'|].
  intros r Hr Hid. now apply Hall.
Qed.
End Refresh.

(** C8. Running [update_status_all] a second time on the same day changes
    nothing: the database after the second run, with every booking's
    status and occupying_space flag and every shelf's is_available bit, is
    the database after the first run. *)
Theorem update_status_all_idempotent (today : Z) (db : Store) :
  BookingStateService.update_status_all today
    (BookingStateService.update_status_all today db)
  = BookingStateService.update_status_all today db.
Proof. apply update_status_all_twice. Qed.

(** On the sample database the first run activates the booking and takes
    its two shelves; the second run finds nothing to do. *)
Lemma update_status_all_example :
  map (fun b => (Booking.status b, Booking.occupying_space b))
      (bookings sample_db) = [("BOOKED"%string, false)]
  /\ map (fun b => (Booking.status b, Booking.occupying_space b))
         (bookings (BookingStateService.update_status_all 738001 sample_db))
     = [("ACTIVE"%string, true)]
  /\ map Shelf.is_available (shelf_set 2 sample_db)
     = [true; true; false; false; false; false]
  /\ map Shelf.is_available
         (shelf_set 2 (BookingStateService.update_status_all 738001 sample_db))
     = [false; false; false; false; false; false].
Proof. repeat split; reflexivity. Qed.

(** ** Conversion of a completed request *)

Lemma next_id_above (ids : list Z) (i : Z) : In i ids -> i < next_id ids.
Proof.
  unfold next_id. induction ids as [|j ids IH]; cbn [fold_right In];
    [intros []|].
  intros [->|H]; [lia|]. specialize (IH H). lia.
Qed.

Lemma id_in_In (i : Z) (ids : list Z) : id_in i ids = true <-> In i ids.
Proof.
  unfold id_in. rewrite existsb_exists. split.
  - intros [j [Hj E]]. apply Z.eqb_eq in E. now subst.
  - intros H. exists i. split; [exact H|apply Z.eqb_refl].
Qed.

Lemma filter_nil_when {A : Type} (f : A -> bool) (l : list A) :
  (forall x, In x l -> f x = false) -> filter f l = [].
Proof.
  induction l as [|x l IH]; simpl; intros H; [reflexivity|].
  rewrite (H x (or_introl eq_refl)). apply IH. intros y Hy. apply H. now right.
Qed.

Lemma filter_all_when {A : Type} (f : A -> bool) (l : list A) :
  (forall x, In x l -> f x = true) -> filter f l = l.
Proof.
  induction l as [|x l IH]; simpl; intros H; [reflexivity|].
  rewrite (H x (or_introl eq_refl)). f_equal. apply IH. intros y Hy.
  apply H. now right.
Qed.

(** The inner loop of [create_shelves]: one available shelf per label,
    appended to the shelf table, every other table untouched. *)
Lemma insert_shelves_spec (rack : Z) (label : nat -> string) (l : list nat)
    (db : Store) :
  exists new,
    fold_left (fun db i => SpaceService.insert_shelf rack (label i) db) l db
    = set_shelves (shelves db ++ new) db
    /\ map Shelf.shelf_label new = map label l
    /\ Forall (fun s => Shelf.rack s = rack /\ Shelf.is_available s = true) new.
Proof.
  revert db. induction l as [|i l IH]; intros db; simpl.
  - exists []. rewrite app_nil_r. split; [now destruct db|].
    split; [reflexivity|constructor].
  - destruct (IH (SpaceService.insert_shelf rack (label i) db))
      as [new [Hrun [Hlab Hall]]].
    exists (Shelf.mk (next_id (map Shelf.id (shelves db))) rack (label i) true
            :: new).
    split; [|split].
    + rewrite Hrun. unfold SpaceService.insert_shelf, set_shelves. simpl.
      now rewrite <- app_assoc.
    + simpl. now rewrite Hlab.
    + constructor; [split; reflexivity|exact Hall].
Qed.

Lemma get_row_delete_row {A : Type} (pk : A -> Z) (k : Z) (table : list A) :
  get_row pk k (delete_row pk k table) = None.
Proof.
  unfold get_row, delete_row.
  induction table as [|x table IH]; simpl; [reflexivity|].
  destruct (pk x =? k) eqn:E; simpl; [exact IH|]. now rewrite E.
Qed.

(** The labels are the index padded with zeros to three characters. *)
Lemma shelf_labels_example :
  shelf_labels 12
  = ["000"; "001"; "002"; "003"; "004"; "005"; "006"; "007"; "008"; "009";
     "010"; "011"]%string
  /\ forallb (fun i => (String.length (zfill 3 (str i)) =? 3)%nat)
             (seq 0 1000) = true.
Proof. split; vm_compute; reflexivity. Qed.

(** What the racks and shelves created for one Space look like: each rack
    belongs to the Space, has the given length and a key above the keys in
    use before; its shelves carry the labels in order and are available;
    and every created shelf belongs to a created rack. *)
Lemma create_shelves_loop (sid length : Z) (labels : list nat)
    (iterations : list nat) (db : Store) :
  exists new_racks new_shelves,
    fold_left
      (fun db (_ : nat) =>
         let '(rack, db) := SpaceService.insert_rack sid length db in
         fold_left
           (fun db i => SpaceService.insert_shelf (Rack.id rack)
                          (zfill 3 (str i)) db)
           labels db)
      iterations db
    = set_shelves (shelves db ++ new_shelves)
                  (set_racks (racks db ++ new_racks) db)
    /\ List.length new_racks = List.length iterations
    /\ Forall (fun rk => Rack.space rk = sid /\ Rack.length rk = length
                         /\ forall i, In i (map Rack.id (racks db)) ->
                                      i < Rack.id rk) new_racks
    /\ (forall rk, In rk new_racks ->
          map Shelf.shelf_label
              (filter (fun s => Shelf.rack s =? Rack.id rk) new_shelves)
          = map (fun i => zfill 3 (str i)) labels
          /\ Forall (fun s => Shelf.is_available s = true)
                    (filter (fun s => Shelf.rack s =? Rack.id rk) new_shelves))
    /\ (forall s, In s new_shelves ->
                  In (Shelf.rack s) (map Rack.id new_racks)).
Proof.
  revert db. induction iterations as [|it iterations IH]; intros db.
  - exists [], []. simpl. rewrite !app_nil_r.
    split; [now destruct db|]. split; [reflexivity|].
    split; [constructor|]. split; intros ? [].
  - cbn [fold_left].
    pose (rk0 := Rack.mk (next_id (map Rack.id (racks db))) sid length).
    pose (db1 := set_racks (racks db ++ [rk0]) db).
    destruct (insert_shelves_spec (Rack.id rk0) (fun i => zfill 3 (str i))
                labels db1) as [sh0 [Hinner [Hlab0 Hall0]]].
    match goal with
    | |- context [fold_left _ iterations ?x] =>
        change x with
          (fold_left (fun db i => SpaceService.insert_shelf (Rack.id rk0)
                                    (zfill 3 (str i)) db) labels db1)
    end.
    rewrite Hinner.
    set (db2 := set_shelves (shelves db1 ++ sh0) db1).
    destruct (IH db2) as [nr [ns [Hrun [Hlen [Hracks [Hshelves Hfk]]]]]].
    exists (rk0 :: nr), (sh0 ++ ns).
    rewrite Forall_forall in Hall0, Hracks.
    assert (Hlater : forall rk, In rk nr -> Rack.id rk0 < Rack.id rk).
    { intros rk Hrk. apply (Hracks rk Hrk). unfold db2, db1. simpl.
      rewrite map_app. apply in_or_app. right. now left. }
    split; [|split; [|split; [|split]]].
    + rewrite Hrun. unfold db2, db1, set_shelves, set_racks. simpl.
      now rewrite <- !app_assoc.
    + simpl. now rewrite Hlen.
    + constructor.
      * split; [reflexivity|]. split; [reflexivity|].
        intros i Hi. now apply next_id_above.
      * apply Forall_forall. intros rk Hrk.
        destruct (Hracks rk Hrk) as [Hs [Hl Hid]].
        split; [exact Hs|]. split; [exact Hl|].
        intros i Hi. apply Hid. unfold db2, db1. simpl.
        rewrite map_app. apply in_or_app. now left.
    + intros rk [<-|Hrk]; rewrite filter_app.
      * rewrite (filter_all_when _ sh0), (filter_nil_when _ ns), app_nil_r.
        -- split; [exact Hlab0|].
           apply Forall_forall. intros s Hs. now apply Hall0.
        -- intros s Hs. apply Z.eqb_neq. intros Heq.
           apply Hfk in Hs. apply in_map_iff in Hs as [rk [Hid Hrk]].
           specialize (Hlater rk Hrk). lia.
        -- intros s Hs. apply Z.eqb_eq. now apply Hall0.
      * rewrite (filter_nil_when _ sh0); [now apply Hshelves|].
        intros s Hs. apply Z.eqb_neq. intros Heq.
        destruct (Hall0 s Hs) as [Hr _]. specialize (Hlater rk Hrk). lia.
    + intros s Hs. apply in_app_or in Hs as [Hs|Hs].
      * left. symmetry. now apply Hall0.
      * right. now apply Hfk.
Qed.

Lemma foreign_keys_ok_racks (db : Store) (rk : Rack.t) :
  foreign_keys_ok db = true -> In rk (racks db) ->
  In (Rack.space rk) (map Space.id (spaces db)).
Proof.
  unfold foreign_keys_ok. intros H Hrk. apply andb_prop in H as [H _].
  rewrite forallb_forall in H. apply id_in_In. now apply H.
Qed.

Lemma foreign_keys_ok_shelves (db : Store) (s : Shelf.t) :
  foreign_keys_ok db = true -> In s (shelves db) ->
  In (Shelf.rack s) (map Rack.id (racks db)).
Proof.
  unfold foreign_keys_ok. intros H Hs. apply andb_prop in H as [_ H].
  rewrite forallb_forall in H. apply id_in_In. now apply H.
Qed.

(** C4. [convert_to_space] on a request that is not Completed raises an
    error carrying the request's status and changes nothing. On a
    Completed request, in a database whose inventory foreign keys are
    sound, it creates and returns a Space with status Approved, height
    SHELF_HEIGHT (42) x num_rack and the request's price; the Space has
    num_rack racks, each of length num_shelves_per_rack x SHELF_LENGTH
    (50); each of these racks has num_shelves_per_rack shelves, labelled
    000, 001, ... in order and all available; and the request is
    deleted. *)
Theorem convert_to_space_spec (r : InstallationRequest.t) (db : Store) :
  foreign_keys_ok db = true ->
  (InstallationRequest.status r <> InstallationRequest.Status.COMPLETED ->
   InstallationRequestService.convert_to_space r db
   = (Raise (InstallationRequestError (InstallationRequest.status r)), db))
  /\ (InstallationRequest.status r = InstallationRequest.Status.COMPLETED ->
      exists space db',
        InstallationRequestService.convert_to_space r db = (Ok space, db')
        /\ space
           = Space.mk (next_id (map Space.id (spaces db)))
               (InstallationRequest.renter r)
               (InstallationRequest.location r)
               (InstallationRequest.environment_conditions r)
               (42 * InstallationRequest.num_rack r)
               Space.Status.APPROVED
               (InstallationRequest.price_per_day r)
               (InstallationRequest.description r)
        /\ spaces db' = spaces db ++ [space]
        /\ racks db' = racks db ++ SpaceService.get_racks space db'
        /\ List.length (SpaceService.get_racks space db')
           = Z.to_nat (InstallationRequest.num_rack r)
        /\ (forall rk, In rk (SpaceService.get_racks space db') ->
              Rack.length rk = InstallationRequest.num_shelves_per_rack r * 50
              /\ List.length (shelf_set (Rack.id rk) db')
                 = Z.to_nat (InstallationRequest.num_shelves_per_rack r)
              /\ map Shelf.shelf_label (shelf_set (Rack.id rk) db')
                 = shelf_labels (InstallationRequest.num_shelves_per_rack r)
              /\ Forall (fun s => Shelf.is_available s = true)
                        (shelf_set (Rack.id rk) db'))
        /\ installation_requests db'
           = delete_row InstallationRequest.id (InstallationRequest.id r)
                        (installation_requests db)
        /\ get_row InstallationRequest.id (InstallationRequest.id r)
                   (installation_requests db') = None
        /\ locations db' = locations db
        /\ bookings db' = bookings db).
Proof.
  intros Hfk. unfold InstallationRequestService.convert_to_space.
  destruct (String.eqb_spec (InstallationRequest.status r)
                            InstallationRequest.Status.COMPLETED) as [Hc|Hc].
  2:{ split; [reflexivity|]. intros H. contradiction. }
  split; [intros H; contradiction|]. intros _.
  unfold InstallationRequestService.insert_space. cbv beta iota zeta.
  set (space := Space.set_id _ _).
  set (db1 := set_spaces (spaces db ++ [space]) db).
  unfold SpaceService.create_shelves.
  destruct (create_shelves_loop (Space.id space)
              (InstallationRequest.num_shelves_per_rack r * SHELF_LENGTH)
              (range (InstallationRequest.num_shelves_per_rack r))
              (range (InstallationRequest.num_rack r)) db1)
    as [nr [ns [Hrun [Hlen [Hracks [Hshelves Hown]]]]]].
  rewrite Hrun.
  rewrite Forall_forall in Hracks.
  eexists. eexists. split; [reflexivity|].
  assert (Hget : SpaceService.get_racks space
                   (set_installation_requests
                      (delete_row InstallationRequest.id
                         (InstallationRequest.id r)
                         (installation_requests
                            (set_shelves (shelves db1 ++ ns)
                               (set_racks (racks db1 ++ nr) db1))))
                      (set_shelves (shelves db1 ++ ns)
                         (set_racks (racks db1 ++ nr) db1))) = nr).
  { unfold SpaceService.get_racks. cbn [racks set_installation_requests
      set_shelves set_racks set_spaces db1].
    rewrite filter_app, filter_nil_when, filter_all_when; [reflexivity| |].
    - intros rk Hrk. apply Z.eqb_eq. now apply Hracks.
    - intros rk Hrk. apply Z.eqb_neq. intros Heq.
      apply (foreign_keys_ok_racks db rk Hfk) in Hrk.
      apply next_id_above in Hrk. rewrite Heq in Hrk.
      unfold space in Hrk. simpl in Hrk. lia. }
  rewrite Hget.
  split; [reflexivity|]. split; [reflexivity|]. split; [reflexivity|].
  split.
  { rewrite Hlen. unfold range. apply length_seq. }
  split.
  { intros rk Hrk. destruct (Hracks rk Hrk) as [_ [Hl Hid]].
    destruct (Hshelves rk Hrk) as [Hlab Havail].
    assert (Hset : shelf_set (Rack.id rk)
                     (set_installation_requests
                        (delete_row InstallationRequest.id
                           (InstallationRequest.id r)
                           (installation_requests
                              (set_shelves (shelves db1 ++ ns)
                                 (set_racks (racks db1 ++ nr) db1))))
                        (set_shelves (shelves db1 ++ ns)
                           (set_racks (racks db1 ++ nr) db1)))
                   = filter (fun s => Shelf.rack s =? Rack.id rk) ns).
    { unfold shelf_set. cbn [shelves set_installation_requests set_shelves
        set_racks set_spaces db1].
      rewrite filter_app, filter_nil_when; [reflexivity|].
      intros s Hs. apply Z.eqb_neq. intros Heq.
      apply (foreign_keys_ok_shelves db s Hfk) in Hs.
      specialize (Hid (Shelf.rack s) Hs). lia. }
    rewrite Hset. split; [exact Hl|].
    split; [|split; [exact Hlab|exact Havail]].
    rewrite <- (length_map Shelf.shelf_label), Hlab, length_map.
    unfold range. apply length_seq. }
  split; [reflexivity|].
  split; [apply get_row_delete_row|].
  split; reflexivity.
Qed.

(** Two racks of three shelves: the converted Space has 2 racks of length
    150 and 6 shelves, all available, and the request is gone. *)
Lemma convert_to_space_example :
  foreign_keys_ok request_db = true
  /\ exists space db',
      InstallationRequestService.convert_to_space completed_request request_db
      = (Ok space, db')
      /\ map Rack.length (SpaceService.get_racks space db') = [150; 150]
      /\ map (fun rk => map (fun s => (Shelf.shelf_label s,
                                       Shelf.is_available s))
                            (shelf_set (Rack.id rk) db'))
             (SpaceService.get_racks space db')
         = [[("000", true); ("001", true); ("002", true)];
            [("000", true); ("001", true); ("002", true)]]%string
      /\ List.length
           (filter (fun s => id_in (Shelf.rack s)
                               (map Rack.id (SpaceService.get_racks space db')))
                   (shelves db')) = 6%nat
      /\ installation_requests db' = [].
Proof.
  split; [reflexivity|].
  destruct (convert_to_space_spec completed_request request_db eq_refl)
    as [_ H].
  destruct (H eq_refl) as [space [db' [Hrun _]]].
  exists space, db'. split; [exact Hrun|].
  vm_compute in Hrun. injection Hrun as <- <-.
  repeat split; reflexivity.
Defined.

(** * Further properties *)

(** ** Cancellation and the explicit mode of [update_status] *)

Lemma update_status_explicit (today : Z) (b : Booking.t) (c : ascii)
    (s : string) (db : Store) :
  BookingStateService.update_status today b (Some (String c s)) db
  = BookingStateService.update_space
      (if BookingStateService.is_valid_status (String c s)
       then Booking.set_status (String c s) b else b) db.
Proof. reflexivity. Qed.

Lemma marked_same_selection (b b0 : Booking.t) (v : bool) (db db' : Store) :
  BookingService.get_shelves_where b0 db
  = BookingService.get_shelves_where b db ->
  marked b0 v db db' -> marked b v db db'.
Proof.
  unfold marked, BookingService.get_shelves. intros E. now rewrite E.
Qed.

(** [cancel_booking] by anyone but the lessee answers [False] and changes
    neither the booking nor the database. By the lessee it answers
    [True] and leaves the booking saved, its status reading Cancelled and
    its flag False; when the booking was occupying, every shelf
    [get_shelves] selects is stored with is_available True afterwards,
    and no shelf changes when it was not. *)
Theorem cancel_booking_spec (today : Z) (b : Booking.t) (user : Z)
    (db : Store) :
  (Booking.lessee b <> user ->
   cancel_booking today b user db = (false, b, db))
  /\ (Booking.lessee b = user ->
      let b' := snd (fst (cancel_booking today b user db)) in
      let db' := snd (cancel_booking today b user db) in
      fst (fst (cancel_booking today b user db)) = true
      /\ b' = Booking.set_occupying_space false
                (Booking.set_status Booking.Status.CANCELLED b)
      /\ get_row Booking.id (Booking.id b) (bookings db') = Some b'
      /\ (Booking.occupying_space b = true -> marked b true db db')
      /\ (Booking.occupying_space b = false -> shelves db' = shelves db)
      /\ Booking.status b' = Booking.Status.CANCELLED
      /\ Booking.occupying_space b' = false
      /\ Booking.id b' = Booking.id b
      /\ (Booking.occupying_space b = true ->
          availability_is b true db db')).
Proof.
  unfold cancel_booking. split.
  - intros H. apply Z.eqb_neq in H. now rewrite H.
  - intros H. apply Z.eqb_eq in H. rewrite H.
    change (BookingStateService.update_status today b
              (Some Booking.Status.CANCELLED) db)
      with (BookingStateService.update_space
              (Booking.set_status Booking.Status.CANCELLED b) db).
    set (bc := Booking.set_status Booking.Status.CANCELLED b).
    destruct (BookingStateService.update_space bc db) as [b1 db1] eqn:E.
    cbn [fst snd]. split; [reflexivity|].
    destruct (update_space_cases bc db)
      as [[Hs [Ho E']]|[[Hs [Ho E']]|[Ho E']]];
      rewrite E' in E; injection E as <- <-.
    + assert (Hmarked : marked
                          b true db
                          (BookingStateService.save
                             (Booking.set_occupying_space false bc)
                             (BookingService.update_shelves bc true db))).
      { apply (marked_same_selection b bc); [reflexivity|].
        apply (update_shelves_marked bc true). }
      split; [reflexivity|]. split.
      * exact (save_get (Booking.set_occupying_space false bc) _).
      * split; [intros _; exact Hmarked|].
        split; [intros H'; simpl in Ho; congruence|].
        repeat (split; [reflexivity|]).
        intros _. exact (marked_availability b true _ _ Hmarked).
    + discriminate Hs.
    + unfold bc in Ho. simpl in Ho. split.
      * unfold bc. destruct b. simpl in *. now rewrite Ho.
      * split; [exact (save_get bc db)|]. split; [intros H'; congruence|].
        split; [reflexivity|].
        split; [reflexivity|]. split; [exact Ho|].
        split; [reflexivity|]. intros H'. congruence.
Qed.

Lemma cancel_booking_by_lessee (today : Z) (b : Booking.t) (db : Store) :
  cancel_booking today b (Booking.lessee b) db
  = (true,
     Booking.set_occupying_space false
       (Booking.set_status Booking.Status.CANCELLED b),
     snd (BookingStateService.update_space
            (Booking.set_status Booking.Status.CANCELLED b) db)).
Proof.
  unfold cancel_booking. rewrite Z.eqb_refl.
  change (BookingStateService.update_status today b
            (Some Booking.Status.CANCELLED) db)
    with (BookingStateService.update_space
            (Booking.set_status Booking.Status.CANCELLED b) db).
  set (bc := Booking.set_status Booking.Status.CANCELLED b).
  destruct (update_space_cases bc db) as [[Hs [Ho E]]|[[Hs [Ho E]]|[Ho E]]];
    rewrite E; cbn [snd]; [reflexivity|discriminate Hs|].
  f_equal. f_equal. simpl in Ho. unfold bc. destruct b. simpl in *.
  now rewrite Ho.
Qed.

Lemma cancelled_settled (today : Z) (b : Booking.t) :
  settled today (Booking.set_occupying_space false
                   (Booking.set_status Booking.Status.CANCELLED b)).
Proof. split; reflexivity. Qed.

(** Once its lessee has cancelled a booking, the date-driven refresh
    leaves it alone: on any day and against any state of the database,
    [update_status] without a target hands the cancelled booking back as
    it is and only saves it. *)
Theorem cancelled_booking_is_final (today today' : Z) (b : Booking.t)
    (user : Z) (db db2 : Store) :
  Booking.lessee b = user ->
  let b1 := snd (fst (cancel_booking today b user db)) in
  Booking.status b1 = Booking.Status.CANCELLED
  /\ Booking.occupying_space b1 = false
  /\ BookingStateService.update_status today' b1 None db2
     = (b1, BookingStateService.save b1 db2).
Proof.
  intros <- b1. subst b1. rewrite cancel_booking_by_lessee. cbn [fst snd].
  split; [reflexivity|]. split; [reflexivity|].
  apply update_status_settled, cancelled_settled.
Qed.

Lemma cancelled_booking_is_final_example :
  Booking.lessee priced_booking = 9
  /\ BookingStateService.update_status
       738001 (snd (fst (cancel_booking 737999 priced_booking 9 sample_db)))
       None sample_db
     = (Booking.set_status Booking.Status.CANCELLED priced_booking,
        BookingStateService.save
          (Booking.set_status Booking.Status.CANCELLED priced_booking)
          sample_db).
Proof.
  split; [reflexivity|].
  exact (proj2 (proj2 (cancelled_booking_is_final
                         737999 738001 priced_booking 9 sample_db sample_db
                         eq_refl))).
Defined.

(** With an explicit target [update_status] checks the code and nothing
    else: a valid code becomes the status whatever the current status and
    the dates are, a code that is not valid leaves the status as it is
    (the date rule is not run), and in both cases the occupancy is brought
    in line. An empty target is the automatic mode. *)
Theorem update_status_explicit_mode :
  (forall today b c s db,
      let code := String c s in
      let b' :=
        fst (BookingStateService.update_status today b (Some code) db) in
      synced b'
      /\ (In code Booking.Status.values -> Booking.status b' = code)
      /\ (~ In code Booking.Status.values ->
          Booking.status b' = Booking.status b))
  /\ (forall today b db,
         BookingStateService.update_status today b (Some ""%string) db
         = BookingStateService.update_status today b None db).
Proof.
  split; [|reflexivity].
  intros today b c s db code b'. subst b' code.
  rewrite update_status_explicit.
  split; [apply update_space_sync|].
  rewrite update_space_status.
  unfold BookingStateService.is_valid_status. split; intros H.
  - apply code_in_In in H. now rewrite H.
  - apply code_in_not_In in H. now rewrite H.
Qed.

(** ** The order of the statuses in time *)

Lemma automatic_status_not_cancelled (today : Z) (b : Booking.t) :
  Booking.status b <> Booking.Status.CANCELLED ->
  automatic_status today b
  = if Booking.end_date b <? today then Booking.Status.PAST
    else if Booking.start_date b <=? today then Booking.Status.ACTIVE
    else Booking.Status.BOOKED.
Proof.
  intros H. apply String.eqb_neq in H. unfold automatic_status.
  now rewrite H.
Qed.

(** A booking that is not cancelled never moves back in time: refreshed
    on a day and refreshed again on the same or a later day, its status
    stays or advances along Booked, Active, Past. *)
Theorem status_never_moves_back (today today' : Z) (b : Booking.t)
    (db db2 : Store) :
  today <= today' ->
  Booking.status b <> Booking.Status.CANCELLED ->
  let b1 := fst (BookingStateService.update_status today b None db) in
  let b2 := fst (BookingStateService.update_status today' b1 None db2) in
  In (Booking.status b1)
     [Booking.Status.BOOKED; Booking.Status.ACTIVE; Booking.Status.PAST]
  /\ In (Booking.status b2)
        [Booking.Status.BOOKED; Booking.Status.ACTIVE; Booking.Status.PAST]
  /\ status_rank (Booking.status b1) <= status_rank (Booking.status b2).
Proof.
  intros Hle Hc b1 b2.
  destruct (refreshed_fields today b db) as [_ [_ [Hs He]]].
  fold b1 in Hs, He. unfold refreshed in Hs, He. fold b1 in Hs, He.
  assert (H1 : Booking.status b1
               = if Booking.end_date b <? today then Booking.Status.PAST
                 else if Booking.start_date b <=? today
                      then Booking.Status.ACTIVE
                      else Booking.Status.BOOKED).
  { unfold b1.
    rewrite (proj2 (update_status_auto_status today b db)).
    now apply automatic_status_not_cancelled. }
  assert (Hc1 : Booking.status b1 <> Booking.Status.CANCELLED).
  { rewrite H1. destruct (_ <? _); [discriminate|].
    destruct (_ <=? _); discriminate. }
  assert (H2 : Booking.status b2
               = if Booking.end_date b <? today' then Booking.Status.PAST
                 else if Booking.start_date b <=? today'
                      then Booking.Status.ACTIVE
                      else Booking.Status.BOOKED).
  { unfold b2.
    rewrite (proj2 (update_status_auto_status today' b1 db2)).
    rewrite (automatic_status_not_cancelled today' b1 Hc1).
    now rewrite Hs, He. }
  rewrite H1, H2.
  destruct (Z.ltb_spec (Booking.end_date b) today);
    destruct (Z.ltb_spec (Booking.end_date b) today'); try lia;
    destruct (Z.leb_spec (Booking.start_date b) today);
    destruct (Z.leb_spec (Booking.start_date b) today'); try lia;
    (split; [simpl; auto|split; [simpl; auto|]]); vm_compute; congruence.
Qed.

Lemma status_never_moves_back_example :
  738001 <= 738005
  /\ Booking.status priced_booking <> Booking.Status.CANCELLED
  /\ status_rank
       (Booking.status
          (fst (BookingStateService.update_status 738001 priced_booking None
                  sample_db)))
     <= status_rank
          (Booking.status
             (fst (BookingStateService.update_status 738005
                     (fst (BookingStateService.update_status
                             738001 priced_booking None sample_db))
                     None sample_db))).
Proof.
  assert (Hle : 738001 <= 738005) by lia.
  assert (Hc : Booking.status priced_booking <> Booking.Status.CANCELLED)
    by discriminate.
  split; [exact Hle|]. split; [exact Hc|].
  exact (proj2 (proj2 (status_never_moves_back
                         738001 738005 priced_booking sample_db sample_db
                         Hle Hc))).
Defined.

(** ** What the batch refresh establishes and what it leaves alone *)

Lemma map_pk_save_row {A : Type} (pk : A -> Z) (x : A) (table : list A) :
  In (pk x) (map pk table) -> map pk (save_row pk x table) = map pk table.
Proof.
  intros Hin. unfold save_row.
  assert (E : existsb (fun y => pk y =? pk x) table = true).
  { apply in_map_iff in Hin as [y [Hy Hin]]. apply existsb_exists.
    exists y. split; [exact Hin|]. now apply Z.eqb_eq. }
  rewrite E. clear E Hin.
  induction table as [|a table IH]; simpl; [reflexivity|].
  rewrite IH. destruct (Z.eqb_spec (pk a) (pk x)) as [Ea|Ea]; [|reflexivity].
  now rewrite Ea.
Qed.

Lemma only_availability_differs_refl (db : Store) :
  only_availability_differs db db.
Proof. repeat split. Qed.

Lemma only_availability_differs_trans (db1 db2 db3 : Store) :
  only_availability_differs db1 db2 -> only_availability_differs db2 db3 ->
  only_availability_differs db1 db3.
Proof.
  unfold only_availability_differs.
  intros [H1 [H2 [H3 [H4 H5]]]] [K1 [K2 [K3 [K4 K5]]]].
  repeat split; congruence.
Qed.

Lemma update_shelves_frame (b : Booking.t) (v : bool) (db : Store) :
  only_availability_differs db (BookingService.update_shelves b v db).
Proof.
  unfold only_availability_differs, BookingService.update_shelves. cbn.
  repeat split. rewrite map_map. apply map_ext. intros s.
  now destruct (BookingService.get_shelves_where b db s).
Qed.

Lemma update_space_frame (b : Booking.t) (db : Store) :
  only_availability_differs db (snd (BookingStateService.update_space b db))
  /\ same_booking_data b (fst (BookingStateService.update_space b db)).
Proof.
  destruct (update_space_cases b db) as [[_ [_ E]]|[[_ [_ E]]|[_ E]]];
    rewrite E; cbn [fst snd]; (split; [|now destruct b]).
  - apply (update_shelves_frame b true).
  - apply (update_shelves_frame b false).
  - repeat split.
Qed.

Lemma update_status_frame (today : Z) (b : Booking.t)
    (new_status : option string) (db : Store) :
  only_availability_differs
    db (snd (BookingStateService.update_status today b new_status db))
  /\ same_booking_data
       b (fst (BookingStateService.update_status today b new_status db)).
Proof.
  unfold BookingStateService.update_status.
  match goal with
  | |- context [BookingStateService.update_space ?x db] => set (b0 := x)
  end.
  destruct (update_space_frame b0 db) as [Hdb Hb]. split; [exact Hdb|].
  assert (Hb0 : b0 = Booking.set_status (Booking.status b0) b).
  { unfold b0. destruct new_status as [[|c s]|];
      repeat match goal with
             | |- context [if ?c then _ else _] => destruct c
             end; now destruct b. }
  unfold same_booking_data in *.
  remember (fst (BookingStateService.update_space b0 db)) as x eqn:Hx.
  clear Hx. rewrite Hb0 in Hb. rewrite Hb at 1. reflexivity.
Qed.

Section RefreshFrame.
Variable today : Z.

Lemma run_frame (l : list Booking.t) (db : Store) :
  only_availability_differs db (fold_left (refresh_step today) l db).
Proof.
  revert db. induction l as [|b l IH]; intros db; simpl.
  - apply only_availability_differs_refl.
  - eapply only_availability_differs_trans; [|apply IH].
    apply update_status_frame.
Qed.

Lemma run_ids (l : list Booking.t) (db : Store) :
  (forall b, In b l -> In (Booking.id b) (map Booking.id (bookings db))) ->
  map Booking.id (bookings (fold_left (refresh_step today) l db))
  = map Booking.id (bookings db).
Proof.
  revert db. induction l as [|b l IH]; intros db H; simpl; [reflexivity|].
  destruct (refreshed_fields today b db) as [Hrows [Hid _]].
  assert (Hstep : map Booking.id (bookings (refresh_step today db b))
                  = map Booking.id (bookings db)).
  { rewrite Hrows. apply map_pk_save_row. rewrite Hid. apply H. now left. }
  rewrite IH; [exact Hstep|].
  intros b0 Hb0. rewrite Hstep. apply H. now right.
Qed.

Lemma run_booking_data (l : list Booking.t) (db0 db : Store) :
  (forall b, In b l -> In b (bookings db0)) ->
  (forall r, In r (bookings db) ->
             exists b, In b (bookings db0) /\ same_booking_data b r) ->
  forall r, In r (bookings (fold_left (refresh_step today) l db)) ->
            exists b, In b (bookings db0) /\ same_booking_data b r.
Proof.
  revert db. induction l as [|b l IH]; intros db Hl Hdb; simpl;
    [exact Hdb|].
  apply IH; [intros b0 Hb0; apply Hl; now right|].
  intros r Hr. destruct (refreshed_fields today b db) as [Hrows _].
  rewrite Hrows in Hr. apply In_save_row in Hr as [->|[Hr _]].
  - exists b. split; [apply Hl; now left|].
    apply update_status_frame.
  - now apply Hdb.
Qed.
(** A stored row is a row of the start with its status kept, or with the
    status the date rule gives that row. *)
Lemma run_status (l : list Booking.t) (db0 db : Store) :
  (forall b, In b l -> In b (bookings db0)) ->
  (forall r, In r (bookings db) ->
             exists b, In b (bookings db0) /\ same_booking_data b r
                       /\ (Booking.status r = Booking.status b
                           \/ Booking.status r = automatic_status today b)) ->
  forall r, In r (bookings (fold_left (refresh_step today) l db)) ->
            exists b, In b (bookings db0) /\ same_booking_data b r
                      /\ (Booking.status r = Booking.status b
                          \/ Booking.status r = automatic_status today b).
Proof.
  revert db. induction l as [|b l IH]; intros db Hl Hdb; simpl;
    [exact Hdb|].
  apply IH; [intros b0 Hb0; apply Hl; now right|].
  intros r Hr. destruct (refreshed_fields today b db) as [Hrows _].
  rewrite Hrows in Hr. apply In_save_row in Hr as [->|[Hr _]].
  - exists b. split; [apply Hl; now left|].
    split; [apply update_status_frame|]. right.
    apply (update_status_auto_status today b db).
  - now apply Hdb.
Qed.
End RefreshFrame.

Lemma same_booking_data_refl (b : Booking.t) : same_booking_data b b.
Proof. unfold same_booking_data. now destruct b. Qed.

Lemma automatic_status_same_data (today : Z) (b r : Booking.t) :
  same_booking_data b r ->
  Booking.status r = Booking.status b ->
  automatic_status today r = automatic_status today b.
Proof.
  unfold same_booking_data. intros Hdata Hstatus.
  unfold automatic_status. rewrite Hstatus, Hdata. reflexivity.
Qed.

(** After [update_status_all] every stored booking has the status the
    date rule gives it on that day and an occupying_space flag equal to
    (status == Active); a booking that is not Cancelled has one of the
    codes Booked, Active, Past, whatever its status was before; and the
    table holds the same keys in the same order. Every stored booking is
    a booking that was stored before the run, with the same key and
    dates, and its status is the one the date rule gives that earlier
    row: it is Cancelled exactly when the earlier row was. *)
Theorem update_status_all_settles (today : Z) (db : Store) :
  (forall b, In b (bookings (BookingStateService.update_status_all today db)) ->
             synced b
             /\ Booking.status b = automatic_status today b
             /\ (Booking.status b <> Booking.Status.CANCELLED ->
                 In (Booking.status b)
                    [Booking.Status.BOOKED; Booking.Status.ACTIVE;
                     Booking.Status.PAST]))
  /\ map Booking.id (bookings (BookingStateService.update_status_all today db))
     = map Booking.id (bookings db)
  /\ (forall b, In b (bookings
                        (BookingStateService.update_status_all today db)) ->
                exists b0,
                  In b0 (bookings db)
                  /\ Booking.id b = Booking.id b0
                  /\ Booking.start_date b = Booking.start_date b0
                  /\ Booking.end_date b = Booking.end_date b0
                  /\ Booking.status b = automatic_status today b0
                  /\ (Booking.status b = Booking.Status.CANCELLED <->
                      Booking.status b0 = Booking.Status.CANCELLED)).
Proof.
  assert (Hsettled :
    forall b, In b (bookings (BookingStateService.update_status_all today db))
              -> settled today b).
  { unfold BookingStateService.update_status_all. fold (refresh_step today).
    intros b Hb.
    assert (Hkey : settled_key today
                     (fold_left (refresh_step today) (bookings db) db)
                     (Booking.id b)).
    { apply run_settled_key. left.
      apply run_keys in Hb as [Hb|Hb]; exact Hb. }
    destruct Hkey as [b' [Hb' Hall]].
    assert (b = b') by now apply Hall. now subst b'. }
  split; [|split].
  - intros b Hb. destruct (Hsettled b Hb) as [Hsync Hauto].
    split; [exact Hsync|]. split; [now symmetry|].
    intros Hc. rewrite <- Hauto.
    rewrite (automatic_status_not_cancelled today b Hc).
    destruct (_ <? _); [simpl; auto|]. destruct (_ <=? _); simpl; auto.
  - unfold BookingStateService.update_status_all. fold (refresh_step today).
    apply run_ids. intros b Hb. now apply in_map.
  - intros b Hb. destruct (Hsettled b Hb) as [_ Hauto].
    unfold BookingStateService.update_status_all in Hb.
    fold (refresh_step today) in Hb.
    apply (run_status today (bookings db) db db) in Hb; [|auto|].
    2:{ intros r Hr. exists r. split; [exact Hr|].
        split; [apply same_booking_data_refl|now left]. }
    destruct Hb as [b0 [Hb0 [Hdata Hstatus]]].
    assert (Hrule : Booking.status b = automatic_status today b0).
    { destruct Hstatus as [Hstatus|Hstatus]; [|exact Hstatus].
      rewrite <- Hauto. now apply automatic_status_same_data. }
    exists b0. split; [exact Hb0|].
    assert (Hfields : Booking.id b = Booking.id b0
                      /\ Booking.start_date b = Booking.start_date b0
                      /\ Booking.end_date b = Booking.end_date b0).
    { unfold same_booking_data in Hdata. rewrite Hdata. repeat split. }
    destruct Hfields as [Hid [Hstart Hend]].
    repeat (split; [assumption|]).
    rewrite Hrule. unfold automatic_status.
    destruct (String.eqb_spec (Booking.status b0) Booking.Status.CANCELLED)
      as [E|E]; [tauto|].
    split; [|contradiction].
    destruct (_ <? _); [discriminate|].
    destruct (_ <=? _); discriminate.
Qed.

(** [update_status_all] writes nothing but statuses, occupying_space
    flags and is_available bits: locations, Spaces, racks and installation
    requests are as before, the shelves are the same rows up to
    is_available, and every stored booking is a booking that was stored
    before, up to its status and flag. *)
Theorem update_status_all_frame (today : Z) (db : Store) :
  only_availability_differs db (BookingStateService.update_status_all today db)
  /\ forall r,
       In r (bookings (BookingStateService.update_status_all today db)) ->
       exists b, In b (bookings db) /\ same_booking_data b r.
Proof.
  unfold BookingStateService.update_status_all. fold (refresh_step today).
  split; [apply run_frame|].
  apply run_booking_data; [auto|].
  intros r Hr. exists r. split; [exact Hr|apply same_booking_data_refl].
Qed.

(** ** The shelves a booking takes and gives back *)

Lemma unique_key_eq {A : Type} (pk : A -> Z) (l : list A) (x y : A) :
  NoDup (map pk l) -> In x l -> In y l -> pk x = pk y -> x = y.
Proof.
  induction l as [|a l IH]; simpl; intros Hnd Hx Hy E; [destruct Hx|].
  inversion Hnd as [|? ? Hnotin Hnd']; subst.
  destruct Hx as [->|Hx], Hy as [->|Hy]; auto.
  - exfalso. apply Hnotin. rewrite E. now apply in_map.
  - exfalso. apply Hnotin. rewrite <- E. now apply in_map.
Qed.

Lemma In_firstn {A : Type} (n : nat) (l : list A) (x : A) :
  In x (firstn n l) -> In x l.
Proof.
  intros H. rewrite <- (firstn_skipn n l). apply in_or_app. now left.
Qed.

Lemma NoDup_firstn_of {A : Type} (n : nat) (l : list A) :
  NoDup l -> NoDup (firstn n l).
Proof.
  intros H. rewrite <- (firstn_skipn n l) in H.
  now apply NoDup_app_remove_r in H.
Qed.

Lemma filter_filter_andb {A : Type} (p q : A -> bool) (l : list A) :
  filter p (filter q l) = filter (fun x => q x && p x) l.
Proof.
  induction l as [|x l IH]; simpl; [reflexivity|].
  destruct (q x); simpl; [destruct (p x)|]; now rewrite IH.
Qed.

Lemma filter_length_split {A : Type} (p w : A -> bool) (l : list A) :
  List.length (filter p l)
  = (List.length (filter (fun x => p x && w x) l)
     + List.length (filter (fun x => p x && negb (w x)) l))%nat.
Proof.
  induction l as [|x l IH]; simpl; [reflexivity|].
  destruct (p x), (w x); simpl; lia.
Qed.

Lemma get_shelves_where_selected (b : Booking.t) (db : Store) (s : Shelf.t) :
  BookingService.get_shelves_where b db s
  = (Shelf.rack s =? Booking.rack b)
    && id_in (Shelf.id s) (map Shelf.id (selected_shelves b db)).
Proof.
  unfold BookingService.get_shelves_where, selected_shelves, wanted_shelves.
  now destruct (Booking.occupying_space b).
Qed.

Lemma wanted_shelves_In (b : Booking.t) (db : Store) (s : Shelf.t) :
  In s (wanted_shelves b db) <->
  In s (shelves db) /\ Shelf.rack s = Booking.rack b
  /\ Shelf.is_available s = negb (Booking.occupying_space b).
Proof.
  unfold wanted_shelves, shelf_set. rewrite !filter_In, Z.eqb_eq.
  rewrite Bool.eqb_true_iff. tauto.
Qed.

Lemma selected_shelves_wanted (b : Booking.t) (db : Store) (s : Shelf.t) :
  In s (selected_shelves b db) -> In s (wanted_shelves b db).
Proof.
  unfold selected_shelves. intros H. apply In_firstn in H.
  now apply order_by_In in H.
Qed.

Section Selection.
Variables (b : Booking.t) (db : Store).
Hypothesis Hunique : unique_shelf_ids db.

Lemma get_shelves_where_iff (s : Shelf.t) :
  In s (shelves db) ->
  (BookingService.get_shelves_where b db s = true
   <-> In s (selected_shelves b db)).
Proof.
  intros Hs. rewrite get_shelves_where_selected, andb_true_iff, Z.eqb_eq.
  rewrite id_in_In. split.
  - intros [_ Hid]. apply in_map_iff in Hid as [p [Hid Hp]].
    assert (p = s); [|now subst].
    apply (unique_key_eq Shelf.id (shelves db)); auto.
    apply selected_shelves_wanted, wanted_shelves_In in Hp. tauto.
  - intros H. split; [|now apply in_map].
    apply selected_shelves_wanted, wanted_shelves_In in H. tauto.
Qed.

Lemma get_shelves_selected :
  Permutation (BookingService.get_shelves b db) (selected_shelves b db).
Proof.
  pose proof (NoDup_map_inv _ _ Hunique) as Hnd.
  apply NoDup_Permutation.
  - unfold BookingService.get_shelves. now apply NoDup_filter.
  - unfold selected_shelves. apply NoDup_firstn_of.
    eapply Permutation_NoDup; [apply order_by_perm|].
    unfold wanted_shelves, shelf_set. now repeat apply NoDup_filter.
  - intros s. unfold BookingService.get_shelves. rewrite filter_In. split.
    + intros [Hs Hw]. now apply get_shelves_where_iff.
    + intros H. assert (Hs : In s (shelves db)).
      { apply selected_shelves_wanted, wanted_shelves_In in H. tauto. }
      split; [exact Hs|now apply get_shelves_where_iff].
Qed.

Lemma get_shelves_length :
  List.length (BookingService.get_shelves b db)
  = Nat.min (Booking.num_shelves_occupied b)
            (List.length (wanted_shelves b db)).
Proof.
  rewrite (Permutation_length get_shelves_selected).
  unfold selected_shelves. rewrite length_firstn.
  now rewrite <- (Permutation_length (order_by_perm Shelf.id _)).
Qed.
End Selection.

Lemma sorted_app_le {A : Type} (R : A -> A -> Prop) (l1 l2 : list A) :
  StronglySorted R (l1 ++ l2) ->
  forall x y, In x l1 -> In y l2 -> R x y.
Proof.
  induction l1 as [|a l1 IH]; simpl; intros Hs x y Hx Hy; [destruct Hx|].
  inversion Hs as [|? ? Hs' Hall]; subst.
  destruct Hx as [->|Hx]; [|now apply IH].
  rewrite Forall_forall in Hall. apply Hall. apply in_or_app. now right.
Qed.

(** The selection of [get_shelves]: what each selected shelf is, and that
    the selected shelves have lower keys than the wanted shelves left
    out. *)
Lemma get_shelves_facts (b : Booking.t) (db : Store) :
  unique_shelf_ids db ->
  (forall s, In s (BookingService.get_shelves b db) ->
             In s (shelves db)
             /\ Shelf.rack s = Booking.rack b
             /\ Shelf.is_available s = negb (Booking.occupying_space b))
  /\ (forall s t, In s (BookingService.get_shelves b db) ->
                  In t (wanted_shelves b db) ->
                  ~ In t (BookingService.get_shelves b db) ->
                  Shelf.id s < Shelf.id t).
Proof.
  intros Hunique.
  pose proof (get_shelves_selected b db Hunique) as Hperm.
  split.
  - intros s Hs. apply (Permutation_in _ Hperm) in Hs.
    now apply selected_shelves_wanted, wanted_shelves_In in Hs.
  - intros s t Hs Ht Hnt.
    apply (Permutation_in _ Hperm) in Hs.
    assert (Hnt' : ~ In t (selected_shelves b db)).
    { intros H. apply Hnt.
      now apply (Permutation_in _ (Permutation_sym Hperm)). }
    pose proof (order_by_sorted Shelf.id (wanted_shelves b db)) as Hsorted.
    rewrite <- (firstn_skipn (Booking.num_shelves_occupied b)) in Hsorted.
    assert (Ht' : In t (skipn (Booking.num_shelves_occupied b)
                              (order_by Shelf.id (wanted_shelves b db)))).
    { apply order_by_In with (key := Shelf.id) in Ht.
      rewrite <- (firstn_skipn (Booking.num_shelves_occupied b)) in Ht.
      apply in_app_or in Ht as [Ht|Ht]; [contradiction|exact Ht]. }
    pose proof (sorted_app_le _ _ _ Hsorted s t Hs Ht') as Hle.
    unfold key_le in Hle.
    assert (Hne : Shelf.id s <> Shelf.id t).
    { intros E. apply Hnt'.
      assert (s = t); [|now subst].
      apply (unique_key_eq Shelf.id (shelves db)); auto.
      - apply selected_shelves_wanted, wanted_shelves_In in Hs. tauto.
      - apply wanted_shelves_In in Ht. tauto. }
    lia.
Qed.

(** [get_shelves] on a shelf table with unique keys: it returns
    num_shelves_occupied shelves, or all the wanted ones when there are
    fewer; each is a stored shelf of the booking's rack, unavailable when
    the booking is occupying and available when it is not; and they are
    the wanted shelves with the lowest keys. *)
Theorem get_shelves_spec (b : Booking.t) (db : Store) :
  unique_shelf_ids db ->
  List.length (BookingService.get_shelves b db)
  = Nat.min (Booking.num_shelves_occupied b)
            (List.length (wanted_shelves b db))
  /\ (forall s, In s (BookingService.get_shelves b db) ->
                In s (shelves db)
                /\ Shelf.rack s = Booking.rack b
                /\ Shelf.is_available s = negb (Booking.occupying_space b))
  /\ (forall s t, In s (BookingService.get_shelves b db) ->
                  In t (wanted_shelves b db) ->
                  ~ In t (BookingService.get_shelves b db) ->
                  Shelf.id s < Shelf.id t).
Proof.
  intros Hunique. split; [now apply get_shelves_length|].
  destruct (get_shelves_facts b db Hunique) as [Hsel Hlow].
  split.
  - intros s Hs. exact (Hsel s Hs).
  - intros s t Hs Ht Hnt. exact (Hlow s t Hs Ht Hnt).
Qed.

Lemma nodup_same_NoDup (l : list Z) : nodup Z.eq_dec l = l -> NoDup l.
Proof. intros E. rewrite <- E. apply NoDup_nodup. Qed.

Lemma sample_db_unique_shelf_ids : unique_shelf_ids sample_db.
Proof. apply nodup_same_NoDup. reflexivity. Qed.

Lemma get_shelves_spec_example :
  unique_shelf_ids sample_db
  /\ map Shelf.id (BookingService.get_shelves priced_booking sample_db)
     = [7; 8]
  /\ List.length (BookingService.get_shelves priced_booking sample_db)
     = Nat.min 2 (List.length (wanted_shelves priced_booking sample_db)).
Proof.
  split; [exact sample_db_unique_shelf_ids|]. split; [reflexivity|].
  exact (proj1 (get_shelves_spec priced_booking sample_db
                  sample_db_unique_shelf_ids)).
Defined.

(** ** Counting the available shelves of a rack *)

Lemma available_after_update (b : Booking.t) (v : bool) (db : Store)
    (r : Rack.t) :
  available_shelves_of (BookingService.update_shelves b v db) r
  = Z.of_nat
      (List.length
         (filter (fun s => (Shelf.rack s =? Rack.id r)
                           && (if BookingService.get_shelves_where b db s
                               then v else Shelf.is_available s))
                 (shelves db))).
Proof.
  unfold available_shelves_of, BookingService.update_shelves.
  cbn [shelves set_shelves].
  rewrite filter_map_swap, length_map. f_equal. f_equal.
  apply filter_ext. intros s.
  now destruct (BookingService.get_shelves_where b db s).
Qed.

Lemma shelves_total (db : Store) (r : Rack.t) :
  available_shelves_of db r + unavailable_shelves_of db r
  = Z.of_nat (List.length (shelf_set (Rack.id r) db)).
Proof.
  unfold available_shelves_of, unavailable_shelves_of, shelf_set.
  rewrite (filter_length_split (fun s => Shelf.rack s =? Rack.id r)
             Shelf.is_available (shelves db)).
  lia.
Qed.

Section Counting.
Variables (b : Booking.t) (db : Store).
Hypothesis Hunique : unique_shelf_ids db.

Lemma selected_count :
  List.length (filter (BookingService.get_shelves_where b db) (shelves db))
  = Nat.min (Booking.num_shelves_occupied b)
            (List.length (wanted_shelves b db)).
Proof. exact (get_shelves_length b db Hunique). Qed.

Lemma wanted_available (r : Rack.t) :
  Booking.occupying_space b = false -> Rack.id r = Booking.rack b ->
  Z.of_nat (List.length (wanted_shelves b db)) = available_shelves_of db r.
Proof.
  intros Ho Hr. unfold wanted_shelves, shelf_set, available_shelves_of.
  rewrite filter_filter_andb, Ho, Hr. f_equal. f_equal.
  apply filter_ext. intros s. now destruct (Shelf.is_available s).
Qed.

Lemma wanted_unavailable (r : Rack.t) :
  Booking.occupying_space b = true -> Rack.id r = Booking.rack b ->
  Z.of_nat (List.length (wanted_shelves b db)) = unavailable_shelves_of db r.
Proof.
  intros Ho Hr. unfold wanted_shelves, shelf_set, unavailable_shelves_of.
  rewrite filter_filter_andb, Ho, Hr. reflexivity.
Qed.

Lemma where_facts (s : Shelf.t) :
  In s (shelves db) -> BookingService.get_shelves_where b db s = true ->
  Shelf.rack s = Booking.rack b
  /\ Shelf.is_available s = negb (Booking.occupying_space b).
Proof.
  intros Hs Hw. apply (get_shelves_where_iff b db Hunique s Hs) in Hw.
  apply selected_shelves_wanted, wanted_shelves_In in Hw. tauto.
Qed.

(** Marking the selection unavailable for a booking that is not
    occupying. *)
Lemma occupy_count (r : Rack.t) :
  Booking.occupying_space b = false ->
  available_shelves_of (BookingService.update_shelves b false db) r
  = if Rack.id r =? Booking.rack b
    then available_shelves_of db r
         - Z.min (Z.of_nat (Booking.num_shelves_occupied b))
                 (available_shelves_of db r)
    else available_shelves_of db r.
Proof.
  intros Ho. rewrite available_after_update.
  set (A := fun s => (Shelf.rack s =? Rack.id r) && Shelf.is_available s).
  set (w := BookingService.get_shelves_where b db).
  rewrite (filter_ext _ (fun s => A s && negb (w s))).
  2:{ intros s. unfold A, w.
      destruct (BookingService.get_shelves_where b db s),
        (Shelf.rack s =? Rack.id r), (Shelf.is_available s); reflexivity. }
  pose proof (filter_length_split A w (shelves db)) as Hsplit.
  fold (available_shelves_of db r) in *.
  assert (Havail : available_shelves_of db r
                   = Z.of_nat (List.length (filter A (shelves db))))
    by reflexivity.
  destruct (Z.eqb_spec (Rack.id r) (Booking.rack b)) as [Hr|Hr].
  - rewrite (filter_ext_in (fun s => A s && w s) w) in Hsplit.
    2:{ intros s Hs. unfold A, w.
        destruct (BookingService.get_shelves_where b db s) eqn:Hw;
          [|now rewrite andb_false_r].
        destruct (where_facts s Hs Hw) as [Hrack Hav].
        rewrite Hrack, Hav, Ho, Hr, Z.eqb_refl. reflexivity. }
    unfold w in Hsplit at 1. rewrite selected_count in Hsplit.
    pose proof (wanted_available r Ho Hr) as Hwanted. lia.
  - rewrite (filter_nil_when (fun s => A s && w s)) in Hsplit.
    2:{ intros s Hs. unfold A, w.
        destruct (BookingService.get_shelves_where b db s) eqn:Hw;
          [|now rewrite andb_false_r].
        destruct (where_facts s Hs Hw) as [Hrack _].
        rewrite Hrack. apply Z.eqb_neq in Hr. rewrite Z.eqb_sym, Hr.
        reflexivity. }
    simpl in Hsplit. lia.
Qed.

(** Marking the selection available for a booking that is occupying. *)
Lemma release_count (r : Rack.t) :
  Booking.occupying_space b = true ->
  available_shelves_of (BookingService.update_shelves b true db) r
  = if Rack.id r =? Booking.rack b
    then available_shelves_of db r
         + Z.min (Z.of_nat (Booking.num_shelves_occupied b))
                 (unavailable_shelves_of db r)
    else available_shelves_of db r.
Proof.
  intros Ho. rewrite available_after_update.
  set (A := fun s => (Shelf.rack s =? Rack.id r) && Shelf.is_available s).
  set (w := BookingService.get_shelves_where b db).
  set (A' := fun s => (Shelf.rack s =? Rack.id r)
                      && (if w s then true else Shelf.is_available s)).
  pose proof (filter_length_split A' w (shelves db)) as Hsplit.
  assert (Hrest : filter (fun s => A' s && negb (w s)) (shelves db)
                  = filter A (shelves db)).
  { apply filter_ext_in. intros s Hs. unfold A', A.
    destruct (w s) eqn:Hw; [|now rewrite andb_true_r].
    destruct (where_facts s Hs Hw) as [_ Hav]. rewrite Hav, Ho.
    simpl. now rewrite !andb_false_r. }
  rewrite Hrest in Hsplit.
  assert (Havail : available_shelves_of db r
                   = Z.of_nat (List.length (filter A (shelves db))))
    by reflexivity.
  destruct (Z.eqb_spec (Rack.id r) (Booking.rack b)) as [Hr|Hr].
  - rewrite (filter_ext_in (fun s => A' s && w s) w) in Hsplit.
    2:{ intros s Hs. unfold A'.
        destruct (w s) eqn:Hw; [|now rewrite andb_false_r].
        destruct (where_facts s Hs Hw) as [Hrack _].
        rewrite Hrack, Hr, Z.eqb_refl. reflexivity. }
    unfold w in Hsplit. rewrite selected_count in Hsplit.
    pose proof (wanted_unavailable r Ho Hr) as Hwanted.
    fold A'. lia.
  - rewrite (filter_nil_when (fun s => A' s && w s)) in Hsplit.
    2:{ intros s Hs. unfold A'.
        destruct (w s) eqn:Hw; [|now rewrite andb_false_r].
        destruct (where_facts s Hs Hw) as [Hrack _].
        rewrite Hrack. apply Z.eqb_neq in Hr. rewrite Z.eqb_sym, Hr.
        reflexivity. }
    simpl in Hsplit. fold A'. lia.
Qed.
End Counting.

Lemma update_shelves_unique (b : Booking.t) (v : bool) (db : Store) :
  unique_shelf_ids db ->
  unique_shelf_ids (BookingService.update_shelves b v db).
Proof.
  unfold unique_shelf_ids, BookingService.update_shelves.
  cbn [shelves set_shelves].
  intros H. rewrite map_map.
  rewrite (map_ext _ Shelf.id); [exact H|].
  intros s. now destruct (BookingService.get_shelves_where b db s).
Qed.

Lemma update_shelves_shelf_set (b : Booking.t) (v : bool) (db : Store)
    (k : Z) :
  List.length (shelf_set k (BookingService.update_shelves b v db))
  = List.length (shelf_set k db).
Proof.
  unfold shelf_set, BookingService.update_shelves. cbn [shelves set_shelves].
  rewrite filter_map_swap, length_map. f_equal. apply filter_ext.
  intros s. now destruct (BookingService.get_shelves_where b db s).
Qed.

(** When a booking becomes Active, the number of available shelves of its
    rack goes down by num_shelves_occupied, or to zero when the rack has
    fewer available shelves than that (the booking is flagged occupying
    all the same); the counts of the other racks stay. *)
Theorem activation_takes_shelves (b : Booking.t) (db : Store) (r : Rack.t) :
  unique_shelf_ids db ->
  Booking.status b = Booking.Status.ACTIVE ->
  Booking.occupying_space b = false ->
  Booking.occupying_space (fst (BookingStateService.update_space b db)) = true
  /\ available_shelves_of (snd (BookingStateService.update_space b db)) r
     = if Rack.id r =? Booking.rack b
       then available_shelves_of db r
            - Z.min (Z.of_nat (Booking.num_shelves_occupied b))
                    (available_shelves_of db r)
       else available_shelves_of db r.
Proof.
  intros Hunique Hs Ho.
  destruct (update_space_cases b db) as [[Hs' _]|[[_ [_ E]]|[Ho' _]]].
  - contradiction.
  - rewrite E. cbn [fst snd]. split; [reflexivity|].
    exact (occupy_count b db Hunique r Ho).
  - rewrite Ho in Ho'. symmetry in Ho'. apply String.eqb_neq in Ho'.
    contradiction.
Qed.

(** When an occupying booking stops being Active, the number of available
    shelves of its rack goes up by num_shelves_occupied, or by the number
    of unavailable shelves of the rack when that is smaller; the counts of
    the other racks stay. The shelves made available are the ones
    [get_shelves] selects, each stored with is_available True afterwards:
    shelves of the booking's rack that were unavailable, with lower keys
    than any unavailable shelf of the rack left as it is. *)
Theorem release_frees_shelves (b : Booking.t) (db : Store) (r : Rack.t) :
  unique_shelf_ids db ->
  Booking.status b <> Booking.Status.ACTIVE ->
  Booking.occupying_space b = true ->
  Booking.occupying_space (fst (BookingStateService.update_space b db)) = false
  /\ available_shelves_of (snd (BookingStateService.update_space b db)) r
     = (if Rack.id r =? Booking.rack b
        then available_shelves_of db r
             + Z.min (Z.of_nat (Booking.num_shelves_occupied b))
                     (unavailable_shelves_of db r)
        else available_shelves_of db r)
  /\ availability_is b true db (snd (BookingStateService.update_space b db))
  /\ (forall s, In s (BookingService.get_shelves b db) ->
                In s (shelves db)
                /\ Shelf.rack s = Booking.rack b
                /\ Shelf.is_available s = false)
  /\ (forall s t, In s (BookingService.get_shelves b db) ->
                  In t (shelves db) ->
                  Shelf.rack t = Booking.rack b ->
                  Shelf.is_available t = false ->
                  ~ In t (BookingService.get_shelves b db) ->
                  Shelf.id s < Shelf.id t).
Proof.
  intros Hunique Hs Ho.
  destruct (update_space_cases b db) as [[_ [_ E]]|[[Hs' _]|[Ho' _]]].
  - rewrite E. cbn [fst snd]. split; [reflexivity|].
    split; [exact (release_count b db Hunique r Ho)|].
    split; [apply marked_availability, (update_shelves_marked b true)|].
    destruct (get_shelves_facts b db Hunique) as [Hsel Hlow].
    split.
    + intros s Hin. destruct (Hsel s Hin) as [H1 [H2 H3]].
      rewrite Ho in H3. auto.
    + intros s t Hin Ht Hrack Hav. apply (Hlow s t Hin).
      apply wanted_shelves_In. rewrite Ho. auto.
  - contradiction.
  - rewrite Ho in Ho'. symmetry in Ho'. apply String.eqb_eq in Ho'.
    contradiction.
Qed.

(** A booking activated and then cancelled by its lessee: the rack ends
    with at least as many available shelves as it had, and with exactly as
    many when it had enough for the booking; a booking that found fewer
    than num_shelves_occupied available shelves frees, on cancellation,
    shelves it never took. *)
Theorem activate_then_cancel (today : Z) (b : Booking.t) (db : Store)
    (r : Rack.t) :
  unique_shelf_ids db ->
  Booking.status b = Booking.Status.ACTIVE ->
  Booking.occupying_space b = false ->
  let b1 := fst (BookingStateService.update_space b db) in
  let db1 := snd (BookingStateService.update_space b db) in
  let db2 := snd (cancel_booking today b1 (Booking.lessee b) db1) in
  let n := Z.of_nat (Booking.num_shelves_occupied b) in
  available_shelves_of db2 r
  = (if Rack.id r =? Booking.rack b
     then available_shelves_of db r
          - Z.min n (available_shelves_of db r)
          + Z.min n (unavailable_shelves_of db r
                     + Z.min n (available_shelves_of db r))
     else available_shelves_of db r)
  /\ available_shelves_of db r <= available_shelves_of db2 r
  /\ (n <= available_shelves_of db r ->
      available_shelves_of db2 r = available_shelves_of db r).
Proof.
  intros Hunique Hs Ho b1 db1 db2 n.
  destruct (update_space_cases b db) as [[Hs' _]|[[_ [_ E]]|[Ho' _]]];
    [contradiction| |rewrite Ho in Ho'; symmetry in Ho';
                     apply String.eqb_neq in Ho'; contradiction].
  assert (Hb1 : b1 = Booking.set_occupying_space true b)
    by (unfold b1; now rewrite E).
  assert (Hdb1 : db1 = BookingStateService.save
                         (Booking.set_occupying_space true b)
                         (BookingService.update_shelves b false db))
    by (unfold db1; now rewrite E).
  set (dbo := BookingService.update_shelves b false db) in *.
  assert (Hunique1 : unique_shelf_ids db1).
  { rewrite Hdb1. exact (update_shelves_unique b false db Hunique). }
  set (bc := Booking.set_status Booking.Status.CANCELLED b1).
  assert (Hdb2 : db2 = snd (BookingStateService.update_space bc db1)).
  { unfold db2.
    replace (Booking.lessee b) with (Booking.lessee b1)
      by (rewrite Hb1; reflexivity).
    now rewrite cancel_booking_by_lessee. }
  assert (Hoc : Booking.occupying_space bc = true)
    by (unfold bc; rewrite Hb1; reflexivity).
  assert (Hrel : available_shelves_of db2 r
                 = if Rack.id r =? Booking.rack bc
                   then available_shelves_of db1 r
                        + Z.min (Z.of_nat (Booking.num_shelves_occupied bc))
                                (unavailable_shelves_of db1 r)
                   else available_shelves_of db1 r).
  { rewrite Hdb2.
    destruct (update_space_cases bc db1) as [[_ [_ E2]]|[[Hs2 _]|[Ho2 _]]].
    - rewrite E2. exact (release_count bc db1 Hunique1 r Hoc).
    - discriminate Hs2.
    - rewrite Hoc in Ho2. discriminate Ho2. }
  assert (Hrack : Booking.rack bc = Booking.rack b)
    by (unfold bc; rewrite Hb1; reflexivity).
  assert (Hn : Z.of_nat (Booking.num_shelves_occupied bc) = n)
    by (unfold bc; rewrite Hb1; reflexivity).
  rewrite Hrack, Hn in Hrel.
  assert (Havail1 : available_shelves_of db1 r
                    = if Rack.id r =? Booking.rack b
                      then available_shelves_of db r
                           - Z.min n (available_shelves_of db r)
                      else available_shelves_of db r).
  { rewrite Hdb1. exact (occupy_count b db Hunique r Ho). }
  pose proof (shelves_total db r) as Htot.
  pose proof (shelves_total db1 r) as Htot1.
  assert (Hlen : List.length (shelf_set (Rack.id r) db1)
                 = List.length (shelf_set (Rack.id r) db)).
  { rewrite Hdb1. exact (update_shelves_shelf_set b false db (Rack.id r)). }
  rewrite Hlen in Htot1.
  assert (H0 : 0 <= available_shelves_of db r)
    by (unfold available_shelves_of; lia).
  assert (H0' : 0 <= unavailable_shelves_of db r)
    by (unfold unavailable_shelves_of; lia).
  assert (Hn0 : 0 <= n) by (unfold n; lia).
  rewrite Hrel, Havail1.
  destruct (Z.eqb_spec (Rack.id r) (Booking.rack b)) as [Hr|Hr].
  - rewrite Havail1 in Htot1.
    replace (unavailable_shelves_of db1 r)
      with (unavailable_shelves_of db r + Z.min n (available_shelves_of db r))
      by lia.
    repeat split; lia.
  - repeat split; lia.
Qed.

Lemma activation_takes_shelves_example :
  unique_shelf_ids sample_db
  /\ available_shelves_of sample_db (Rack.mk 2 1 300) = 2
  /\ available_shelves_of
       (snd (BookingStateService.update_space active_booking sample_db))
       (Rack.mk 2 1 300) = 0.
Proof.
  split; [exact sample_db_unique_shelf_ids|]. split; [reflexivity|].
  rewrite (proj2 (activation_takes_shelves
                    active_booking sample_db (Rack.mk 2 1 300)
                    sample_db_unique_shelf_ids eq_refl eq_refl)).
  reflexivity.
Defined.

Lemma release_frees_shelves_example :
  unique_shelf_ids sample_db
  /\ unavailable_shelves_of sample_db (Rack.mk 2 1 300) = 4
  /\ available_shelves_of
       (snd (BookingStateService.update_space ended_booking sample_db))
       (Rack.mk 2 1 300) = 4
  /\ map Shelf.id (BookingService.get_shelves ended_booking sample_db)
     = [9; 10]
  /\ availability_is
       ended_booking true sample_db
       (snd (BookingStateService.update_space ended_booking sample_db)).
Proof.
  split; [exact sample_db_unique_shelf_ids|]. split; [reflexivity|].
  assert (Hs : Booking.status ended_booking <> Booking.Status.ACTIVE)
    by discriminate.
  destruct (release_frees_shelves
              ended_booking sample_db (Rack.mk 2 1 300)
              sample_db_unique_shelf_ids Hs eq_refl)
    as [_ [Hcount [Hread _]]].
  split; [rewrite Hcount; reflexivity|].
  split; [reflexivity|exact Hread].
Defined.

Lemma activate_then_cancel_example :
  unique_shelf_ids sample_db
  /\ available_shelves_of
       (snd (cancel_booking 738001
               (fst (BookingStateService.update_space
                       active_booking sample_db))
               9
               (snd (BookingStateService.update_space
                       active_booking sample_db))))
       (Rack.mk 2 1 300)
     = available_shelves_of sample_db (Rack.mk 2 1 300).
Proof.
  split; [exact sample_db_unique_shelf_ids|].
  apply (activate_then_cancel 738001 active_booking sample_db
           (Rack.mk 2 1 300) sample_db_unique_shelf_ids eq_refl eq_refl).
  vm_compute. discriminate.
Defined.

(** ** From search to allocation to activation *)

(** A booking for the number of shelves [get_rack] was asked for, placed
    on the rack it returned and activated against the same database,
    takes exactly that many shelves of the rack. *)
Theorem allocated_booking_takes_its_shelves (space : Space.t) (b : Booking.t)
    (db : Store) (r : Rack.t) :
  unique_shelf_ids db ->
  BookingFormService.get_rack
    space (Z.of_nat (Booking.num_shelves_occupied b)) db = Some r ->
  Booking.rack b = Rack.id r ->
  Booking.status b = Booking.Status.ACTIVE ->
  Booking.occupying_space b = false ->
  List.length (BookingService.get_shelves b db)
  = Booking.num_shelves_occupied b
  /\ available_shelves_of (snd (BookingStateService.update_space b db)) r
     = available_shelves_of db r - Z.of_nat (Booking.num_shelves_occupied b).
Proof.
  intros Hunique Hget Hrack Hs Ho.
  apply get_rack_Some in Hget as [_ [Hge _]].
  pose proof (wanted_available b db r Ho (eq_sym Hrack)) as Hwanted.
  split.
  - rewrite (get_shelves_length b db Hunique). lia.
  - destruct (update_space_cases b db) as [[Hs' _]|[[_ [_ E]]|[Ho' _]]].
    + contradiction.
    + rewrite E. cbn [snd].
      assert (Hc := occupy_count b db Hunique r Ho).
      rewrite Hrack, Z.eqb_refl in Hc.
      change (available_shelves_of
                (BookingStateService.save
                   (Booking.set_occupying_space true b)
                   (BookingService.update_shelves b false db)) r)
        with (available_shelves_of
                (BookingService.update_shelves b false db) r).
      lia.
    + rewrite Ho in Ho'. symmetry in Ho'. apply String.eqb_neq in Ho'.
      contradiction.
Qed.

Lemma allocated_booking_takes_its_shelves_example :
  unique_shelf_ids sample_db
  /\ BookingFormService.get_rack sample_space 2 sample_db
     = Some (Rack.mk 2 1 300)
  /\ available_shelves_of
       (snd (BookingStateService.update_space active_booking sample_db))
       (Rack.mk 2 1 300)
     = available_shelves_of sample_db (Rack.mk 2 1 300) - 2.
Proof.
  split; [exact sample_db_unique_shelf_ids|]. split; [reflexivity|].
  exact (proj2 (allocated_booking_takes_its_shelves
                  sample_space active_booking sample_db (Rack.mk 2 1 300)
                  sample_db_unique_shelf_ids eq_refl eq_refl eq_refl
                  eq_refl)).
Defined.

Lemma min_shelves_required_covers (search_length m : Z) :
  Z.abs search_length < 2 ^ 52 ->
  SpaceService.min_shelves_required search_length = Ok m ->
  search_length <= m * SHELF_LENGTH
  /\ (m - 1) * SHELF_LENGTH < search_length.
Proof.
  intros Hbound Hm.
  rewrite (min_shelves_required_exact search_length Hbound) in Hm.
  inversion Hm as [Hm']. unfold SHELF_LENGTH.
  pose proof (Z.div_mod (- search_length) 50) as Hdm.
  pose proof (Z.mod_pos_bound (- search_length) 50) as Hb.
  lia.
Qed.

Lemma get_racks_same_id (s s' : Space.t) (db : Store) :
  Space.id s = Space.id s' ->
  SpaceService.get_racks s db = SpaceService.get_racks s' db.
Proof. unfold SpaceService.get_racks. now intros ->. Qed.

Lemma approved_spaces_In (db : Store) (s : Space.t) :
  In s (SpaceService.get_spaces None (Some Space.Status.APPROVED) db) <->
  In s (spaces db) /\ Space.status s = Space.Status.APPROVED.
Proof.
  unfold SpaceService.get_spaces.
  change (SpaceStateService.is_valid_status Space.Status.APPROVED) with true.
  cbv iota. rewrite filter_In, String.eqb_eq. tauto.
Qed.

(** What membership in the search result gives. *)
Lemma get_available_spaces_In (search_location : option string)
    (search_length search_width search_height : Z) (db : Store)
    (res : list AnnotatedSpace) (a : AnnotatedSpace) :
  SpaceService.get_available_spaces search_location search_length
    search_width search_height db = Ok res ->
  In a res ->
  In (annotated a) (spaces db)
  /\ Space.status (annotated a) = Space.Status.APPROVED
  /\ SpaceService.min_shelves_required (Z.max search_length search_width)
     = Ok (num_shelves a)
  /\ available_shelves a
     = SpaceService.max_available_shelves db (annotated a)
  /\ exists r, In r (SpaceService.get_racks (annotated a) db)
               /\ num_shelves a <= available_shelves_of db r.
Proof.
  intros Hres. search_returned Hres.
  intros H. apply in_map_iff in H as [s [<- Hs]].
  cbn [annotated num_shelves available_shelves].
  apply filter_In in Hs as [Hs Hid].
  apply filter_In in Hs as [Hbase _].
  assert (Happroved : In s (spaces db)
                      /\ Space.status s = Space.Status.APPROVED).
  { apply approved_spaces_In.
    destruct search_location as [loc|]; [|exact Hbase].
    destruct (String.eqb loc ""); [exact Hbase|].
    now apply filter_In in Hbase. }
  destruct Happroved as [Hin Hst].
  repeat (split; [assumption || reflexivity|]).
  apply id_in_In in Hid. apply in_map_iff in Hid as [s' [Hid Hs']].
  apply filter_In in Hs' as [_ Hcount].
  apply existsb_exists in Hcount as [r [Hr Hge]].
  exists r. rewrite (get_racks_same_id s s' db (eq_sym Hid)).
  split; [exact Hr|now apply Z.leb_le].
Qed.

(** The search raises only what the division raises. *)
Lemma get_available_spaces_Raise (search_location : option string)
    (search_length search_width search_height : Z) (db : Store) (e : exn) :
  SpaceService.get_available_spaces search_location search_length
    search_width search_height db = Raise e ->
  SpaceService.min_shelves_required (Z.max search_length search_width)
  = Raise e.
Proof.
  unfold SpaceService.get_available_spaces. cbv iota beta.
  destruct (_ >? SHELF_WIDTH); [discriminate|].
  destruct (_ >? SHELF_HEIGHT); [discriminate|].
  destruct (SpaceService.min_shelves_required _); [discriminate|].
  intros H. inversion H. reflexivity.
Qed.

(** A search for an item whose sides are below 2^52 returns, and every
    Space it returns is a stored, Approved Space whose num_shelves is the
    least number of shelves that, laid end to end, are as long as the
    item; [get_rack] asked for that number finds a rack of the Space with
    at least that many available shelves. *)
Theorem search_result_can_be_allocated (search_location : option string)
    (search_length search_width search_height : Z) (db : Store) :
  Z.abs (Z.max search_length search_width) < 2 ^ 52 ->
  exists res,
    SpaceService.get_available_spaces search_location search_length
      search_width search_height db = Ok res
    /\ forall a,
         In a res ->
         In (annotated a) (spaces db)
         /\ Space.status (annotated a) = Space.Status.APPROVED
         /\ Z.max search_length search_width
            <= num_shelves a * SHELF_LENGTH
         /\ (num_shelves a - 1) * SHELF_LENGTH
            < Z.max search_length search_width
         /\ exists r,
              BookingFormService.get_rack (annotated a) (num_shelves a) db
              = Some r
              /\ Rack.space r = Space.id (annotated a)
              /\ num_shelves a <= available_shelves_of db r.
Proof.
  intros Hbound.
  destruct (SpaceService.get_available_spaces search_location search_length
              search_width search_height db) as [res|e] eqn:Hres.
  2:{ apply get_available_spaces_Raise in Hres.
      rewrite (min_shelves_required_exact _ Hbound) in Hres.
      discriminate Hres. }
  exists res. split; [reflexivity|]. intros a Ha.
  destruct (get_available_spaces_In _ _ _ _ _ _ _ Hres Ha)
    as [Hin [Hst [Hnum [_ [r0 [Hr0 Hge0]]]]]].
  destruct (min_shelves_required_covers _ _ Hbound Hnum) as [Hcover Hleast].
  split; [exact Hin|]. split; [exact Hst|].
  split; [exact Hcover|]. split; [exact Hleast|].
  destruct (BookingFormService.get_rack (annotated a) (num_shelves a) db)
    as [r|] eqn:E.
  - exists r. split; [reflexivity|].
    apply get_rack_Some in E as [Hr [Hge _]].
    split; [|exact Hge].
    unfold SpaceService.get_racks in Hr. apply filter_In in Hr as [_ Hr].
    now apply Z.eqb_eq.
  - rewrite get_rack_None in E. specialize (E r0 Hr0). lia.
Qed.

(** The search (60, 10, 10) on the sample database; and a length beyond
    2^53, where the float quotient is rounded and 50 times the number of
    shelves falls short of the length. *)
Lemma search_result_can_be_allocated_example :
  (exists r,
      BookingFormService.get_rack sample_space 2 sample_db = Some r
      /\ 2 <= available_shelves_of sample_db r)
  /\ SpaceService.min_shelves_required (-100000000000000049)
     = Ok (-2000000000000001).
Proof.
  split; [|reflexivity].
  destruct (search_result_can_be_allocated None 60 10 10 sample_db)
    as [res [Hres Hall]]; [reflexivity|].
  assert (Ha : In (mkAnnotated sample_space (Some 8) 2) res).
  { vm_compute in Hres. inversion Hres. left. reflexivity. }
  destruct (Hall _ Ha) as [_ [_ [_ [_ [r [Hr [_ Hge]]]]]]].
  exists r. split; [exact Hr|exact Hge].
Defined.



(** ** Series of Space transitions *)

Lemma space_transition_step (space : Space.t) (code : string) (db : Store) :
  (SpaceStateService.transition space code db
   = (Ok true, Space.set_status code space,
      set_spaces (save_row Space.id (Space.set_status code space) (spaces db))
                 db)
   /\ In code Space.Status.values
   /\ SpaceStateService.is_valid_transition (Space.status space) code = true)
  \/ (exists e, SpaceStateService.transition space code db
                = (Raise e, space, db)).
Proof.
  unfold SpaceStateService.transition, SpaceStateService.is_valid_status.
  destruct (code_in code Space.Status.values) eqn:Hin; cbn [negb].
  - destruct (SpaceStateService.is_valid_transition (Space.status space) code)
      eqn:Hv; cbn [negb].
    + left. apply code_in_In in Hin. auto.
    + right. eexists. reflexivity.
  - right. eexists. reflexivity.
Qed.

Lemma space_transition_keeps (space : Space.t) (code : string) (db : Store) :
  let space' := snd (fst (SpaceStateService.transition space code db)) in
  let db' := snd (SpaceStateService.transition space code db) in
  (Space.status space <> Space.Status.PENDING ->
   Space.status space' <> Space.Status.PENDING)
  /\ (In (Space.status space) [Space.Status.APPROVED; Space.Status.ON_HOLD] ->
      In (Space.status space') [Space.Status.APPROVED; Space.Status.ON_HOLD])
  /\ Space.id space' = Space.id space
  /\ locations db' = locations db /\ racks db' = racks db
  /\ shelves db' = shelves db /\ bookings db' = bookings db
  /\ installation_requests db' = installation_requests db.
Proof.
  intros space' db'. subst space' db'.
  destruct (space_transition_step space code db) as [[E [Hin Hv]]|[e E]];
    rewrite E; cbn [fst snd]; [|repeat split; auto].
  assert (Hnot : SpaceStateService.is_valid_transition
                   (Space.status space) code <> false) by congruence.
  rewrite space_is_valid_transition_false in Hnot.
  cbn [Space.status Space.set_status Space.id].
  repeat split; try reflexivity.
  - intros _ Hp. apply Hnot. now left.
  - intros Hacc.
    destruct Hin as [<-|[<-|[<-|[<-|[]]]]].
    + exfalso. apply Hnot. now left.
    + simpl. auto.
    + exfalso. apply Hnot. right. right. split; [|reflexivity].
      destruct Hacc as [<-|[<-|[]]]; auto.
    + simpl. auto.
Qed.

(** Whatever series of status codes is sent to [transition] for a Space,
    with the errors caught: a Space that has left Pending never comes back
    to it, a Space that is Approved or OnHold stays Approved or OnHold, and
    nothing but the Space's own status is written (racks, shelves,
    bookings, locations and requests are untouched). *)
Theorem space_transitions_invariant (codes : list string) (space : Space.t)
    (db : Store) :
  let space' := fst (apply_transitions space codes db) in
  let db' := snd (apply_transitions space codes db) in
  (Space.status space <> Space.Status.PENDING ->
   Space.status space' <> Space.Status.PENDING)
  /\ (In (Space.status space) [Space.Status.APPROVED; Space.Status.ON_HOLD] ->
      In (Space.status space') [Space.Status.APPROVED; Space.Status.ON_HOLD])
  /\ Space.id space' = Space.id space
  /\ locations db' = locations db /\ racks db' = racks db
  /\ shelves db' = shelves db /\ bookings db' = bookings db
  /\ installation_requests db' = installation_requests db.
Proof.
  revert space db. induction codes as [|code codes IH]; intros space db.
  - simpl. repeat split; auto.
  - cbn [apply_transitions].
    pose proof (space_transition_keeps space code db) as Hstep.
    destruct (SpaceStateService.transition space code db)
      as [[res space1] db1].
    cbn [fst snd] in Hstep.
    destruct Hstep as [H1 [H2 [H3 [H4 [H5 [H6 [H7 H8]]]]]]].
    specialize (IH space1 db1). cbv zeta in IH.
    destruct IH as [K1 [K2 [K3 [K4 [K5 [K6 [K7 K8]]]]]]].
    repeat split; try congruence; auto.
Qed.

(** ** More on the conversion of a request *)

Lemma convert_to_space_shape (r : InstallationRequest.t) (db : Store) :
  InstallationRequest.status r = InstallationRequest.Status.COMPLETED ->
  exists new_racks new_shelves,
    InstallationRequestService.convert_to_space r db
    = (Ok (converted_space r db),
       set_installation_requests
         (delete_row InstallationRequest.id (InstallationRequest.id r)
                     (installation_requests db))
         (set_shelves (shelves db ++ new_shelves)
            (set_racks (racks db ++ new_racks)
               (set_spaces (spaces db ++ [converted_space r db]) db))))
    /\ List.length new_racks = Z.to_nat (InstallationRequest.num_rack r)
    /\ Forall (fun rk =>
                 Rack.space rk = Space.id (converted_space r db)
                 /\ Rack.length rk
                    = InstallationRequest.num_shelves_per_rack r * SHELF_LENGTH
                 /\ forall i, In i (map Rack.id (racks db)) -> i < Rack.id rk)
              new_racks
    /\ (forall rk, In rk new_racks ->
          map Shelf.shelf_label
              (filter (fun s => Shelf.rack s =? Rack.id rk) new_shelves)
          = shelf_labels (InstallationRequest.num_shelves_per_rack r)
          /\ Forall (fun s => Shelf.is_available s = true)
                    (filter (fun s => Shelf.rack s =? Rack.id rk)
                            new_shelves))
    /\ (forall s, In s new_shelves ->
                  In (Shelf.rack s) (map Rack.id new_racks)).
Proof.
  intros Hc. unfold InstallationRequestService.convert_to_space.
  rewrite Hc, String.eqb_refl.
  unfold InstallationRequestService.insert_space. cbv beta iota zeta.
  change (Space.set_id _ _) with (converted_space r db).
  set (db1 := set_spaces (spaces db ++ [converted_space r db]) db).
  unfold SpaceService.create_shelves.
  destruct (create_shelves_loop (Space.id (converted_space r db))
              (InstallationRequest.num_shelves_per_rack r * SHELF_LENGTH)
              (range (InstallationRequest.num_shelves_per_rack r))
              (range (InstallationRequest.num_rack r)) db1)
    as [nr [ns [Hrun [Hlen [Hracks [Hshelves Hown]]]]]].
  exists nr, ns. rewrite Hrun.
  split; [reflexivity|]. split; [|split; [exact Hracks|split; assumption]].
  rewrite Hlen. unfold range. apply length_seq.
Qed.

(** [convert_to_space] adds to the inventory and takes nothing from it:
    whatever the request, every Space stored before keeps its racks,
    every rack stored before keeps its shelves and its number of
    available shelves, the stored Spaces are all still there, and the
    bookings and locations are untouched. *)
Theorem convert_to_space_frame (r : InstallationRequest.t) (db : Store) :
  let db' := snd (InstallationRequestService.convert_to_space r db) in
  (forall s, In s (spaces db) ->
             In s (spaces db')
             /\ SpaceService.get_racks s db' = SpaceService.get_racks s db)
  /\ (forall rk, In rk (racks db) ->
                 In rk (racks db')
                 /\ shelf_set (Rack.id rk) db' = shelf_set (Rack.id rk) db
                 /\ available_shelves_of db' rk = available_shelves_of db rk)
  /\ bookings db' = bookings db
  /\ locations db' = locations db.
Proof.
  intros db'. subst db'.
  destruct (String.eqb_spec (InstallationRequest.status r)
                            InstallationRequest.Status.COMPLETED) as [Hc|Hc].
  2:{ unfold InstallationRequestService.convert_to_space.
      apply String.eqb_neq in Hc. rewrite Hc. cbn [snd].
      repeat split; auto. }
  destruct (convert_to_space_shape r db Hc)
    as [nr [ns [E [_ [Hracks [_ Hown]]]]]].
  rewrite E. cbn [snd]. rewrite Forall_forall in Hracks.
  split; [|split; [|split; reflexivity]].
  - intros s Hs. split.
    + cbn. apply in_or_app. now left.
    + unfold SpaceService.get_racks. cbn [racks set_installation_requests
        set_shelves set_racks set_spaces].
      rewrite filter_app, (filter_nil_when _ nr), app_nil_r; [reflexivity|].
      intros rk Hrk. apply Z.eqb_neq.
      destruct (Hracks rk Hrk) as [Hsp _]. rewrite Hsp.
      pose proof (next_id_above (map Space.id (spaces db)) (Space.id s)
                    (in_map _ _ _ Hs)) as Hlt.
      unfold converted_space. cbn [Space.id]. lia.
  - intros rk Hrk.
    assert (Hset : filter (fun s => Shelf.rack s =? Rack.id rk)
                          (shelves db ++ ns)
                   = filter (fun s => Shelf.rack s =? Rack.id rk)
                            (shelves db)).
    { rewrite filter_app, (filter_nil_when _ ns), app_nil_r; [reflexivity|].
      intros s Hs. apply Z.eqb_neq. intros Heq.
      apply Hown in Hs. apply in_map_iff in Hs as [rk' [Hid Hrk']].
      destruct (Hracks rk' Hrk') as [_ [_ Hfresh]].
      specialize (Hfresh (Rack.id rk) (in_map _ _ _ Hrk)). lia. }
    split; [cbn; apply in_or_app; now left|].
    split; [exact Hset|].
    unfold available_shelves_of. cbn [shelves set_installation_requests
      set_shelves set_racks set_spaces].
    rewrite <- !(filter_filter_andb Shelf.is_available).
    now rewrite Hset.
Qed.

Lemma request_transition_completed (r : InstallationRequest.t) (db : Store) :
  InstallationRequest.num_rack r * InstallationRequest.num_shelves_per_rack r
  <> 0 ->
  InstallationRequestStateService.transition
    r InstallationRequest.Status.COMPLETED db
  = (Ok true,
     InstallationRequest.set_status InstallationRequest.Status.COMPLETED r,
     set_installation_requests
       (save_row InstallationRequest.id
          (InstallationRequest.set_status
             InstallationRequest.Status.COMPLETED r)
          (installation_requests db)) db).
Proof.
  intros Hnz.
  destruct (request_transition_cases r InstallationRequest.Status.COMPLETED db)
    as [[Hn _]|[[_ [_ [Hz _]]]|[_ [_ E]]]].
  - exfalso. apply Hn. simpl. auto.
  - contradiction.
  - exact E.
Qed.

(** A request with a non-zero num_rack x num_shelves_per_rack can be moved
    to Completed from any status it is in, Rejected included, and the
    request [transition] hands back is then converted without error: the
    Space is created and the request's row is gone. *)
Theorem completed_request_converts (r : InstallationRequest.t) (db : Store) :
  InstallationRequest.num_rack r * InstallationRequest.num_shelves_per_rack r
  <> 0 ->
  let done :=
    InstallationRequestStateService.transition
      r InstallationRequest.Status.COMPLETED db in
  let converted :=
    InstallationRequestService.convert_to_space (snd (fst done)) (snd done) in
  fst (fst done) = Ok true
  /\ get_row InstallationRequest.id (InstallationRequest.id r)
             (installation_requests (snd done))
     = Some (snd (fst done))
  /\ fst converted = Ok (converted_space (snd (fst done)) (snd done))
  /\ In (converted_space (snd (fst done)) (snd done))
        (spaces (snd converted))
  /\ get_row InstallationRequest.id (InstallationRequest.id r)
             (installation_requests (snd converted)) = None.
Proof.
  intros Hnz done converted. subst converted done.
  rewrite (request_transition_completed r db Hnz). cbn [fst snd].
  split; [reflexivity|]. split.
  { exact (get_row_save_row InstallationRequest.id
             (InstallationRequest.set_status
                InstallationRequest.Status.COMPLETED r) _). }
  match goal with
  | |- context [InstallationRequestService.convert_to_space ?r1 ?db1] =>
      destruct (convert_to_space_shape r1 db1 eq_refl) as [nr [ns [E _]]];
      rewrite E
  end.
  cbn [fst snd]. split; [reflexivity|]. split.
  - cbn. apply in_or_app. right. now left.
  - exact (get_row_delete_row InstallationRequest.id _ _).
Qed.

Lemma completed_request_converts_example :
  InstallationRequest.num_rack completed_request
  * InstallationRequest.num_shelves_per_rack completed_request <> 0
  /\ fst (InstallationRequestService.convert_to_space
            (snd (fst (InstallationRequestStateService.transition
                         completed_request
                         InstallationRequest.Status.COMPLETED request_db)))
            (snd (InstallationRequestStateService.transition
                    completed_request
                    InstallationRequest.Status.COMPLETED request_db)))
     = Ok (converted_space completed_request request_db).
Proof.
  assert (Hnz : InstallationRequest.num_rack completed_request
                * InstallationRequest.num_shelves_per_rack completed_request
                <> 0) by (simpl; lia).
  split; [exact Hnz|].
  exact (proj1 (proj2 (proj2 (completed_request_converts
                                completed_request request_db Hnz)))).
Defined.

Lemma to_nat_nonpos (z : Z) : z <= 0 -> Z.to_nat z = 0%nat.
Proof. destruct z; simpl; lia. Qed.

Lemma foreign_keys_no_racks (db : Store) (new_space : Space.t) :
  foreign_keys_ok db = true ->
  Space.id new_space = next_id (map Space.id (spaces db)) ->
  filter (fun rk => Rack.space rk =? Space.id new_space) (racks db) = [].
Proof.
  intros Hfk Hid. apply filter_nil_when. intros rk Hrk. apply Z.eqb_neq.
  apply (foreign_keys_ok_racks db rk Hfk) in Hrk.
  apply next_id_above in Hrk. lia.
Qed.

Lemma converted_space_racks (r : InstallationRequest.t) (db : Store)
    (new_racks : list Rack.t) (new_shelves : list Shelf.t) :
  foreign_keys_ok db = true ->
  Forall (fun rk => Rack.space rk = Space.id (converted_space r db))
         new_racks ->
  SpaceService.get_racks
    (converted_space r db)
    (set_installation_requests
       (delete_row InstallationRequest.id (InstallationRequest.id r)
                   (installation_requests db))
       (set_shelves (shelves db ++ new_shelves)
          (set_racks (racks db ++ new_racks)
             (set_spaces (spaces db ++ [converted_space r db]) db))))
  = new_racks.
Proof.
  intros Hfk Hall. rewrite Forall_forall in Hall.
  unfold SpaceService.get_racks.
  cbn [racks set_installation_requests set_shelves set_racks set_spaces].
  rewrite filter_app,
    (foreign_keys_no_racks db (converted_space r db) Hfk eq_refl).
  apply filter_all_when. intros rk Hrk. apply Z.eqb_eq. now apply Hall.
Qed.

(** The completeness guard tests the product of the two counts only. A
    request with a negative num_rack and a negative num_shelves_per_rack
    passes it; converted, it gives a Space of negative height with no
    rack and no shelf, for which [get_shelf_layout] and the length and
    total_shelves properties raise. *)
Theorem negative_counts_pass_the_guard (r : InstallationRequest.t)
    (db : Store) :
  foreign_keys_ok db = true ->
  InstallationRequest.num_rack r < 0 ->
  InstallationRequest.num_shelves_per_rack r < 0 ->
  let done :=
    InstallationRequestStateService.transition
      r InstallationRequest.Status.COMPLETED db in
  let converted :=
    InstallationRequestService.convert_to_space (snd (fst done)) (snd done) in
  let space := converted_space r db in
  fst (fst done) = Ok true
  /\ fst converted = Ok space
  /\ Space.height space < 0
  /\ racks (snd converted) = racks db
  /\ shelves (snd converted) = shelves db
  /\ SpaceService.get_racks space (snd converted) = []
  /\ SpaceLayoutService.get_shelf_layout space (snd converted) = None
  /\ SpaceProperties.length space (snd converted) = None
  /\ SpaceProperties.total_shelves space (snd converted) = None.
Proof.
  intros Hfk Hnr Hns done converted space. subst converted done.
  assert (Hnz : InstallationRequest.num_rack r
                * InstallationRequest.num_shelves_per_rack r <> 0) by nia.
  rewrite (request_transition_completed r db Hnz). cbn [fst snd].
  split; [reflexivity|].
  match goal with
  | |- context [InstallationRequestService.convert_to_space ?r1 ?db1] =>
      destruct (convert_to_space_shape r1 db1 eq_refl)
        as [nr [ns [E [Hlen [_ [_ Hown]]]]]];
      rewrite E
  end.
  cbn [fst snd InstallationRequest.num_rack InstallationRequest.set_status]
    in *.
  rewrite to_nat_nonpos in Hlen by lia.
  destruct nr; [|discriminate Hlen].
  destruct ns as [|s ns]; [|destruct (Hown s (or_introl eq_refl))].
  split; [reflexivity|].
  split; [unfold space, converted_space, SHELF_HEIGHT;
          cbn [Space.height]; lia|].
  split; [cbn; apply app_nil_r|]. split; [cbn; apply app_nil_r|].
  assert (Hget : SpaceService.get_racks space
                   (set_installation_requests
                      (delete_row InstallationRequest.id
                         (InstallationRequest.id r)
                         (installation_requests
                            (set_installation_requests
                               (save_row InstallationRequest.id
                                  (InstallationRequest.set_status
                                     InstallationRequest.Status.COMPLETED r)
                                  (installation_requests db)) db)))
                      (set_shelves (shelves db ++ [])
                         (set_racks (racks db ++ [])
                            (set_spaces (spaces db ++ [space]) db)))) = []).
  { unfold SpaceService.get_racks.
    cbn [racks set_installation_requests set_shelves set_racks set_spaces].
    rewrite app_nil_r. exact (foreign_keys_no_racks db space Hfk eq_refl). }
  unfold SpaceLayoutService.get_shelf_layout, SpaceProperties.total_shelves,
    SpaceProperties.length, SpaceProperties.first_rack.
  change (converted_space
            (InstallationRequest.set_status
               InstallationRequest.Status.COMPLETED r)
            (set_installation_requests
               (save_row InstallationRequest.id
                  (InstallationRequest.set_status
                     InstallationRequest.Status.COMPLETED r)
                  (installation_requests db)) db)) with space in *.
  change (SpaceService.get_racks space _) with
    (SpaceService.get_racks space
       (set_installation_requests
          (delete_row InstallationRequest.id (InstallationRequest.id r)
             (installation_requests
                (set_installation_requests
                   (save_row InstallationRequest.id
                      (InstallationRequest.set_status
                         InstallationRequest.Status.COMPLETED r)
                      (installation_requests db)) db)))
          (set_shelves (shelves db ++ [])
             (set_racks (racks db ++ [])
                (set_spaces (spaces db ++ [space]) db))))).
  rewrite Hget. repeat split; reflexivity.
Qed.

Lemma negative_counts_pass_the_guard_example :
  foreign_keys_ok request_db = true
  /\ InstallationRequest.num_rack negative_request < 0
  /\ InstallationRequest.num_shelves_per_rack negative_request < 0
  /\ SpaceLayoutService.get_shelf_layout
       (converted_space negative_request request_db)
       (snd (InstallationRequestService.convert_to_space
               (snd (fst (InstallationRequestStateService.transition
                            negative_request
                            InstallationRequest.Status.COMPLETED request_db)))
               (snd (InstallationRequestStateService.transition
                       negative_request
                       InstallationRequest.Status.COMPLETED request_db))))
     = None.
Proof.
  assert (Hnr : InstallationRequest.num_rack negative_request < 0)
    by (simpl; lia).
  assert (Hns : InstallationRequest.num_shelves_per_rack negative_request < 0)
    by (simpl; lia).
  split; [reflexivity|]. split; [exact Hnr|]. split; [exact Hns|].
  apply (negative_counts_pass_the_guard negative_request request_db
           eq_refl Hnr Hns).
Defined.

(** ** The layout and the dimensions of a converted Space *)

Lemma fold_left_invariant {A B : Type} (P : A -> Prop) (f : A -> B -> A)
    (l : list B) (a : A) :
  (forall a b, P a -> P (f a b)) -> P a -> P (fold_left f l a).
Proof.
  intros Hstep. revert a. induction l as [|b l IH]; simpl; auto.
Qed.

Lemma insert_shelf_unique (rack : Z) (label : string) (db : Store) :
  unique_shelf_ids db ->
  unique_shelf_ids (SpaceService.insert_shelf rack label db).
Proof.
  unfold unique_shelf_ids, SpaceService.insert_shelf.
  cbn [shelves set_shelves]. intros H. rewrite map_app.
  apply NoDup_app; [exact H|repeat constructor; auto|].
  intros i Hi [<-|[]]. apply next_id_above in Hi. cbn [Shelf.id map] in Hi.
  lia.
Qed.

Lemma create_shelves_unique (space : Space.t) (num_rack n : Z) (db : Store) :
  unique_shelf_ids db ->
  unique_shelf_ids (SpaceService.create_shelves space num_rack n db).
Proof.
  unfold SpaceService.create_shelves.
  apply fold_left_invariant. clear db. intros db _ H.
  unfold SpaceService.insert_rack. cbv beta iota zeta.
  apply fold_left_invariant; [|exact H].
  intros db' i. apply insert_shelf_unique.
Qed.

Lemma convert_to_space_unique (r : InstallationRequest.t) (db : Store) :
  unique_shelf_ids db ->
  unique_shelf_ids (snd (InstallationRequestService.convert_to_space r db)).
Proof.
  intros H. unfold InstallationRequestService.convert_to_space.
  destruct (String.eqb _ _); [|exact H].
  unfold InstallationRequestService.insert_space. cbv beta iota zeta.
  cbn [snd].
  match goal with
  | |- unique_shelf_ids (set_installation_requests _ ?d) =>
      change (unique_shelf_ids d)
  end.
  apply create_shelves_unique. exact H.
Qed.

Lemma filter_keeps_unique_keys {Row : Type} (pk : Row -> Z)
    (keep : Row -> bool) (table : list Row)
    (Hunique : NoDup (map pk table)) :
  NoDup (map pk (filter keep table)).
Proof.
  induction table as [|x table IH]; simpl in *; [constructor|].
  inversion Hunique as [|? ? Hnotin Hnd]; subst.
  destruct (keep x); simpl; [|now apply IH].
  constructor; [|now apply IH].
  intros Hin. apply Hnotin. apply in_map_iff in Hin as [y [Hy Hin]].
  apply filter_In in Hin as [Hin _]. rewrite <- Hy. now apply in_map.
Qed.

Lemma distinct_available_unique (db : Store) (r : Rack.t) :
  unique_shelf_ids db ->
  distinct_available_shelves_of db r = available_shelves_of db r.
Proof.
  intros H. unfold distinct_available_shelves_of, available_shelves_of.
  rewrite nodup_fixed_point, length_map; [reflexivity|].
  now apply filter_keeps_unique_keys.
Qed.

Lemma map_constant_on {A B : Type} (f : A -> B) (c : B) (l : list A) :
  (forall x, In x l -> f x = c) -> map f l = repeat c (List.length l).
Proof.
  induction l as [|x l IH]; simpl; intros H; [reflexivity|].
  rewrite (H x (or_introl eq_refl)), IH; [reflexivity|].
  intros y Hy. apply H. now right.
Qed.

(** The racks and shelves of a Space just converted, read back through
    the queries. *)
Lemma converted_inventory (r : InstallationRequest.t) (db : Store) :
  foreign_keys_ok db = true ->
  InstallationRequest.status r = InstallationRequest.Status.COMPLETED ->
  let space := converted_space r db in
  let db' := snd (InstallationRequestService.convert_to_space r db) in
  List.length (SpaceService.get_racks space db')
  = Z.to_nat (InstallationRequest.num_rack r)
  /\ forall rk, In rk (SpaceService.get_racks space db') ->
       Rack.length rk
       = InstallationRequest.num_shelves_per_rack r * SHELF_LENGTH
       /\ List.length (shelf_set (Rack.id rk) db')
          = Z.to_nat (InstallationRequest.num_shelves_per_rack r)
       /\ Forall (fun s => Shelf.is_available s = true)
                 (shelf_set (Rack.id rk) db').
Proof.
  intros Hfk Hc space db'. subst space db'.
  destruct (convert_to_space_shape r db Hc)
    as [nr [ns [E [Hlen [Hracks [Hshelves Hown]]]]]].
  rewrite E. cbn [snd].
  rewrite (converted_space_racks r db nr ns Hfk).
  2:{ eapply Forall_impl; [|exact Hracks]. intros rk H. apply H. }
  split; [exact Hlen|].
  rewrite Forall_forall in Hracks.
  intros rk Hrk. destruct (Hracks rk Hrk) as [_ [Hl Hfresh]].
  destruct (Hshelves rk Hrk) as [Hlab Hav].
  assert (Hset : forall d,
             shelf_set (Rack.id rk)
               (set_installation_requests d
                  (set_shelves (shelves db ++ ns)
                     (set_racks (racks db ++ nr)
                        (set_spaces (spaces db ++ [converted_space r db])
                           db))))
             = filter (fun s => Shelf.rack s =? Rack.id rk) ns).
  { intros d. unfold shelf_set.
    cbn [shelves set_installation_requests set_shelves set_racks set_spaces].
    rewrite filter_app, filter_nil_when; [reflexivity|].
    intros s Hs. apply Z.eqb_neq. intros Heq.
    apply (foreign_keys_ok_shelves db s Hfk) in Hs.
    specialize (Hfresh (Shelf.rack s) Hs). lia. }
  rewrite Hset. split; [exact Hl|]. split; [|exact Hav].
  rewrite <- (length_map Shelf.shelf_label), Hlab.
  unfold shelf_labels, range. now rewrite length_map, length_seq.
Qed.

Lemma first_order_by_nonempty {A : Type} (key : A -> Z) (l : list A) :
  l <> [] -> exists x, first (order_by key l) = Some x /\ In x l.
Proof.
  intros Hne. destruct (first (order_by key l)) as [x|] eqn:E.
  - exists x. split; [reflexivity|].
    now apply first_order_by_Some in E.
  - apply first_order_by_None in E. contradiction.
Qed.

Lemma length_nonempty {A : Type} (l : list A) (n : Z) :
  1 <= n -> List.length l = Z.to_nat n -> l <> [].
Proof. intros Hn Hl ->. simpl in Hl. lia. Qed.

Lemma all_available_count (db : Store) (r : Rack.t) :
  Forall (fun s => Shelf.is_available s = true) (shelf_set (Rack.id r) db) ->
  available_shelves_of db r
  = Z.of_nat (List.length (shelf_set (Rack.id r) db)).
Proof.
  intros Hall. unfold available_shelves_of.
  rewrite <- (filter_filter_andb Shelf.is_available).
  fold (shelf_set (Rack.id r) db).
  rewrite filter_all_when; [reflexivity|].
  now apply Forall_forall.
Qed.

(** The layout of a Space just converted from a request with at least one
    rack and one shelf per rack: num_rack rows of num_shelves_per_rack
    entries, all [True]. *)
Theorem converted_space_layout (r : InstallationRequest.t) (db : Store) :
  foreign_keys_ok db = true ->
  unique_shelf_ids db ->
  InstallationRequest.status r = InstallationRequest.Status.COMPLETED ->
  1 <= InstallationRequest.num_rack r ->
  1 <= InstallationRequest.num_shelves_per_rack r ->
  SpaceLayoutService.get_shelf_layout
    (converted_space r db)
    (snd (InstallationRequestService.convert_to_space r db))
  = Some (repeat
            (repeat true
                    (Z.to_nat (InstallationRequest.num_shelves_per_rack r)))
            (Z.to_nat (InstallationRequest.num_rack r))).
Proof.
  intros Hfk Hunique Hc Hnr Hns.
  destruct (converted_inventory r db Hfk Hc) as [Hlen Hall].
  pose proof (convert_to_space_unique r db Hunique) as Hunique'.
  set (space := converted_space r db) in *.
  set (db' := snd (InstallationRequestService.convert_to_space r db)) in *.
  set (n := InstallationRequest.num_shelves_per_rack r) in *.
  unfold SpaceLayoutService.get_shelf_layout, SpaceProperties.first_rack.
  destruct (first_order_by_nonempty Rack.id (SpaceService.get_racks space db')
              (length_nonempty _ _ Hnr Hlen)) as [rk0 [E0 Hrk0]].
  rewrite E0. destruct (Hall rk0 Hrk0) as [Hl0 [Hlen0 _]].
  destruct (first_order_by_nonempty Shelf.id (shelf_set (Rack.id rk0) db')
              (length_nonempty _ _ Hns Hlen0)) as [sh0 [E1 _]].
  rewrite E1. f_equal.
  assert (Htotal : Rack.length rk0 / ShelfProperties.length sh0 = n).
  { rewrite Hl0. unfold ShelfProperties.length, SHELF_LENGTH.
    apply Z.div_mul. lia. }
  rewrite Htotal.
  rewrite (map_constant_on (distinct_available_shelves_of db') n).
  - rewrite map_repeat.
    rewrite <- (Permutation_length (order_by_perm Rack.id _)), Hlen.
    f_equal. unfold SpaceLayoutService.layout_row.
    rewrite Z.sub_diag. simpl. apply app_nil_r.
  - intros rk Hrk. apply order_by_In in Hrk.
    destruct (Hall rk Hrk) as [_ [Hlenk Havk]].
    rewrite (distinct_available_unique db' rk Hunique').
    rewrite (all_available_count db' rk Havk), Hlenk. lia.
Qed.

(** The dimensions of a Space just converted from a request with at least
    one rack and one shelf per rack: its length is that of a rack,
    num_shelves_per_rack x 50, its width the shelf width 46, and its
    total_shelves is num_rack x num_shelves_per_rack, the number of
    shelves created for it. *)
Theorem converted_space_dimensions (r : InstallationRequest.t) (db : Store) :
  foreign_keys_ok db = true ->
  InstallationRequest.status r = InstallationRequest.Status.COMPLETED ->
  1 <= InstallationRequest.num_rack r ->
  1 <= InstallationRequest.num_shelves_per_rack r ->
  let space := converted_space r db in
  let db' := snd (InstallationRequestService.convert_to_space r db) in
  SpaceProperties.length space db'
  = Some (InstallationRequest.num_shelves_per_rack r * 50)
  /\ SpaceProperties.width space db' = Some 46
  /\ SpaceProperties.total_shelves space db'
     = Some (InstallationRequest.num_rack r
             * InstallationRequest.num_shelves_per_rack r).
Proof.
  intros Hfk Hc Hnr Hns space db'.
  destruct (converted_inventory r db Hfk Hc) as [Hlen Hall].
  fold space db' in Hlen, Hall.
  unfold SpaceProperties.total_shelves, SpaceProperties.width,
    SpaceProperties.length, SpaceProperties.first_rack, RackProperties.width.
  destruct (first_order_by_nonempty Rack.id (SpaceService.get_racks space db')
              (length_nonempty _ _ Hnr Hlen)) as [rk0 [E0 Hrk0]].
  rewrite E0. destruct (Hall rk0 Hrk0) as [Hl0 [Hlen0 _]].
  destruct (first_order_by_nonempty Shelf.id (shelf_set (Rack.id rk0) db')
              (length_nonempty _ _ Hns Hlen0)) as [sh0 [E1 _]].
  rewrite E1. cbn [option_map]. rewrite Hl0.
  split; [reflexivity|]. split; [reflexivity|]. f_equal.
  unfold space, converted_space. cbn [Space.height].
  unfold ShelfProperties.length, ShelfProperties.height, SHELF_LENGTH,
    SHELF_HEIGHT.
  replace (InstallationRequest.num_shelves_per_rack r * 50
           * (42 * InstallationRequest.num_rack r))
    with (InstallationRequest.num_rack r
          * InstallationRequest.num_shelves_per_rack r * (50 * 42)) by ring.
  apply Z.div_mul. lia.
Qed.

Lemma converted_space_layout_example :
  foreign_keys_ok request_db = true
  /\ unique_shelf_ids request_db
  /\ SpaceLayoutService.get_shelf_layout
       (converted_space completed_request request_db)
       (snd (InstallationRequestService.convert_to_space
               completed_request request_db))
     = Some [[true; true; true]; [true; true; true]].
Proof.
  split; [reflexivity|]. split; [exact sample_db_unique_shelf_ids|].
  assert (H1 : 1 <= InstallationRequest.num_rack completed_request)
    by (simpl; lia).
  assert (H2 : 1 <= InstallationRequest.num_shelves_per_rack completed_request)
    by (simpl; lia).
  exact (converted_space_layout completed_request request_db eq_refl
           sample_db_unique_shelf_ids eq_refl H1 H2).
Defined.

Lemma converted_space_dimensions_example :
  foreign_keys_ok request_db = true
  /\ SpaceProperties.total_shelves
       (converted_space completed_request request_db)
       (snd (InstallationRequestService.convert_to_space
               completed_request request_db))
     = Some 6.
Proof.
  split; [reflexivity|].
  assert (H1 : 1 <= InstallationRequest.num_rack completed_request)
    by (simpl; lia).
  assert (H2 : 1 <= InstallationRequest.num_shelves_per_rack completed_request)
    by (simpl; lia).
  exact (proj2 (proj2 (converted_space_dimensions
                         completed_request request_db eq_refl eq_refl
                         H1 H2))).
Defined.

(** ** Shelf labels *)

Lemma int_of_label_zero (s : string) :
  int_of_label (String "0" s) = int_of_label s.
Proof.
  unfold int_of_label. cbn [NilEmpty.uint_of_string].
  now destruct (NilEmpty.uint_of_string s).
Qed.

Lemma int_of_label_zeros (k : nat) (s : string) :
  int_of_label (zeros k ++ s) = int_of_label s.
Proof.
  induction k as [|k IH]; [reflexivity|].
  cbn [zeros String.append]. now rewrite int_of_label_zero.
Qed.

Lemma int_of_label_str (i : nat) : int_of_label (str i) = Some i.
Proof.
  unfold int_of_label, str, NilZero.string_of_uint.
  pose proof (DecimalNat.Unsigned.of_to i) as Hi.
  destruct (Nat.to_uint i) eqn:E;
    try (rewrite NilEmpty.usu; cbn [option_map]; now rewrite Hi).
  simpl in Hi. subst i. reflexivity.
Qed.

(** A shelf label read back as a number is the shelf's index in its rack
    ([int(str(i).zfill(3)) == i]), so the labels [create_shelves] gives
    the shelves of one rack are pairwise different, also beyond three
    digits. *)
Theorem shelf_label_round_trip :
  (forall i, int_of_label (zfill 3 (str i)) = Some i)
  /\ (forall n, NoDup (shelf_labels n))
  /\ (forall n, List.length (shelf_labels n) = Z.to_nat n).
Proof.
  assert (Hdecode : forall i, int_of_label (zfill 3 (str i)) = Some i).
  { intros i. unfold zfill. rewrite int_of_label_zeros.
    apply int_of_label_str. }
  split; [exact Hdecode|]. split.
  - intros n. unfold shelf_labels, range.
    apply Injective_map_NoDup; [|apply seq_NoDup].
    intros i j E. apply (f_equal int_of_label) in E.
    rewrite !Hdecode in E. congruence.
  - intros n. unfold shelf_labels, range.
    now rewrite length_map, length_seq.
Qed.

(** ** Prices *)

Lemma load_price_unlisted (area : string) :
  ~ In area location_codes ->
  filter (fun data => String.eqb (fst (fst data)) area) LOCATION_DEFS = [].
Proof.
  intros Hn. apply filter_nil_when. intros data Hd.
  apply String.eqb_neq. intros E. apply Hn. rewrite <- E.
  unfold location_codes.
  exact (in_map (fun d => fst (fst d)) LOCATION_DEFS data Hd).
Qed.

(** [load_price] gives a Location the rate 6.99 when its area is one of
    the 54 listed codes and the rate 0 for any other area string; the
    other fields are left as they are. *)
Theorem load_price_spec (loc : Location.t) :
  Location.id (load_price loc) = Location.id loc
  /\ Location.area (load_price loc) = Location.area loc
  /\ Location.address (load_price loc) = Location.address loc
  /\ (In (Location.area loc) location_codes ->
      Location.price_per_day (load_price loc) = 699 # 100)
  /\ (~ In (Location.area loc) location_codes ->
      Location.price_per_day (load_price loc) = 0%Q)
  /\ List.length location_codes = 54%nat.
Proof.
  split; [reflexivity|]. split; [reflexivity|]. split; [reflexivity|].
  unfold load_price. cbn [Location.price_per_day].
  split; [|split; [|reflexivity]].
  - intros H. unfold location_codes in H. cbn [map LOCATION_DEFS fst] in H.
    repeat (destruct H as [<-|H]; [reflexivity|]). destruct H.
  - intros H. now rewrite (load_price_unlisted _ H).
Qed.

(** For a booking whose total_price is in the range of its field (less
    than 10000 either way), [get_price_per_day] raises exactly when the
    booking holds no shelf or its end date is the day before its start
    date, the two ways for the divisor to be zero. *)
Theorem get_price_per_day_error (b : Booking.t) :
  (- (10000) < Booking.total_price b)%Q ->
  (Booking.total_price b < 10000)%Q ->
  BookingService.get_price_per_day b = None <->
  Booking.num_shelves_occupied b = 0%nat
  \/ Booking.end_date b = Booking.start_date b - 1.
Proof.
  intros Hlow Hhigh.
  unfold BookingService.get_price_per_day, BookingService.get_total_days,
    DateMgr.get_total_days.
  set (k := Z.of_nat (Booking.num_shelves_occupied b)
            * (Booking.end_date b - Booking.start_date b + 1)).
  split.
  - intros Hnone.
    destruct (Z.eq_dec k 0) as [E|E].
    + apply Z.mul_eq_0 in E as [E|E]; [left|right]; lia.
    + exfalso. revert Hnone. apply decimal_divide_in_range; [exact E|].
      unfold Qlt in Hlow, Hhigh. cbn [Qnum Qden Qopp inject_Z] in *.
      change (10 ^ 4) with 10000. lia.
  - intros H. assert (E : k = 0) by (unfold k; destruct H as [H|H]; nia).
    rewrite E. reflexivity.
Qed.

(** The booking of no shelf raises; 20.00 for three shelves and one day
    does not, and its price per day is the quotient rounded to 28
    digits, 6.666666666666666666666666667. *)
Lemma get_price_per_day_error_example :
  BookingService.get_price_per_day zero_shelf_booking = None
  /\ BookingService.get_price_per_day rounded_booking <> None
  /\ BookingService.get_price_per_day rounded_booking
     = Some (6666666666666666666666666667
             # 1000000000000000000000000000).
Proof.
  split; [|split; [|reflexivity]].
  - apply (get_price_per_day_error zero_shelf_booking);
      [reflexivity|reflexivity|]. left. reflexivity.
  - intros H.
    apply (get_price_per_day_error rounded_booking) in H;
      [|reflexivity|reflexivity].
    destruct H as [H|H]; discriminate H.
Defined.

(** ** Orientation of the item *)

(** The search does not depend on which of the two horizontal dimensions
    is given as length and which as width. *)
Theorem search_ignores_orientation (search_location : option string)
    (search_length search_width search_height : Z) (db : Store) :
  SpaceService.get_available_spaces search_location search_length
    search_width search_height db
  = SpaceService.get_available_spaces search_location search_width
      search_length search_height db.
Proof. apply get_available_spaces_swap. Qed.

(** ** Listings after a refresh *)

Lemma run_settled_rows (today : Z) (l : list Booking.t) (db : Store)
    (r : Booking.t) :
  In r (bookings (fold_left (refresh_step today) l db)) ->
  In (Booking.id r) (map Booking.id l) ->
  settled today r.
Proof.
  intros Hr Hid.
  destruct (run_settled_key today l db (Booking.id r) (or_introl Hid))
    as [b' [Hb' Hall]].
  now rewrite (Hall r Hr eq_refl).
Qed.

Lemma settled_dates (today : Z) (b : Booking.t) :
  settled today b ->
  In (Booking.status b) Booking.Status.values
  /\ (Booking.status b = Booking.Status.BOOKED ->
      Booking.occupying_space b = false
      /\ today < Booking.start_date b /\ today <= Booking.end_date b)
  /\ (Booking.status b = Booking.Status.ACTIVE ->
      Booking.occupying_space b = true
      /\ Booking.start_date b <= today <= Booking.end_date b)
  /\ (Booking.status b = Booking.Status.PAST ->
      Booking.occupying_space b = false /\ Booking.end_date b < today)
  /\ (Booking.status b = Booking.Status.CANCELLED ->
      Booking.occupying_space b = false).
Proof.
  intros [Hsync Hauto]. unfold synced in Hsync.
  unfold automatic_status in Hauto.
  destruct (String.eqb_spec (Booking.status b) Booking.Status.CANCELLED)
    as [Hc|Hc].
  { rewrite Hc in *. simpl in Hsync. split; [simpl; auto|].
    repeat split; try discriminate; auto. }
  destruct (Z.ltb_spec (Booking.end_date b) today) as [He|He].
  { rewrite <- Hauto in *. simpl in Hsync. split; [simpl; auto|].
    repeat split; try discriminate; auto. }
  destruct (Z.leb_spec (Booking.start_date b) today) as [Hs|Hs];
    rewrite <- Hauto in *; simpl in Hsync; (split; [simpl; auto|]);
    repeat split; try discriminate; auto; lia.
Qed.

Lemma get_bookings_In (space : Space.t) (c : ascii) (status : string)
    (db : Store) (b : Booking.t) :
  In b (get_bookings (Some space) (Some (String c status)) db) <->
  In b (bookings db)
  /\ Booking.status b = String c status
  /\ exists rk, get_row Rack.id (Booking.rack b) (racks db) = Some rk
                /\ Rack.space rk = Space.id space.
Proof.
  unfold get_bookings. rewrite !filter_In, String.eqb_eq. split.
  - intros [[Hb Hr] Hs]. split; [exact Hb|]. split; [exact Hs|].
    destruct (get_row Rack.id (Booking.rack b) (racks db)) as [rk|];
      [|discriminate].
    exists rk. split; [reflexivity|now apply Z.eqb_eq].
  - intros [Hb [Hs [rk [Hrk Hsp]]]]. rewrite Hrk.
    repeat split; auto. now apply Z.eqb_eq.
Qed.

(** After [update_status_all], the bookings [get_bookings] lists for a
    Space under a status are bookings on a rack of that Space, and the
    status tells where today lies: an Active one is occupying and today is
    within its dates, a Booked one is not occupying and starts after
    today, a Past one is not occupying and ended before today. *)
Theorem listed_bookings_after_refresh (today : Z) (db : Store)
    (space : Space.t) (b : Booking.t) :
  let db' := BookingStateService.update_status_all today db in
  (In b (get_bookings (Some space) (Some Booking.Status.ACTIVE) db') ->
   Booking.occupying_space b = true
   /\ Booking.start_date b <= today <= Booking.end_date b
   /\ exists rk, get_row Rack.id (Booking.rack b) (racks db) = Some rk
                 /\ Rack.space rk = Space.id space)
  /\ (In b (get_bookings (Some space) (Some Booking.Status.BOOKED) db') ->
      Booking.occupying_space b = false
      /\ today < Booking.start_date b
      /\ exists rk, get_row Rack.id (Booking.rack b) (racks db) = Some rk
                    /\ Rack.space rk = Space.id space)
  /\ (In b (get_bookings (Some space) (Some Booking.Status.PAST) db') ->
      Booking.occupying_space b = false
      /\ Booking.end_date b < today
      /\ exists rk, get_row Rack.id (Booking.rack b) (racks db) = Some rk
                    /\ Rack.space rk = Space.id space).
Proof.
  intros db'.
  assert (Hracks : racks db' = racks db).
  { unfold db', BookingStateService.update_status_all.
    fold (refresh_step today). apply (run_frame today). }
  assert (Hsettled : forall r, In r (bookings db') -> settled today r).
  { intros r Hr. unfold db', BookingStateService.update_status_all in Hr.
    fold (refresh_step today) in Hr.
    apply (run_settled_rows today (bookings db) db r Hr).
    apply run_keys in Hr as [Hr|Hr]; exact Hr. }
  split; [|split]; intros Hin;
    apply get_bookings_In in Hin as [Hb [Hs Hrk]];
    rewrite Hracks in Hrk;
    destruct (settled_dates today b (Hsettled b Hb))
      as [_ [Hbooked [Hactive [Hpast _]]]].
  - destruct (Hactive Hs) as [Ho Hd]. auto.
  - destruct (Hbooked Hs) as [Ho [Hd _]]. auto.
  - destruct (Hpast Hs) as [Ho Hd]. auto.
Qed.

(** ** The dashboard of a lessee *)

Lemma filter_partition_perm {A : Type} (p q : A -> bool) (l : list A) :
  (forall x, In x l -> q x = negb (p x)) ->
  Permutation (filter p l ++ filter q l) l.
Proof.
  induction l as [|x l IH]; simpl; intros H; [constructor|].
  assert (IH' : Permutation (filter p l ++ filter q l) l)
    by (apply IH; intros y Hy; apply H; now right).
  rewrite (H x (or_introl eq_refl)). destruct (p x); simpl.
  - now constructor.
  - apply Permutation_sym, Permutation_cons_app. now apply Permutation_sym.
Qed.

Lemma sorted_latest_first (l : list Booking.t) :
  StronglySorted (fun x y => Booking.end_date y <= Booking.end_date x)
                 (order_by (fun b => - Booking.end_date b) l).
Proof.
  pose proof (order_by_sorted (fun b => - Booking.end_date b) l) as H.
  induction H as [|x l' Hs IH Hall]; constructor; [exact IH|].
  eapply Forall_impl; [|exact Hall]. unfold key_le. intros y Hy. lia.
Qed.

Lemma same_booking_data_keys (b r : Booking.t) :
  same_booking_data b r ->
  Booking.id r = Booking.id b /\ Booking.lessee r = Booking.lessee b.
Proof. unfold same_booking_data. intros ->. split; reflexivity. Qed.

(** The dashboard of a lessee, once the loop has refreshed the bookings:
    every booking of the user is in exactly one of the two lists; the
    upcoming list holds the Booked and Active ones, none of which has
    ended before today; the other list holds the Past ones, which ended
    before today, and the Cancelled ones; and each list is in the order of
    end dates, latest first. *)
Theorem lessee_dashboard_lists (today user : Z) (db : Store) :
  let active := fst (fst (lessee_dashboard today user db)) in
  let past := snd (fst (lessee_dashboard today user db)) in
  let db' := snd (lessee_dashboard today user db) in
  Permutation (active ++ past)
              (filter (fun b => Booking.lessee b =? user) (bookings db'))
  /\ (forall b, In b active ->
                In (Booking.status b)
                   [Booking.Status.BOOKED; Booking.Status.ACTIVE]
                /\ today <= Booking.end_date b
                /\ synced b)
  /\ (forall b, In b past ->
                ((Booking.status b = Booking.Status.PAST
                  /\ Booking.end_date b < today)
                 \/ Booking.status b = Booking.Status.CANCELLED)
                /\ Booking.occupying_space b = false)
  /\ StronglySorted (fun x y => Booking.end_date y <= Booking.end_date x)
                    active
  /\ StronglySorted (fun x y => Booking.end_date y <= Booking.end_date x)
                    past.
Proof.
  unfold lessee_dashboard. cbv zeta. cbn [fst snd].
  set (l := filter (fun b => Booking.lessee b =? user) (bookings db)).
  change (fun db0 booking =>
            snd (BookingStateService.update_status today booking None db0))
    with (refresh_step today).
  set (db' := fold_left (refresh_step today) l db).
  set (mine := filter (fun b => Booking.lessee b =? user) (bookings db')).
  assert (Hsettled : forall r, In r mine -> settled today r).
  { intros r Hr. apply filter_In in Hr as [Hr Hu]. apply Z.eqb_eq in Hu.
    apply (run_settled_rows today l db r Hr).
    assert (Horigin : exists b, In b (bookings db)
                                /\ same_booking_data b r).
    { apply (run_booking_data today l db db); auto.
      - intros b Hb. now apply filter_In in Hb.
      - intros r0 Hr0. exists r0. split; [exact Hr0|].
        apply same_booking_data_refl. }
    destruct Horigin as [b [Hb Hsame]].
    apply same_booking_data_keys in Hsame as [Hid Hlessee].
    rewrite Hid. apply in_map. apply filter_In. split; [exact Hb|].
    apply Z.eqb_eq. congruence. }
  split; [|split; [|split; [|split]]].
  - eapply perm_trans;
      [apply Permutation_app; apply Permutation_sym, order_by_perm|].
    apply filter_partition_perm. intros b Hb.
    destruct (settled_dates today b (Hsettled b Hb)) as [Hin _].
    destruct Hin as [<-|[<-|[<-|[<-|[]]]]]; reflexivity.
  - intros b Hb. apply order_by_In in Hb. apply filter_In in Hb as [Hb Hst].
    destruct (settled_dates today b (Hsettled b Hb))
      as [_ [Hbooked [Hactive _]]].
    apply orb_true_iff in Hst as [Hst|Hst]; apply String.eqb_eq in Hst.
    + destruct (Hbooked Hst) as [_ [_ He]].
      split; [rewrite Hst; simpl; auto|]. split; [exact He|].
      apply (Hsettled b Hb).
    + destruct (Hactive Hst) as [_ [_ He]].
      split; [rewrite Hst; simpl; auto|]. split; [exact He|].
      apply (Hsettled b Hb).
  - intros b Hb. apply order_by_In in Hb. apply filter_In in Hb as [Hb Hst].
    destruct (settled_dates today b (Hsettled b Hb))
      as [_ [_ [_ [Hpast Hcancelled]]]].
    apply orb_true_iff in Hst as [Hst|Hst]; apply String.eqb_eq in Hst.
    + destruct (Hpast Hst) as [Ho He]. split; [left; auto|exact Ho].
    + split; [now right|now apply Hcancelled].
  - apply sorted_latest_first.
  - apply sorted_latest_first.
Qed.

(** ** Two bookings on one rack *)

(** Two bookings placed on the same rack and activated one after the
    other: the rack is left with its available shelves less the two
    counts, or with none when they do not fit; the second booking takes
    only the shelves the first one left, yet it is flagged occupying like
    any other. *)
Theorem second_activation_takes_the_rest (b1 b2 : Booking.t) (db : Store)
    (r : Rack.t) :
  unique_shelf_ids db ->
  Booking.status b1 = Booking.Status.ACTIVE ->
  Booking.occupying_space b1 = false ->
  Booking.status b2 = Booking.Status.ACTIVE ->
  Booking.occupying_space b2 = false ->
  Booking.rack b1 = Rack.id r ->
  Booking.rack b2 = Rack.id r ->
  let n1 := Z.of_nat (Booking.num_shelves_occupied b1) in
  let n2 := Z.of_nat (Booking.num_shelves_occupied b2) in
  let db1 := snd (BookingStateService.update_space b1 db) in
  let db2 := snd (BookingStateService.update_space b2 db1) in
  Z.of_nat (List.length (BookingService.get_shelves b2 db1))
  = Z.min n2 (Z.max 0 (available_shelves_of db r - n1))
  /\ Booking.occupying_space (fst (BookingStateService.update_space b2 db1))
     = true
  /\ available_shelves_of db2 r
     = Z.max 0 (available_shelves_of db r - n1 - n2).
Proof.
  intros Hunique Hs1 Ho1 Hs2 Ho2 Hr1 Hr2 n1 n2 db1 db2.
  assert (E1 : BookingStateService.update_space b1 db
               = (Booking.set_occupying_space true b1,
                  BookingStateService.save
                    (Booking.set_occupying_space true b1)
                    (BookingService.update_shelves b1 false db))).
  { destruct (update_space_cases b1 db) as [[H _]|[[_ [_ E]]|[H _]]];
      [contradiction|exact E|].
    rewrite Ho1 in H. symmetry in H. apply String.eqb_neq in H.
    contradiction. }
  assert (Hunique1 : unique_shelf_ids db1).
  { unfold db1. rewrite E1.
    exact (update_shelves_unique b1 false db Hunique). }
  assert (E2 : BookingStateService.update_space b2 db1
               = (Booking.set_occupying_space true b2,
                  BookingStateService.save
                    (Booking.set_occupying_space true b2)
                    (BookingService.update_shelves b2 false db1))).
  { destruct (update_space_cases b2 db1) as [[H _]|[[_ [_ E]]|[H _]]];
      [contradiction|exact E|].
    rewrite Ho2 in H. symmetry in H. apply String.eqb_neq in H.
    contradiction. }
  assert (Havail1 : available_shelves_of db1 r
                    = available_shelves_of db r
                      - Z.min n1 (available_shelves_of db r)).
  { unfold db1. rewrite E1.
    pose proof (occupy_count b1 db Hunique r Ho1) as H.
    rewrite Hr1, Z.eqb_refl in H. exact H. }
  assert (Havail2 : available_shelves_of db2 r
                    = available_shelves_of db1 r
                      - Z.min n2 (available_shelves_of db1 r)).
  { unfold db2. rewrite E2.
    pose proof (occupy_count b2 db1 Hunique1 r Ho2) as H.
    rewrite Hr2, Z.eqb_refl in H. exact H. }
  assert (H0 : 0 <= available_shelves_of db r)
    by (unfold available_shelves_of; lia).
  assert (Hn1 : 0 <= n1) by (unfold n1; lia).
  assert (Hn2 : 0 <= n2) by (unfold n2; lia).
  split; [|split].
  - rewrite (get_shelves_length b2 db1 Hunique1), Nat2Z.inj_min.
    rewrite (wanted_available b2 db1 r Ho2 (eq_sym Hr2)), Havail1.
    fold n2. lia.
  - now rewrite E2.
  - rewrite Havail2, Havail1. lia.
Qed.

Lemma second_activation_takes_the_rest_example :
  unique_shelf_ids sample_db
  /\ available_shelves_of sample_db (Rack.mk 2 1 300) = 2
  /\ Booking.num_shelves_occupied active_booking = 2%nat
  /\ List.length
       (BookingService.get_shelves
          active_booking
          (snd (BookingStateService.update_space active_booking sample_db)))
     = 0%nat
  /\ available_shelves_of
       (snd (BookingStateService.update_space
               active_booking
               (snd (BookingStateService.update_space
                       active_booking sample_db))))
       (Rack.mk 2 1 300) = 0.
Proof.
  split; [exact sample_db_unique_shelf_ids|].
  split; [reflexivity|]. split; [reflexivity|].
  destruct (second_activation_takes_the_rest
              active_booking active_booking sample_db (Rack.mk 2 1 300)
              sample_db_unique_shelf_ids eq_refl eq_refl eq_refl eq_refl
              eq_refl eq_refl) as [Hlen [_ Hcount]].
  split; [|exact Hcount].
  apply Nat2Z.inj. exact Hlen.
Defined.

(** ** A search that raises *)

Lemma min_shelves_required_Raise (search_length : Z) (e : exn) :
  SpaceService.min_shelves_required search_length = Raise e ->
  e = OverflowError /\ 2 ^ 52 <= Z.abs search_length.
Proof.
  intros H. split.
  - unfold SpaceService.min_shelves_required, true_divide in H.
    change (SHELF_LENGTH =? 0) with false in H. cbv iota in H.
    destruct (search_length =? 0); [discriminate H|].
    destruct (round_quotient 2 53 (-1074) (Z.abs search_length)
                             (Z.abs SHELF_LENGTH)) as [c x].
    destruct (digits 2 c + x >? 1024); [|discriminate H].
    now inversion H.
  - destruct (Z.le_gt_cases (2 ^ 52) (Z.abs search_length)) as [Hle|Hlt];
      [exact Hle|].
    rewrite (min_shelves_required_exact search_length Hlt) in H.
    discriminate H.
Qed.

(** The one error [get_available_spaces] can raise is the OverflowError of
    the division [search_length / SHELF_LENGTH]: it is raised only for an
    item that passes the width and height checks and whose longer side is
    2^52 or more, and it is raised for a side of 10^310 whatever the
    database holds. *)
Theorem search_raises_only_overflow :
  (forall search_location search_length search_width search_height db e,
      SpaceService.get_available_spaces search_location search_length
        search_width search_height db = Raise e ->
      e = OverflowError
      /\ Z.min search_length search_width <= SHELF_WIDTH
      /\ search_height <= SHELF_HEIGHT
      /\ 2 ^ 52 <= Z.abs (Z.max search_length search_width))
  /\ (forall search_location db,
         SpaceService.get_available_spaces search_location (10 ^ 310) 1 1 db
         = Raise OverflowError).
Proof.
  split.
  - intros search_location search_length search_width search_height db e H.
    destruct (min_shelves_required_Raise
                _ e (get_available_spaces_Raise _ _ _ _ _ _ H))
      as [He Hbound].
    split; [exact He|]. split; [|split; [|exact Hbound]].
    + unfold SpaceService.get_available_spaces in H. cbv iota beta in H.
      destruct (Z.gtb_spec (Z.min search_length search_width) SHELF_WIDTH);
        [discriminate H|lia].
    + unfold SpaceService.get_available_spaces in H. cbv iota beta in H.
      destruct (_ >? SHELF_WIDTH); [discriminate H|].
      destruct (Z.gtb_spec search_height SHELF_HEIGHT);
        [discriminate H|lia].
  - intros search_location db. unfold SpaceService.get_available_spaces.
    cbv iota beta.
    change (Z.min (10 ^ 310) 1 >? SHELF_WIDTH) with false.
    change (1 >? SHELF_HEIGHT) with false. cbv iota.
    replace (SpaceService.min_shelves_required (Z.max (10 ^ 310) 1))
      with (@Raise Z OverflowError) by (vm_compute; reflexivity).
    reflexivity.
Qed.
